(** * optimize_image_sampling: a shallow embedding of the notebook's own code

    The notebook [notebooks/DrizzlePac/optimize_image_sampling] is a linear
    sequence of cells.  The cells that carry logic of their own are embedded
    here as functions over an explicit model of what they touch:

    - the working directory, a tree of named entries (cells 7, 10, 29, 34);
    - FITS files, lists of header/data units whose headers are association
      lists of cards (cells 10, 12, 14, 34);
    - IEEE 754 binary64, binary32 and binary16 numbers, through the Standard
      Library's [SpecFloat] (cells 12, 14, 29, 34);
    - Python dictionaries as [gmap]s, and as association lists where the
      insertion order shows (cells 14, 18);
    - Python exceptions as the error case of a [result] monad.

    What the external libraries compute (numpy's rounding and statistics,
    astropy's column casts, the MDRIZTAB reader, the drizzle run itself) is
    the content of two type classes, [Numeric] and [Drizzlepac]; what the
    notebook relies on from numpy's float arithmetic ([np.arange], [np.modf],
    stores into half-precision arrays, scalar promotion) is modelled on
    [SpecFloat].

    The first part of the file holds the definitions, cell by cell, and the
    example inputs; the second part holds the properties. *)

From Stdlib Require Import ZArith QArith Qabs Lia Ascii List SpecFloat.
From Stdlib Require String.
From stdpp Require Import base option list strings gmap sorting.

Close Scope Q_scope.
Local Open Scope Z_scope.

(** ** Python values, exceptions and results

    The values a FITS header card can hold, which are also the keys and
    values of the notebook's dictionaries. *)

Inductive value : Type :=
  | VStr (s : string)
  | VInt (n : Z)
  | VFloat (x : spec_float)
  | VBool (b : bool).

#[global] Instance spec_float_eq_dec : EqDecision spec_float.
Proof. solve_decision. Defined.
#[global] Instance value_eq_dec : EqDecision value.
Proof. solve_decision. Defined.

Inductive pyerror : Type :=
  | KeyError (key : value)
  | IndexError
  | FileNotFoundError (path : string)
  | IsADirectoryError (path : string)
  | NotADirectoryError (path : string)
  | OSError (path : string)
  | TypeError
  | ValueError
  | OverflowError
  | NameError (name : string).

Inductive result (A : Type) : Type :=
  | Ok (a : A)
  | Raise (e : pyerror).
Arguments Ok {A} a.
Arguments Raise {A} e.

#[global] Instance result_ret : MRet result := fun A a => Ok a.
#[global] Instance result_bind : MBind result := fun A B k r =>
  match r with
  | Ok a => k a
  | Raise e => Raise e
  end.

#[global] Instance result_fmap : FMap result := fun A B f r =>
  match r with
  | Ok a => Ok (f a)
  | Raise e => Raise e
  end.

Definition is_lookup_error (e : pyerror) : bool :=
  match e with
  | KeyError _ | IndexError => true
  | _ => false
  end.

Definition of_option {A} (e : pyerror) (o : option A) : result A :=
  match o with
  | Some a => Ok a
  | None => Raise e
  end.

(** A [for] loop whose body may raise: the accumulator is threaded through
    the elements in order and the first exception aborts the loop. *)
Fixpoint for_each {A S} (body : S -> A -> result S) (xs : list A) (s : S)
  : result S :=
  match xs with
  | [] => Ok s
  | x :: xs' => s' ← body s x; for_each body xs' s'
  end.

(** [enumerate(xs)] *)
Fixpoint enumerate_from {A} (i : nat) (xs : list A) : list (nat * A) :=
  match xs with
  | [] => []
  | x :: xs' => (i, x) :: enumerate_from (S i) xs'
  end.
Definition enumerate {A} (xs : list A) : list (nat * A) := enumerate_from 0 xs.

(** ** Strings *)

Definition ascii_in_range (lo hi c : ascii) : bool :=
  (N.leb (N_of_ascii lo) (N_of_ascii c) && N.leb (N_of_ascii c) (N_of_ascii hi))%bool.

Definition upper_ascii (c : ascii) : ascii :=
  if ascii_in_range "a" "z" c
  then ascii_of_N (N_of_ascii c - 32)
  else c.

(** [str.upper()] on ASCII text; header keywords are looked up through it. *)
Fixpoint upper (s : string) : string :=
  match s with
  | EmptyString => EmptyString
  | String c s' => String (upper_ascii c) (upper s')
  end.

(** [needle in s] for strings. *)
Fixpoint contains (needle s : string) : bool :=
  (String.prefix needle s ||
   match s with
   | EmptyString => false
   | String _ s' => contains needle s'
   end)%bool.

(** [s.split(sep)] for a one-character separator. *)
Fixpoint split_on (sep : ascii) (s : string) : list string :=
  match s with
  | EmptyString => [EmptyString]
  | String c s' =>
      if Ascii.eqb c sep then EmptyString :: split_on sep s'
      else match split_on sep s' with
           | [] => [String c EmptyString]
           | w :: ws => String c w :: ws
           end
  end.

Definition join_path (comps : list string) : string :=
  match comps with
  | [] => EmptyString
  | c :: cs => fold_left (fun acc x => acc +:+ "/" +:+ x) cs c
  end.

(** ** Shell-style patterns ([fnmatch] / [glob])

    [*] matches any run of characters, [?] one character, [[a-z]] one
    character of a class ([[!a-z]] one outside it); anything else matches
    itself.  A [[] without a closing bracket is an ordinary character. *)

Inductive pat : Type :=
  | PLit (c : ascii)
  | PAny
  | PStar
  | PClass (negated : bool) (ranges : list (ascii * ascii)).

(** The items of a bracket expression up to the closing bracket; [first]
    is true on the first item, where a [']'] stands for itself. *)
Fixpoint parse_class (first : bool) (s : string)
  : option (list (ascii * ascii) * string) :=
  match s with
  | EmptyString => None
  | String c s1 =>
      if (Ascii.eqb c "]" && negb first)%bool then Some ([], s1)
      else
        match s1 with
        | String "-" (String d s2) =>
            if Ascii.eqb d "]"
            then option_map (fun '(r, rest) => ((c, c) :: r, rest)) (parse_class false s1)
            else option_map (fun '(r, rest) => ((c, d) :: r, rest)) (parse_class false s2)
        | _ => option_map (fun '(r, rest) => ((c, c) :: r, rest)) (parse_class false s1)
        end
  end.

Fixpoint translate_fuel (fuel : nat) (s : string) : list pat :=
  match fuel with
  | O => []
  | S fuel' =>
      match s with
      | EmptyString => []
      | String "*" s' => PStar :: translate_fuel fuel' s'
      | String "?" s' => PAny :: translate_fuel fuel' s'
      | String "[" s' =>
          let '(neg, body) :=
            match s' with
            | String "!" s'' => (true, s'')
            | _ => (false, s')
            end in
          match parse_class true body with
          | Some (ranges, rest) => PClass neg ranges :: translate_fuel fuel' rest
          | None => PLit "[" :: translate_fuel fuel' s'
          end
      | String c s' => PLit c :: translate_fuel fuel' s'
      end
  end.

Definition translate (pattern : string) : list pat :=
  translate_fuel (String.length pattern) pattern.

Definition class_matches (neg : bool) (ranges : list (ascii * ascii)) (c : ascii) : bool :=
  xorb neg (existsb (fun '(lo, hi) => ascii_in_range lo hi c) ranges).

Fixpoint match_pats (ps : list pat) (s : string) : bool :=
  match ps with
  | [] => match s with EmptyString => true | _ => false end
  | PLit c :: ps' =>
      match s with
      | String d s' => (Ascii.eqb c d && match_pats ps' s')%bool
      | EmptyString => false
      end
  | PAny :: ps' =>
      match s with
      | String _ s' => match_pats ps' s'
      | EmptyString => false
      end
  | PClass neg ranges :: ps' =>
      match s with
      | String d s' => (class_matches neg ranges d && match_pats ps' s')%bool
      | EmptyString => false
      end
  | PStar :: ps' =>
      (fix star (s : string) : bool :=
         (match_pats ps' s ||
          match s with
          | EmptyString => false
          | String _ s' => star s'
          end)%bool) s
  end.

(** [fnmatch.fnmatch(name, pattern)] on a POSIX system. *)
Definition fnmatch (name pattern : string) : bool :=
  match_pats (translate pattern) name.

(** [glob.has_magic]: the pattern holds one of the characters [*?[]. *)
Fixpoint has_magic (pattern : string) : bool :=
  match pattern with
  | EmptyString => false
  | String c s' =>
      (Ascii.eqb c "*" || Ascii.eqb c "?" || Ascii.eqb c "[" || has_magic s')%bool
  end.

Definition is_hidden (name : string) : bool :=
  match name with
  | String "." _ => true
  | _ => false
  end.

(** One path component of a glob: a component without wildcards names
    an entry literally; one with wildcards filters the directory listing and
    skips hidden entries unless the pattern itself starts with a dot. *)
Definition component_matches (pattern name : string) : bool :=
  if has_magic pattern
  then ((is_hidden pattern || negb (is_hidden name)) && fnmatch name pattern)%bool
  else String.eqb pattern name.

(** ** FITS files

    A FITS file is a list of header/data units.  A header is a list of
    cards; a keyword is looked up case-insensitively and the first card
    wins.  Pixel data is a two-dimensional array, a list of rows. *)

Definition header : Type := list (string * value).

Definition image : Type := list (list spec_float).

Record hdu : Type := mkHdu {
  hdu_header : header;
  hdu_data : option image
}.

Inductive content : Type :=
  | Fits (hdus : list hdu)
  | Other.

Fixpoint header_get (kw : string) (h : header) : result value :=
  match h with
  | [] => Raise (KeyError (VStr kw))
  | (k, v) :: h' => if String.eqb k (upper kw) then Ok v else header_get kw h'
  end.

(** ** The working directory

    A directory is a list of named entries in listing order. *)

#[warnings="-register-all"]
Inductive node : Type :=
  | File (c : content)
  | Dir (entries : list (string * node)).

Fixpoint dir_lookup (name : string) (es : list (string * node)) : option node :=
  match es with
  | [] => None
  | (n, x) :: es' => if String.eqb n name then Some x else dir_lookup name es'
  end.

Fixpoint dir_remove (name : string) (es : list (string * node)) : list (string * node) :=
  match es with
  | [] => []
  | (n, x) :: es' =>
      if String.eqb n name then dir_remove name es' else (n, x) :: dir_remove name es'
  end.

(** Replace the entry [name], or add it at the end of the listing. *)
Fixpoint dir_put (name : string) (x : node) (es : list (string * node))
  : list (string * node) :=
  match es with
  | [] => [(name, x)]
  | (n, y) :: es' =>
      if String.eqb n name then (n, x) :: es' else (n, y) :: dir_put name x es'
  end.

Fixpoint dir_alter (f : node -> node) (name : string) (es : list (string * node))
  : list (string * node) :=
  match es with
  | [] => []
  | (n, y) :: es' =>
      if String.eqb n name then (n, f y) :: es' else (n, y) :: dir_alter f name es'
  end.

(** The entry a relative path names; ["."] is the directory itself. *)
Fixpoint resolve (p : list string) (n : node) : option node :=
  match p with
  | [] => Some n
  | c :: p' =>
      if String.eqb c "." then resolve p' n
      else match n with
           | Dir es =>
               match dir_lookup c es with
               | Some x => resolve p' x
               | None => None
               end
           | File _ => None
           end
  end.

Fixpoint remove_at (p : list string) (n : node) : node :=
  match p with
  | [] => n
  | c :: p' =>
      if String.eqb c "." then remove_at p' n
      else match n with
           | Dir es =>
               match p' with
               | [] => Dir (dir_remove c es)
               | _ :: _ => Dir (dir_alter (remove_at p') c es)
               end
           | File _ => n
           end
  end.

Definition basename (p : list string) : string := List.last p EmptyString.

(** [glob.glob(pattern)]: the paths, component by component, that the
    pattern matches below [n], in listing order. *)
Fixpoint glob_from (pats : list string) (n : node) : list (list string) :=
  match pats with
  | [] => [[]]
  | p :: ps =>
      if String.eqb p "." then map (cons ".") (glob_from ps n)
      else match n with
           | Dir es =>
               flat_map (fun '(name, child) =>
                           if component_matches p name
                           then map (cons name) (glob_from ps child)
                           else []) es
           | File _ => []
           end
  end.

Definition glob (pattern : string) (root : node) : list (list string) :=
  glob_from (split_on "/" pattern) root.

(** [os.rename(src, dst)] on a POSIX system, for a destination named
    directly in the working directory. *)
Definition os_rename (src : list string) (dst : string) (root : node) : result node :=
  match resolve src root, remove_at src root with
  | None, _ => Raise (FileNotFoundError (join_path src))
  | Some x, Dir es =>
      match dir_lookup dst es, x with
      | Some (Dir _), File _ => Raise (IsADirectoryError dst)
      | Some (File _), Dir _ => Raise (NotADirectoryError dst)
      | Some (Dir (_ :: _)), Dir _ => Raise (OSError dst)
      | _, _ => Ok (Dir (dir_put dst x es))
      end
  | Some _, File c => Raise (NotADirectoryError dst)
  end.

(** [shutil.rmtree(name)] for a directory of the working directory. *)
Definition shutil_rmtree (name : string) (root : node) : result node :=
  match root with
  | Dir es =>
      match dir_lookup name es with
      | Some (Dir _) => Ok (Dir (dir_remove name es))
      | Some (File _) => Raise (NotADirectoryError name)
      | None => Raise (FileNotFoundError name)
      end
  | File _ => Raise (NotADirectoryError name)
  end.

(** *** Cell 7: move the downloaded exposures to the working directory

<<
for flt in glob.glob('./mastDownload/HST/*/*fl?.fits'):
    flt_name = os.path.split(flt)[-1]
    os.rename(flt, flt_name)
shutil.rmtree('mastDownload/')
>> *)

Definition download_pattern : string := "./mastDownload/HST/*/*fl?.fits".

Definition move_one (root : node) (flt : list string) : result node :=
  let flt_name := basename flt in
  os_rename flt flt_name root.

Definition cell7 (root : node) : result node :=
  root' ← for_each move_one (glob download_pattern root) root;
  shutil_rmtree "mastDownload" root'.

Definition downloaded (p : list string) : Prop :=
  exists d f, p = ["."; "mastDownload"; "HST"; d; f] /\ fnmatch f "*fl?.fits" = true.

(** ** Reading FITS files

    [fits.open(name)], [fits.getheader(name, ext)] and
    [fits.getval(name, keyword, ext=ext)] for a file of the working
    directory. *)

Definition fits_open (name : string) (root : node) : result (list hdu) :=
  match resolve [name] root with
  | None => Raise (FileNotFoundError name)
  | Some (Dir _) => Raise (IsADirectoryError name)
  | Some (File Other) => Raise (OSError name)
  | Some (File (Fits hdus)) => Ok hdus
  end.

Definition fits_getheader (name : string) (ext : nat) (root : node) : result header :=
  hdus ← fits_open name root;
  h ← of_option IndexError (hdus !! ext);
  Ok (hdu_header h).

Definition fits_getval (name kw : string) (ext : nat) (root : node) : result value :=
  h ← fits_getheader name ext root;
  header_get kw h.

(** ** Tables

    An [astropy.table.Table] is kept as its columns, in order: a name and
    the cells of that column, one per row. *)

Definition table : Type := list (string * list value).

Definition colnames (t : table) : list string := fst <$> t.

Definition n_rows (t : table) : nat :=
  match t with
  | [] => O
  | (_, col) :: _ => length col
  end.

Definition table_cell (t : table) (row col : nat) : option value :=
  t !! col ≫= fun c => snd c !! row.

Inductive dtype : Type := DStr | DF8.

(** The conversions and statistics that numpy and astropy provide.  Their
    numerical detail is outside the notebook; what the notebook relies on
    is that they are functions of their arguments. *)
Class Numeric : Type := {
  (** the cell of a column of the given dtype built from a header value *)
  column_cast : dtype -> value -> result value;
  (** [np.around(x, decimals)] and [np.round(x, decimals)] *)
  np_around : value -> Z -> result value;
  (** [float(s)] for the text of a number *)
  float_of_string : string -> result spec_float;
  (** [np.std] and [np.median] of a two-dimensional array *)
  np_std : image -> spec_float;
  np_median : image -> spec_float;
}.

(** The cells of one column, cast to its dtype. *)
Fixpoint cast_column `{Numeric} (d : dtype) (col : list value) : result (list value) :=
  match col with
  | [] => Ok []
  | v :: col' => c ← column_cast d v; cs ← cast_column d col'; Ok (c :: cs)
  end.

Fixpoint build_columns `{Numeric} (data : list (list value)) (j : nat)
    (names : list string) (dtypes : list dtype) : result table :=
  match names, dtypes with
  | [], [] => Ok []
  | name :: names', d :: dtypes' =>
      col ← cast_column d (omap (fun row => row !! j) data);
      t ← build_columns data (S j) names' dtypes';
      Ok ((name, col) :: t)
  | _, _ => Raise ValueError
  end.

(** [Table(np.array(data), names=names, dtype=dtypes)] for a list of rows:
    a row whose length differs from the number of names is refused, and so
    are lists of names and dtypes of different lengths.  The array of an
    empty list holds no data: the table then has the named columns and no
    row. *)
Definition Table_from_rows `{Numeric} (data : list (list value))
    (names : list string) (dtypes : list dtype) : result table :=
  if forallb (fun row => Nat.eqb (length row) (length names)) data
  then build_columns data 0 names dtypes
  else Raise ValueError.

(** *** Cell 10: the header summary table

<<
flt_files = sorted(glob.glob('*fl?.fits'))
data = []
keywords_ext0 = ["ROOTNAME", "ASN_ID", "TARGNAME", "DETECTOR", "FILTER", "EXPTIME",
                 "RA_TARG", "DEC_TARG", "POSTARG1", "POSTARG2", "DATE-OBS"]
keywords_ext1 = ["ORIENTAT"]
for flt_file in flt_files:
    path_data = []
    for keyword in keywords_ext0:
        path_data.append(fits.getval(flt_file, keyword, ext=0))
    for keyword in keywords_ext1:
        path_data.append(fits.getval(flt_file, keyword, ext=1))
    data.append(path_data)
keywords = keywords_ext0 + keywords_ext1
table = Table(np.array(data), names=keywords, dtype=[...])
>> *)

Definition flt_pattern : string := "*fl?.fits".

Definition sorted (names : list string) : list string := merge_sort String.le names.

Definition glob_flt_files (root : node) : list string :=
  sorted (join_path <$> glob flt_pattern root).

Definition keywords_ext0 : list string :=
  ["ROOTNAME"; "ASN_ID"; "TARGNAME"; "DETECTOR"; "FILTER"; "EXPTIME";
   "RA_TARG"; "DEC_TARG"; "POSTARG1"; "POSTARG2"; "DATE-OBS"].

Definition keywords_ext1 : list string := ["ORIENTAT"].

Definition keywords : list string := keywords_ext0 ++ keywords_ext1.

Definition summary_dtypes : list dtype :=
  [DStr; DStr; DStr; DStr; DStr; DF8; DF8; DF8; DF8; DF8; DStr; DF8].

Definition append_getval (root : node) (flt_file : string) (ext : nat)
    (path_data : list value) (keyword : string) : result (list value) :=
  v ← fits_getval flt_file keyword ext root;
  Ok (path_data ++ [v]).

Definition header_row (root : node) (flt_file : string) : result (list value) :=
  path_data ← for_each (append_getval root flt_file 0) keywords_ext0 [];
  for_each (append_getval root flt_file 1) keywords_ext1 path_data.

Definition append_row (root : node) (data : list (list value)) (flt_file : string)
  : result (list (list value)) :=
  path_data ← header_row root flt_file;
  Ok (data ++ [path_data]).

Definition cell10 `{Numeric} (root : node) : result (list string * table) :=
  let flt_files := glob_flt_files root in
  data ← for_each (append_row root) flt_files [];
  t ← Table_from_rows data keywords summary_dtypes;
  Ok (flt_files, t).

(** ** Floating-point numbers

    Python floats and [np.float64] are IEEE 754 binary64 numbers and
    [np.float16] binary16 numbers; both are [spec_float]s, with the
    operations of [SpecFloat] at the matching precision. *)

Definition b64_div : spec_float -> spec_float -> spec_float := SFdiv 53 1024.
Definition b64_mul : spec_float -> spec_float -> spec_float := SFmul 53 1024.
Definition b64_add : spec_float -> spec_float -> spec_float := SFadd 53 1024.
Definition b64_sub : spec_float -> spec_float -> spec_float := SFsub 53 1024.
Definition b64_of_Z (n : Z) : spec_float := binary_normalize 53 1024 n 0 false.

Definition b16_div : spec_float -> spec_float -> spec_float := SFdiv 11 16.

(** The binary64 number a decimal literal [num / den] denotes, for
    integers that binary64 holds exactly: the correctly rounded quotient. *)
Definition b64_lit (num den : Z) : spec_float := b64_div (b64_of_Z num) (b64_of_Z den).

(** The operand of a Python float operation: ints and bools convert,
    strings do not. *)
Definition py_to_float (v : value) : result spec_float :=
  match v with
  | VFloat x => Ok x
  | VInt n =>
      match b64_of_Z n with
      | S754_infinity _ => Raise OverflowError
      | x => Ok x
      end
  | VBool b => Ok (b64_of_Z (if b then 1 else 0))
  | VStr _ => Raise TypeError
  end.

(** A binary64 number stored in a binary16 array element: rounded to
    nearest, ties to even, overflowing to infinity. *)
Definition to_b16 (x : spec_float) : spec_float :=
  match x with
  | S754_finite s m e => binary_round 11 16 s m e
  | _ => x
  end.

(** A binary16 or binary32 number widened to binary64, which is exact. *)
Definition b64_widen (x : spec_float) : spec_float :=
  match x with
  | S754_finite s m e => binary_round 53 1024 s m e
  | _ => x
  end.

(** [np.modf(x)[0]]: the fractional part, with the sign of [x]; it is
    exact in the format of [x], and zero for an infinity. *)
Definition modf_frac (prec emax : Z) (x : spec_float) : spec_float :=
  match x with
  | S754_nan => S754_nan
  | S754_infinity s => S754_zero s
  | S754_zero s => S754_zero s
  | S754_finite s m e =>
      match e with
      | Zneg p =>
          match Zpos m mod 2 ^ Zpos p with
          | Zpos fm =>
              let '(mz, ez) :=
                shl_align fm e (fexp prec emax (Zpos (digits2_pos fm) + e)) in
              S754_finite s mz ez
          | _ => S754_zero s
          end
      | _ => S754_zero s
      end
  end.

(** The rational number a float stands for. *)
Definition Fval (s : bool) (m : positive) (e : Z) : Q :=
  match e with
  | Zneg p => Qmake (cond_Zopp s (Zpos m)) (2 ^ p)
  | _ => inject_Z (cond_Zopp s (Zpos m) * 2 ^ e)
  end.

Definition SF2Q (x : spec_float) : option Q :=
  match x with
  | S754_zero _ => Some 0%Q
  | S754_finite s m e => Some (Fval s m e)
  | S754_infinity _ | S754_nan => None
  end.

Definition is_nan (x : spec_float) : bool :=
  match x with
  | S754_nan => true
  | _ => false
  end.

(** How numpy types an operation between a [np.float16] scalar and a Python
    float: before NumPy 2 the Python float counts as a binary64 number and
    the operation is carried out in binary64; from NumPy 2 on the Python
    float is cast to binary16 and the operation is carried out there. *)
Inductive promotion : Type := Legacy | Weak.

(** *** Cell 14: the alignment table

<<
ext_0_kws = ['DETECTOR', 'EXPTIME']
ext_1_kws = ['WCSNAME', 'NMATCHES', 'RMS_RA', 'RMS_DEC']
det_scale = {'IR': 0.1283, 'UVIS': 0.0396, 'WFC': 0.05}
format_dict = {}
col_dict = defaultdict(list)
for f in flt_files:
    col_dict['filename'].append(f)
    hdr0 = fits.getheader(f, 0)
    hdr1 = fits.getheader(f, 1)
    for kw in ext_0_kws:
        col_dict[kw].append(hdr0[kw])
    for kw in ext_1_kws:
        if 'RMS' in kw:
            val = np.around(hdr1[kw], 1)
        else:
            val = hdr1[kw]
        col_dict[kw].append(val)
    for kw in ['RMS_RA', 'RMS_DEC']:
        val = np.round(hdr1[kw]/1000./det_scale[hdr0['DETECTOR']], 2)
        col_dict[f'{kw}_pix'].append(val)
wcstable = Table(col_dict)
>> *)

Definition ext_0_kws : list string := ["DETECTOR"; "EXPTIME"].
Definition ext_1_kws : list string := ["WCSNAME"; "NMATCHES"; "RMS_RA"; "RMS_DEC"].

Definition det_scale : gmap string spec_float :=
  {[ "IR" := b64_lit 1283 10000; "UVIS" := b64_lit 396 10000; "WFC" := b64_lit 5 100 ]}.

(** [det_scale[key]]: the keys are strings, so any other value is absent. *)
Definition det_scale_get (key : value) : result spec_float :=
  match key with
  | VStr s => of_option (KeyError key) (det_scale !! s)
  | _ => Raise (KeyError key)
  end.

(** [col_dict[key].append(v)] on a [defaultdict(list)], which keeps its keys
    in insertion order. *)
Fixpoint dd_append (key : string) (v : value) (d : list (string * list value))
  : list (string * list value) :=
  match d with
  | [] => [(key, [v])]
  | (k, l) :: d' =>
      if String.eqb k key then (k, l ++ [v]) :: d' else (k, l) :: dd_append key v d'
  end.

Definition append_ext0 (hdr0 : header) (col_dict : table) (kw : string) : result table :=
  v ← header_get kw hdr0;
  Ok (dd_append kw v col_dict).

Definition append_ext1 `{Numeric} (hdr1 : header) (col_dict : table) (kw : string)
  : result table :=
  raw ← header_get kw hdr1;
  val ← (if contains "RMS" kw then np_around raw 1 else Ok raw);
  Ok (dd_append kw val col_dict).

(** [hdr1[kw]/1000./det_scale[hdr0['DETECTOR']]]: the RMS in pixels. *)
Definition rms_to_pixels (hdr0 hdr1 : header) (kw : string) : result spec_float :=
  raw ← header_get kw hdr1;
  x ← py_to_float raw;
  let mas := b64_div x (b64_of_Z 1000) in
  det ← header_get "DETECTOR" hdr0;
  scale ← det_scale_get det;
  Ok (b64_div mas scale).

Definition append_pix `{Numeric} (hdr0 hdr1 : header) (col_dict : table) (kw : string)
  : result table :=
  pix ← rms_to_pixels hdr0 hdr1 kw;
  val ← np_around (VFloat pix) 2;
  Ok (dd_append (kw +:+ "_pix") val col_dict).

Definition wcs_file `{Numeric} (root : node) (col_dict : table) (f : string)
  : result table :=
  let col_dict := dd_append "filename" (VStr f) col_dict in
  hdr0 ← fits_getheader f 0 root;
  hdr1 ← fits_getheader f 1 root;
  col_dict ← for_each (append_ext0 hdr0) ext_0_kws col_dict;
  col_dict ← for_each (append_ext1 hdr1) ext_1_kws col_dict;
  for_each (append_pix hdr0 hdr1) ["RMS_RA"; "RMS_DEC"] col_dict.

Definition cell14 `{Numeric} (root : node) (flt_files : list string) : result table :=
  let col_dict : table := [] in
  col_dict ← for_each (wcs_file root) flt_files col_dict;
  let wcstable := col_dict in
  Ok wcstable.

(** *** Cell 12: the dither pattern and the pixel phase

<<
plate_scale = fits.getval(flt_files[0], 'idcscale', ext=1)
print('Detector Plate scale: {:>6.4f}'.format(plate_scale))
postarg1 = np.empty(len(flt_files), dtype=np.float16)
postarg2 = np.empty(len(flt_files), dtype=np.float16)
x_phase = np.empty(len(flt_files), dtype=np.float16)
y_phase = np.empty(len(flt_files), dtype=np.float16)
for i, im in enumerate(flt_files):
    with fits.open(im) as hdu:
        postarg1[i] = hdu[0].header['postarg1']
        postarg2[i] = hdu[0].header['postarg2']
        x_phase[i] = abs(np.modf(postarg1[i] / plate_scale)[0])
        y_phase[i] = abs(np.modf(postarg2[i] / plate_scale)[0])
>> *)

(** [np.empty(n, dtype=np.float16)]: [n] elements of whatever the memory
    held. *)
Definition np_empty (junk : nat -> spec_float) (n : nat) : list spec_float :=
  junk <$> seq 0 n.

(** The [f] format code accepts numbers only. *)
Definition format_f (v : value) : result unit :=
  match v with
  | VStr _ => Raise ValueError
  | _ => Ok tt
  end.

(** [arr[i] = v] for a binary16 array. *)
Definition half_of_value `{Numeric} (v : value) : result spec_float :=
  match v with
  | VFloat x => Ok (to_b16 x)
  | VInt n => Ok (to_b16 (b64_of_Z n))
  | VBool b => Ok (to_b16 (b64_of_Z (if b then 1 else 0)))
  | VStr s => x ← float_of_string s; Ok (to_b16 x)
  end.

Definition store {A} (arr : list A) (i : nat) (x : A) : result (list A) :=
  if (i <? length arr)%nat then Ok (<[i := x]> arr) else Raise IndexError.

Definition load {A} (arr : list A) (i : nat) : result A :=
  of_option IndexError (arr !! i).

(** [abs(np.modf(p / plate_scale)[0])] for a binary16 scalar [p], as it is
    stored in a binary16 array. *)
Definition pixel_phase (promo : promotion) (p : spec_float) (plate_scale : value)
  : result spec_float :=
  match promo, plate_scale with
  | Legacy, (VFloat _ | VInt _) =>
      s ← py_to_float plate_scale;
      Ok (to_b16 (SFabs (modf_frac 53 1024 (b64_div (b64_widen p) s))))
  | _, _ =>
      s ← py_to_float plate_scale;
      Ok (SFabs (modf_frac 11 16 (b16_div p (to_b16 s))))
  end.

Record dither : Type := mkDither {
  d_plate_scale : value;
  d_postarg1 : list spec_float;
  d_postarg2 : list spec_float;
  d_x_phase : list spec_float;
  d_y_phase : list spec_float
}.

Definition phase_step `{Numeric} (promo : promotion) (root : node) (st : dither)
    (i_im : nat * string) : result dither :=
  let '(i, im) := i_im in
  let plate_scale := d_plate_scale st in
  hdu ← fits_open im root;
  hdu0 ← of_option IndexError (hdu !! 0%nat);
  v1 ← header_get "postarg1" (hdu_header hdu0);
  h1 ← half_of_value v1;
  postarg1 ← store (d_postarg1 st) i h1;
  v2 ← header_get "postarg2" (hdu_header hdu0);
  h2 ← half_of_value v2;
  postarg2 ← store (d_postarg2 st) i h2;
  p1 ← load postarg1 i;
  x ← pixel_phase promo p1 plate_scale;
  x_phase ← store (d_x_phase st) i x;
  p2 ← load postarg2 i;
  y ← pixel_phase promo p2 plate_scale;
  y_phase ← store (d_y_phase st) i y;
  Ok (mkDither plate_scale postarg1 postarg2 x_phase y_phase).

Definition cell12 `{Numeric} (promo : promotion) (junk : nat -> nat -> spec_float)
    (root : node) (flt_files : list string) : result dither :=
  first ← of_option IndexError (flt_files !! 0%nat);
  plate_scale ← fits_getval first "idcscale" 1 root;
  _ ← format_f plate_scale;
  let n := length flt_files in
  let postarg1 := np_empty (junk 0%nat) n in
  let postarg2 := np_empty (junk 1%nat) n in
  let x_phase := np_empty (junk 2%nat) n in
  let y_phase := np_empty (junk 3%nat) n in
  for_each (phase_step promo root) (enumerate flt_files)
    (mkDither plate_scale postarg1 postarg2 x_phase y_phase).

(** What one iteration reads and writes. *)
Definition exposure_phases `{Numeric} (promo : promotion) (root : node)
    (plate_scale : value) (im : string)
    (h1 h2 x y : spec_float) : Prop :=
  exists v1 v2,
    fits_getval im "postarg1" 0 root = Ok v1 /\
    fits_getval im "postarg2" 0 root = Ok v2 /\
    half_of_value v1 = Ok h1 /\ half_of_value v2 = Ok h2 /\
    pixel_phase promo h1 plate_scale = Ok x /\
    pixel_phase promo h2 plate_scale = Ok y.

(** *** Cells 18 and 19: the recommended drizzle parameters

<<
def get_vals_from_mdriztab(input_images, kw_list=['driz_sep_bits', 'combine_type',
                                                  'driz_cr_snr', 'driz_cr_scale',
                                                  'final_bits']):
    mdriz_dict = drizzlepac.processInput.getMdriztabPars(input_images)
    requested_params = {}
    print('Outputting the following parameters:')
    for k in kw_list:
        requested_params[k] = mdriz_dict[k]
        print(k, mdriz_dict[k])
    return requested_params
>> *)

(** One call of [drizzlepac.astrodrizzle.AstroDrizzle]: the input list, the
    output root name, the recommended parameters passed as keywords, and
    the two resampling parameters the notebook varies.  The switches that
    every call of the notebook sets alike ([build=True], [context=False],
    ...) are left out. *)
Record drizzle_call : Type := mkCall {
  dc_input : list string;
  dc_output : string;
  dc_params : gmap string value;
  dc_final_pixfrac : option spec_float;
  dc_final_scale : option spec_float
}.

(** The external image-combination library: the MDRIZTAB reader returns a
    dictionary for a list of input images, or raises; a drizzle run
    computes, from the working directory and its arguments, the combined
    multi-extension file, or raises. *)
Class Drizzlepac : Type := {
  getMdriztabPars : list string -> result (gmap string value);
  drizzle_product : node -> drizzle_call -> result content;
}.

Inductive printed : Type :=
  | PText (s : string)
  | PKeyVal (k : string) (v : value).

Definition default_kw_list : list string :=
  ["driz_sep_bits"; "combine_type"; "driz_cr_snr"; "driz_cr_scale"; "final_bits"].

Definition request_one (mdriz_dict : gmap string value)
    (st : gmap string value * list printed) (k : string)
  : result (gmap string value * list printed) :=
  let '(requested_params, out) := st in
  v ← of_option (KeyError (VStr k)) (mdriz_dict !! k);
  Ok (<[k := v]> requested_params, out ++ [PKeyVal k v]).

Definition get_vals_from_mdriztab_out `{Drizzlepac} (input_images kw_list : list string)
  : result (gmap string value * list printed) :=
  mdriz_dict ← getMdriztabPars input_images;
  let requested_params : gmap string value := ∅ in
  let out := [PText "Outputting the following parameters:"] in
  for_each (request_one mdriz_dict) kw_list (requested_params, out).

Definition get_vals_from_mdriztab `{Drizzlepac} (input_images kw_list : list string)
  : result (gmap string value) :=
  fst <$> get_vals_from_mdriztab_out input_images kw_list.

(** *** Cell 29: the pixfrac sweep

<<
pixfracs = np.arange(0.1, 1.1, 0.1)
for pixfrac in pixfracs:
    outname = 'f160w_{:.1f}'.format(pixfrac)
    drizzlepac.astrodrizzle.AstroDrizzle(flt_files, output=outname, **selected_params,
                                         context=False, build=True, preserve=False,
                                         skymethod='match', driz_separate=False,
                                         median=False, blot=False, driz_cr=False,
                                         final_pixfrac=pixfrac, final_wcs=True,
                                         final_rot=0., final_scale=0.065)
>> *)

(** The ceiling of a finite binary64 number. *)
Definition b64_ceil (x : spec_float) : Z :=
  match x with
  | S754_finite s m (Zneg p) => - ((- cond_Zopp s (Zpos m)) / 2 ^ Zpos p)
  | S754_finite s m e => cond_Zopp s (Zpos m) * 2 ^ e
  | _ => 0
  end.

(** [np.arange(start, stop, step)] for Python floats: the length is the
    ceiling of [(stop - start) / step]; the first two elements are [start]
    and [start + step], and element [i] is [start + i * delta] with [delta]
    the difference of the first two. *)
Definition np_arange (start stop step : spec_float) : list spec_float :=
  let next := b64_add start step in
  let len := b64_ceil (b64_div (b64_sub stop start) step) in
  let delta := b64_sub next start in
  (fun i => match i with
            | O => start
            | S O => next
            | _ => b64_add start (b64_mul (b64_of_Z (Z.of_nat i)) delta)
            end) <$> seq 0 (Z.to_nat len).

Definition digit_char (d : Z) : ascii := ascii_of_N (48 + Z.to_N d).

Fixpoint decimal_fuel (fuel : nat) (n : Z) (acc : string) : string :=
  match fuel with
  | O => acc
  | S fuel' =>
      let acc' := String (digit_char (n mod 10)) acc in
      if n / 10 =? 0 then acc' else decimal_fuel fuel' (n / 10) acc'
  end.

(** The decimal digits of a natural number. *)
Definition decimal (n : Z) : string := decimal_fuel (S (Z.to_nat (Z.log2 n))) n "".

(** The nearest integer to [a / b], ties to even, for [0 <= a] and [0 < b]. *)
Definition round_half_even (a b : Z) : Z :=
  let q := a / b in
  let r := a mod b in
  match 2 * r ?= b with
  | Lt => q
  | Gt => q + 1
  | Eq => if Z.even q then q else q + 1
  end.

(** ['{:.1f}'.format(x)]: [x] correctly rounded to one decimal place. *)
Definition format_1f (x : spec_float) : string :=
  match x with
  | S754_nan => "nan"
  | S754_infinity s => if s then "-inf" else "inf"
  | S754_zero s => if s then "-0.0" else "0.0"
  | S754_finite s m e =>
      let tenths :=
        match e with
        | Zneg p => round_half_even (10 * Zpos m) (2 ^ Zpos p)
        | _ => 10 * Zpos m * 2 ^ e
        end in
      (if s then "-" else "") +:+ decimal (tenths / 10) +:+ "."
        +:+ decimal (tenths mod 10)
  end.

Definition pixfracs : list spec_float :=
  np_arange (b64_lit 1 10) (b64_lit 11 10) (b64_lit 1 10).

Definition outname (pixfrac : spec_float) : string := "f160w_" +:+ format_1f pixfrac.

Definition sweep_call (flt_files : list string) (selected_params : gmap string value)
    (pixfrac : spec_float) : drizzle_call :=
  mkCall flt_files (outname pixfrac) selected_params (Some pixfrac) (Some (b64_lit 65 1000)).

(** The combined image of a run with [build=True] on FLT inputs. *)
Definition product_name (call : drizzle_call) : string := dc_output call +:+ "_drz.fits".

(** A drizzle run, as far as the notebook depends on it: the product is
    written under [product_name] in the working directory. *)
Definition AstroDrizzle `{Drizzlepac} (root : node) (call : drizzle_call) : result node :=
  match root with
  | Dir es =>
      c ← drizzle_product root call;
      Ok (Dir (dir_put (product_name call) (File c) es))
  | File _ => Raise (NotADirectoryError ".")
  end.

(** The keywords that the drizzle calls of cells 21 and 29 write out next
    to [**selected_params]. *)
Definition noopt_keywords : list string :=
  ["output"; "context"; "build"; "preserve"; "skymethod"; "driz_separate";
   "median"; "blot"; "driz_cr"; "final_wcs"; "final_rot"; "final_scale"].

Definition opt_keywords : list string :=
  ["output"; "context"; "build"; "preserve"; "skymethod"; "driz_separate";
   "median"; "blot"; "driz_cr"; "final_wcs"; "final_rot"; "final_scale";
   "final_pixfrac"].

Definition sweep_keywords : list string :=
  ["output"; "context"; "build"; "preserve"; "skymethod"; "driz_separate";
   "median"; "blot"; "driz_cr"; "final_pixfrac"; "final_wcs"; "final_rot";
   "final_scale"].

(** A call [f(x, k1=v1, ..., **params, ...)]: a keyword written out in the
    call that is also a key of the unpacked dictionary raises [TypeError]
    before the function is entered. *)
Definition unpack_keywords (named : list string) (params : gmap string value)
  : result unit :=
  if existsb (fun k => bool_decide (is_Some (params !! k))) named
  then Raise TypeError
  else Ok tt.

(** One drizzle call as the notebook writes it: the keyword arguments are
    put together, then the library runs. *)
Definition drizzle_step `{Drizzlepac} (named : list string) (root : node)
    (call : drizzle_call) : result node :=
  _ ← unpack_keywords named (dc_params call);
  AstroDrizzle root call.

Definition cell29 `{Drizzlepac} (flt_files : list string)
    (selected_params : gmap string value) (root : node) : result node :=
  for_each (drizzle_step sweep_keywords)
    (sweep_call flt_files selected_params <$> pixfracs) root.

(** *** Cell 34: the statistics of the weight images

<<
whtlist = glob.glob('f160w_0.[0-9]*drz.fits')
std_med = np.empty(len(whtlist), dtype=float)
fraclist = np.empty(len(whtlist), dtype=float)
xlims = radeclims.to_pixel(im1wcs)[0].astype(int)
ylims = radeclims.to_pixel(im1wcs)[1].astype(int)
for i, im in enumerate(whtlist):
    with fits.open(im) as hdu:
        hdr = hdu[0].header
        wht = hdu[2].data
    if i == 0:
        target = hdr['TARGNAME']
        scale = str(hdr['D001SCAL'])
        nimg = hdr['NDRIZIM']
    wht_std = np.std(wht[ylims[0]: ylims[1], xlims[0]: xlims[1]])
    wht_med = np.median(wht[ylims[0]: ylims[1], xlims[0]: xlims[1]])
    std_med[i] = wht_std / wht_med
    fraclist[i] = hdr['D001PIXF']
plt.text(1.0, 0.85, target, ...)
>> *)

Definition sweep_pattern : string := "f160w_0.[0-9]*drz.fits".

(** A slice bound on a sequence of length [len]: negative bounds count
    from the end, and bounds are clipped to the sequence. *)
Definition slice_bound (len : nat) (i : Z) : nat :=
  if i <? 0 then Z.to_nat (Z.max 0 (Z.of_nat len + i))
  else Z.to_nat (Z.min i (Z.of_nat len)).

(** [l[lo:hi]] *)
Definition py_slice {A} (l : list A) (lo hi : Z) : list A :=
  let a := slice_bound (length l) lo in
  let b := slice_bound (length l) hi in
  take (b - a) (drop a l).

(** [wht[ylims[0]:ylims[1], xlims[0]:xlims[1]]] *)
Definition sub_region (wht : image) (ylims xlims : Z * Z) : image :=
  (fun row => py_slice row (fst xlims) (snd xlims)) <$> py_slice wht (fst ylims) (snd ylims).

(** The quotient of two binary32 scalars, widened to binary64 by the
    store into a [dtype=float] array. *)
Definition b32_div : spec_float -> spec_float -> spec_float := SFdiv 24 128.

Definition rms_over_median `{Numeric} (wht : image) (ylims xlims : Z * Z) : spec_float :=
  let wht_std := np_std (sub_region wht ylims xlims) in
  let wht_med := np_median (sub_region wht ylims xlims) in
  b64_widen (b32_div wht_std wht_med).

(** [arr[i] = v] for a binary64 array. *)
Definition double_of_value `{Numeric} (v : value) : result spec_float :=
  match v with
  | VStr s => float_of_string s
  | _ => py_to_float v
  end.

Record evaluation : Type := mkEvaluation {
  ev_std_med : list spec_float;
  ev_fraclist : list spec_float;
  ev_info : option (value * value * value)
}.

Definition weight_step `{Numeric} (root : node) (ylims xlims : Z * Z)
    (st : evaluation) (i_im : nat * string) : result evaluation :=
  let '(i, im) := i_im in
  hdu ← fits_open im root;
  hdu0 ← of_option IndexError (hdu !! 0%nat);
  let hdr := hdu_header hdu0 in
  hdu2 ← of_option IndexError (hdu !! 2%nat);
  let wht := hdu_data hdu2 in
  info ← (if (i =? 0)%nat
          then target ← header_get "TARGNAME" hdr;
               scale ← header_get "D001SCAL" hdr;
               nimg ← header_get "NDRIZIM" hdr;
               Ok (Some (target, scale, nimg))
          else Ok (ev_info st));
  wht ← of_option TypeError wht;
  std_med ← store (ev_std_med st) i (rms_over_median wht ylims xlims);
  pixf ← header_get "D001PIXF" hdr;
  frac ← double_of_value pixf;
  fraclist ← store (ev_fraclist st) i frac;
  Ok (mkEvaluation std_med fraclist info).

Definition cell34 `{Numeric} (junk : nat -> nat -> spec_float) (ylims xlims : Z * Z)
    (root : node) : result (list string * evaluation) :=
  let whtlist := join_path <$> glob sweep_pattern root in
  let std_med := np_empty (junk 0%nat) (length whtlist) in
  let fraclist := np_empty (junk 1%nat) (length whtlist) in
  ev ← for_each (weight_step root ylims xlims) (enumerate whtlist)
         (mkEvaluation std_med fraclist None);
  _ ← of_option (NameError "target") (ev_info ev);
  Ok (whtlist, ev).

(** What one iteration of the evaluation loop reads and computes. *)
Definition weight_entry `{Numeric} (root : node) (ylims xlims : Z * Z) (im : string)
    (ratio frac : spec_float) : Prop :=
  exists hdus hdu0 hdu2 wht pixf,
    fits_open im root = Ok hdus /\
    hdus !! 0%nat = Some hdu0 /\ hdus !! 2%nat = Some hdu2 /\
    hdu_data hdu2 = Some wht /\
    ratio = b64_widen (b32_div (np_std (sub_region wht ylims xlims))
                               (np_median (sub_region wht ylims xlims))) /\
    header_get "D001PIXF" (hdu_header hdu0) = Ok pixf /\
    double_of_value pixf = Ok frac.

(** ** The kernel namespace

    The names the inspection cells assign and read.  A cell that raises
    leaves no new binding for its table. *)

Record kernel : Type := mkKernel {
  k_flt_files : option (list string);
  k_table : option table;
  k_wcstable : option table
}.

Definition fresh_kernel : kernel := mkKernel None None None.

Definition run_cell10 `{Numeric} (root : node) (k : kernel) : result kernel :=
  '(flt_files, t) ← cell10 root;
  Ok (mkKernel (Some flt_files) (Some t) (k_wcstable k)).

Definition run_cell14 `{Numeric} (root : node) (k : kernel) : result kernel :=
  flt_files ← of_option (NameError "flt_files") (k_flt_files k);
  t ← cell14 root flt_files;
  Ok (mkKernel (k_flt_files k) (k_table k) (Some t)).

(** A MDRIZTAB reader that returns the five recommended parameters. *)
Definition example_mdriz_dict : gmap string value :=
  {[ "driz_sep_bits" := VInt 336; "combine_type" := VStr "minmed";
     "driz_cr_snr" := VStr "5.0 4.0"; "driz_cr_scale" := VStr "3.0 2.4";
     "final_bits" := VInt 336 ]}.

(** A drizzle run that records its pixfrac and scale in the primary header
    and returns two-by-two science and weight arrays. *)
Definition example_product (call : drizzle_call) : content :=
  Fits [ mkHdu [ ("TARGNAME", VStr "NGC-3370");
                 ("NDRIZIM", VInt (Z.of_nat (length (dc_input call))));
                 ("D001SCAL", VFloat (default (b64_lit 1283 10000) (dc_final_scale call)));
                 ("D001PIXF", VFloat (default (b64_of_Z 1) (dc_final_pixfrac call))) ] None;
         mkHdu [] (Some [[b64_of_Z 1; b64_of_Z 2]; [b64_of_Z 3; b64_of_Z 4]]);
         mkHdu [] (Some [[b64_of_Z 5; b64_of_Z 6]; [b64_of_Z 7; b64_of_Z 8]]) ].

Definition example_drizzlepac : Drizzlepac :=
  {| getMdriztabPars := fun _ => Ok example_mdriz_dict;
     drizzle_product := fun _ call => Ok (example_product call) |}.

(** ** What the inspection cells can see

    The header view of a working directory keeps the names of its entries,
    in order, and the headers of its FITS files; pixel data and the
    contents of sub-directories are erased. *)

Definition strip_data (h : hdu) : hdu := mkHdu (hdu_header h) None.

Definition header_view_content (c : content) : content :=
  match c with
  | Fits hdus => Fits (strip_data <$> hdus)
  | Other => Other
  end.

Definition header_view_node (x : node) : node :=
  match x with
  | File c => File (header_view_content c)
  | Dir _ => Dir []
  end.

Definition header_view (root : node) : node :=
  match root with
  | File c => File (header_view_content c)
  | Dir es => Dir (prod_map id header_view_node <$> es)
  end.

Definition same_headers (root root' : node) : Prop :=
  header_view root = header_view root'.

(** ** Detectors the alignment table knows *)

Definition supported (det : value) : Prop :=
  det = VStr "IR" \/ det = VStr "UVIS" \/ det = VStr "WFC".

Definition detector_of (root : node) (f : string) : result value :=
  hdr0 ← fits_getheader f 0 root;
  header_get "DETECTOR" hdr0.

(** An exposure that holds every card cell 14 reads, with RMS values that
    are numbers [np.around] accepts. *)
Definition complete_for_wcs `{Numeric} (root : node) (f : string) : Prop :=
  exists hdr0 hdr1,
    fits_getheader f 0 root = Ok hdr0 /\
    fits_getheader f 1 root = Ok hdr1 /\
    (forall kw, kw ∈ ext_0_kws -> exists v, header_get kw hdr0 = Ok v) /\
    (forall kw, kw ∈ ext_1_kws -> exists raw,
       header_get kw hdr1 = Ok raw /\
       (contains "RMS" kw = true ->
          (exists x, py_to_float raw = Ok x) /\ (exists r, np_around raw 1 = Ok r))).

(** ** Example inputs *)

(** A calibrated WFC3/IR exposure with the header cards the notebook reads;
    the pixel data of the science extension is a parameter. *)
Definition exposure_of (detector : string) (idcscale : spec_float) (rootname : string)
    (postarg1 postarg2 : spec_float) (sci : option image) : content :=
  Fits [ mkHdu [ ("ROOTNAME", VStr rootname); ("ASN_ID", VStr "IB1F19010");
                 ("TARGNAME", VStr "NGC-3370"); ("DETECTOR", VStr detector);
                 ("FILTER", VStr "F160W"); ("EXPTIME", VFloat (b64_lit 5029 10));
                 ("RA_TARG", VFloat (b64_lit 1617669 10000));
                 ("DEC_TARG", VFloat (b64_lit 172737 10000));
                 ("POSTARG1", VFloat postarg1); ("POSTARG2", VFloat postarg2);
                 ("DATE-OBS", VStr "2010-04-04");
                 ("MDRIZTAB", VStr "iref$3562021pi_mdz.fits") ] None;
         mkHdu [ ("ORIENTAT", VFloat (b64_lit (-1398) 10));
                 ("IDCSCALE", VFloat idcscale);
                 ("WCSNAME", VStr "IDC_w3m18525i-FIT_REL_GSC242");
                 ("NMATCHES", VInt 14);
                 ("RMS_RA", VFloat (b64_lit 125 10));
                 ("RMS_DEC", VFloat (b64_lit 93 10)) ] sci ].

(** The plate scale recorded in WFC3/IR exposures, 0.1282500028610229. *)
Definition ir_idcscale : spec_float := b64_lit 1282500028610229 10000000000000000.

Definition flt_exposure : string -> spec_float -> spec_float -> option image -> content :=
  exposure_of "IR" ir_idcscale.

Definition exposure_l6q : content :=
  flt_exposure "ib1f19l6q" (S754_zero false) (S754_zero false) None.
Definition exposure_l7q : content :=
  flt_exposure "ib1f19l7q" (b64_lit 542 1000) (b64_lit 182 1000) None.

(** A download of two exposures next to an unrelated directory. *)
Definition download_tree : node :=
  Dir [ ("crds_cache", Dir []);
        ("mastDownload",
          Dir [ ("HST",
                  Dir [ ("ib1f19l7q", Dir [("ib1f19l7q_flt.fits", File exposure_l7q)]);
                        ("ib1f19l6q", Dir [("ib1f19l6q_flt.fits", File exposure_l6q)]) ]) ]) ].

Definition moved_entries : list (string * node) :=
  [ ("crds_cache", Dir []);
    ("ib1f19l7q_flt.fits", File exposure_l7q);
    ("ib1f19l6q_flt.fits", File exposure_l6q) ].

Definition moved_tree : node := Dir moved_entries.


(** A [Numeric] instance that keeps numbers as they are: casts to [f8]
    accept floats and ints and rounding is the identity on numbers; the
    statistics are stand-ins (a unit deviation, the first pixel as median). *)
Definition plain_numeric : Numeric :=
  {| column_cast := fun d v =>
       match d, v with
       | DStr, _ => Ok v
       | DF8, VFloat x => Ok (VFloat x)
       | DF8, VInt n => Ok (VFloat (b64_of_Z n))
       | DF8, _ => Raise ValueError
       end;
     np_around := fun v _ =>
       match v with
       | VFloat _ | VInt _ => Ok v
       | _ => Raise TypeError
       end;
     float_of_string := fun _ => Raise ValueError;
     np_std := fun _ => b64_of_Z 1;
     np_median := fun img => default (S754_zero false) (head (concat img)) |}.

(** The same directory after the science arrays were rewritten. *)
Definition moved_tree_new_pixels : node :=
  Dir [ ("crds_cache", Dir [("references", Dir [])]);
        ("ib1f19l7q_flt.fits",
          File (flt_exposure "ib1f19l7q" (b64_lit 542 1000) (b64_lit 182 1000)
                  (Some [[b64_of_Z 1; b64_of_Z 2]; [b64_of_Z 3; b64_of_Z 4]])));
        ("ib1f19l6q_flt.fits",
          File (flt_exposure "ib1f19l6q" (S754_zero false) (S754_zero false)
                  (Some [[b64_of_Z 5; b64_of_Z 6]; [b64_of_Z 7; b64_of_Z 8]]))) ].

(** A working directory whose second exposure comes from the ACS/SBC
    detector. *)
Definition sbc_tree : node :=
  Dir [ ("ib1f19l6q_flt.fits", File exposure_l6q);
        ("jb1f19l7q_flt.fits",
          File (exposure_of "SBC" (b64_lit 338 10000) "jb1f19l7q" (S754_zero false) (S754_zero false) None)) ].

(** Floats of magnitude at most one, and below one. *)
Definition unit_bounded (x : spec_float) : Prop :=
  match x with
  | S754_zero _ => True
  | S754_finite _ m e => e < 0 /\ Zpos m <= 2 ^ (- e)
  | S754_infinity _ | S754_nan => False
  end.

Definition unit_open (x : spec_float) : Prop :=
  match x with
  | S754_zero _ => True
  | S754_finite _ m e => e < 0 /\ Zpos m < 2 ^ (- e)
  | S754_infinity _ | S754_nan => False
  end.

Definition sign_of (x : spec_float) : bool :=
  match x with
  | S754_zero s | S754_infinity s | S754_finite s _ _ => s
  | S754_nan => false
  end.

(** An exposure offset by 16.03 arcsec along the first axis. *)
Definition far_dither_tree : node :=
  Dir [ ("ib1f19l6q_flt.fits",
          File (flt_exposure "ib1f19l6q" (b64_lit 1603 100) (S754_zero false) None)) ].

(** An exposure at the pattern origin whose IDCSCALE card is zero. *)
Definition zero_scale_tree : node :=
  Dir [ ("ib1f19l6q_flt.fits",
          File (exposure_of "IR" (S754_zero false) "ib1f19l6q"
                  (S754_zero false) (S754_zero false) None)) ].

Definition zero_junk : nat -> nat -> spec_float := fun _ _ => S754_zero false.

(** Truncation of a rational toward zero. *)
Definition Qtrunc (q : Q) : Q := inject_Z (Z.quot (Qnum q) (Zpos (Qden q))).

(** The working directory after the sweep over the two example exposures. *)
Definition swept_tree : result node :=
  @cell29 example_drizzlepac ["ib1f19l6q_flt.fits"; "ib1f19l7q_flt.fits"]
    example_mdriz_dict moved_tree.

(** A binary64 number within [2^-52] of [k / 10]. *)
Definition near_tenth (k : Z) (x : spec_float) : bool :=
  match SF2Q x with
  | Some q => Qle_bool (Qabs (q - (k # 10))) (1 # 2 ^ 52)
  | None => false
  end.

(** ** Shapes used in the statements about cells 7 and 10 *)

(** The paths that [glob.glob] returns for [download_pattern]: the two
    wildcard components are matched as [glob] matches a component. *)
Definition download_path (p : list string) : Prop :=
  exists d f, p = ["."; "mastDownload"; "HST"; d; f] /\
    component_matches "*" d = true /\ component_matches flt_pattern f = true.

(** The keys of [col_dict] in the order in which cell 14 first appends to
    them; [Table(col_dict)] takes its columns in this order. *)
Definition wcs_columns : list string :=
  "filename" :: ext_0_kws ++ ext_1_kws ++ ["RMS_RA_pix"; "RMS_DEC_pix"].

(** A float that is a number other than zero. *)
Definition finite_nonzero (x : spec_float) : bool :=
  match x with
  | S754_finite _ _ _ => true
  | _ => false
  end.

(** *** Cell 21: the two reference runs

<<
drizzlepac.astrodrizzle.AstroDrizzle(flt_files, output='f160w_noopt',
                                     context=False, build=True, preserve=False,
                                     **selected_params, skymethod='match',
                                     driz_separate=False, median=False, blot=False,
                                     driz_cr=False, final_wcs=True, final_rot=0.,
                                     final_scale=None)
drizzlepac.astrodrizzle.AstroDrizzle(flt_files, output='f160w_opt',
                                     context=False, build=True, preserve=False,
                                     **selected_params, skymethod='match',
                                     driz_separate=False, median=False, blot=False,
                                     driz_cr=False, final_wcs=True, final_rot=0.,
                                     final_scale=0.065, final_pixfrac=0.8)
>> *)

Definition noopt_call (flt_files : list string) (selected_params : gmap string value)
  : drizzle_call :=
  mkCall flt_files "f160w_noopt" selected_params None None.

Definition opt_call (flt_files : list string) (selected_params : gmap string value)
  : drizzle_call :=
  mkCall flt_files "f160w_opt" selected_params
    (Some (b64_lit 8 10)) (Some (b64_lit 65 1000)).

Definition cell21 `{Drizzlepac} (flt_files : list string)
    (selected_params : gmap string value) (root : node) : result node :=
  root' ← drizzle_step noopt_keywords root (noopt_call flt_files selected_params);
  drizzle_step opt_keywords root' (opt_call flt_files selected_params).

(** The products that cells 23 and 26 open, and those that cell 31 opens. *)
Definition reference_products : list string :=
  ["f160w_noopt_drz.fits"; "f160w_opt_drz.fits"].

Definition cell31_files : list string :=
  ["f160w_0.1_drz.fits"; "f160w_0.8_drz.fits"; "f160w_1.0_drz.fits"].

(** *** Cell 17: the name of the MDRIZTAB reference file

<<
mdz = fits.getval(flt_files[0], 'MDRIZTAB', ext=0).split('$')[1]
>>

    Only a string has a [split] method; the outcome for another card
    value is an [AttributeError]. *)

Inductive mdz_outcome : Type :=
  | Mdz (name : string)
  | MdzRaise (e : pyerror)
  | MdzAttributeError.

Definition cell17 (root : node) (flt_files : list string) : mdz_outcome :=
  match flt_files !! 0%nat with
  | None => MdzRaise IndexError
  | Some first =>
      match fits_getval first "MDRIZTAB" 0 root with
      | Raise e => MdzRaise e
      | Ok (VStr s) =>
          match split_on "$" s !! 1%nat with
          | Some mdz => Mdz mdz
          | None => MdzRaise IndexError
          end
      | Ok _ => MdzAttributeError
      end
  end.

(** An IR exposure whose science extension holds no alignment cards, and
    an exposure of another detector whose RMS_RA card is text. *)
Definition bare_ir_tree : node :=
  Dir [ ("ib1f19l6q_flt.fits",
          File (Fits [ mkHdu [ ("DETECTOR", VStr "IR"); ("EXPTIME", VFloat (b64_lit 5029 10)) ] None;
                       mkHdu [ ("WCSNAME", VStr "IDC_w3m18525i") ] None ])) ].

Definition text_rms_tree : node :=
  Dir [ ("jb1f19l7q_flt.fits",
          File (Fits [ mkHdu [ ("DETECTOR", VStr "SBC"); ("EXPTIME", VFloat (b64_lit 5029 10)) ] None;
                       mkHdu [ ("WCSNAME", VStr "IDC_w3m18525i"); ("NMATCHES", VInt 14);
                               ("RMS_RA", VStr "abc");
                               ("RMS_DEC", VFloat (b64_lit 93 10)) ] None ])) ].

(** Two products of a sweep with four-by-four weight images, and stand-ins
    for the statistics that expose the array they are applied to: the
    number of its pixels for the deviation, its first pixel for the
    median. *)
Definition weight_product (pixfrac : spec_float) (wht : image) : content :=
  Fits [ mkHdu [ ("TARGNAME", VStr "NGC-3370"); ("NDRIZIM", VInt 2);
                 ("D001SCAL", VFloat (b64_lit 65 1000));
                 ("D001PIXF", VFloat pixfrac) ] None;
         mkHdu [] (Some [[b64_of_Z 0]]);
         mkHdu [] (Some wht) ].

Definition weights_tree : node :=
  Dir [ ("f160w_0.1_drz.fits",
          File (weight_product (b64_lit 1 10)
                  [ [b64_of_Z 1; b64_of_Z 2; b64_of_Z 3; b64_of_Z 4];
                    [b64_of_Z 5; b64_of_Z 6; b64_of_Z 7; b64_of_Z 8];
                    [b64_of_Z 9; b64_of_Z 10; b64_of_Z 11; b64_of_Z 12];
                    [b64_of_Z 13; b64_of_Z 14; b64_of_Z 15; b64_of_Z 16] ]));
        ("f160w_0.2_drz.fits",
          File (weight_product (b64_lit 2 10)
                  [ [b64_of_Z 2; b64_of_Z 4; b64_of_Z 6; b64_of_Z 8];
                    [b64_of_Z 10; b64_of_Z 12; b64_of_Z 14; b64_of_Z 16];
                    [b64_of_Z 18; b64_of_Z 20; b64_of_Z 22; b64_of_Z 24];
                    [b64_of_Z 26; b64_of_Z 28; b64_of_Z 30; b64_of_Z 32] ])) ].

Definition probe_numeric : Numeric :=
  {| column_cast := @column_cast plain_numeric;
     np_around := @np_around plain_numeric;
     float_of_string := @float_of_string plain_numeric;
     np_std := fun img => b64_of_Z (Z.of_nat (length (concat img)));
     np_median := fun img => default (S754_zero false) (head (concat img)) |}.

(** ** The steps of the notebook and the working directory

    [crds sync] is an external command-line tool; cell 17 runs it through
    the shell, and a failure of the command raises nothing in the
    notebook.  What it leaves on disk is its own business. *)
Class Crds : Type := {
  crds_sync : string -> string -> node -> node
}.

(** [os.environ['iref']], set in the first code cell. *)
Definition iref : string := "./crds_cache/references/hst/wfc3/".

Inductive step : Type :=
  | MoveDownloads
  | HeaderTable
  | DitherPhases (promo : promotion) (junk : nat -> nat -> spec_float)
      (flt_files : list string)
  | AlignmentTable (flt_files : list string)
  | SyncMdriztab (flt_files : list string)
  | SelectParams (input_images kw_list : list string)
  | ReferenceRuns (flt_files : list string) (selected_params : gmap string value)
  | ReadProduct (name : string)
  | PixfracSweep (flt_files : list string) (selected_params : gmap string value)
  | Evaluate (junk : nat -> nat -> spec_float) (ylims xlims : Z * Z).

Definition completed {A} (r : result A) : option A :=
  match r with
  | Ok a => Some a
  | Raise _ => None
  end.

(** The working directory that a step leaves when it completes: cell 7
    ([MoveDownloads]), cell 10 ([HeaderTable]), cell 12, cell 14, cell 17,
    cells 18 and 19, cell 21, the [fits.open] of cells 23, 26 and 31, cell
    29 and cell 34.  The steps that only read give back the directory they
    were given. *)
Definition disk_after `{Numeric} `{Drizzlepac} `{Crds} (s : step) (root : node)
  : option node :=
  match s with
  | MoveDownloads => completed (cell7 root)
  | HeaderTable => _ ← completed (cell10 root); Some root
  | DitherPhases promo junk flt_files =>
      _ ← completed (cell12 promo junk root flt_files); Some root
  | AlignmentTable flt_files => _ ← completed (cell14 root flt_files); Some root
  | SyncMdriztab flt_files =>
      match cell17 root flt_files with
      | Mdz mdz => Some (crds_sync mdz iref root)
      | _ => None
      end
  | SelectParams input_images kw_list =>
      _ ← completed (get_vals_from_mdriztab input_images kw_list); Some root
  | ReferenceRuns flt_files selected_params =>
      completed (cell21 flt_files selected_params root)
  | ReadProduct name => _ ← completed (fits_open name root); Some root
  | PixfracSweep flt_files selected_params =>
      completed (cell29 flt_files selected_params root)
  | Evaluate junk ylims xlims => _ ← completed (cell34 junk ylims xlims root); Some root
  end.

(** The directory [root'] differs from [root] only in products that the
    drizzle library wrote for one of the calls. *)
Definition written_by_drizzle `{Drizzlepac} (calls : list drizzle_call)
    (root root' : node) : Prop :=
  exists es es', root = Dir es /\ root' = Dir es' /\
    forall n,
      dir_lookup n es' = dir_lookup n es \/
      exists call root_i c,
        call ∈ calls /\ n = product_name call /\
        drizzle_product root_i call = Ok c /\
        dir_lookup n es' = Some (File c).

Definition idle_crds : Crds := {| crds_sync := fun _ _ root => root |}.

(** * Properties *)

(** ** Patterns and directories *)

Example fnmatch_flt : fnmatch "ib1f19l6q_flt.fits" "*fl?.fits" = true.
Proof. reflexivity. Qed.

Example fnmatch_sweep_08 : fnmatch "f160w_0.8_drz.fits" "f160w_0.[0-9]*drz.fits" = true.
Proof. reflexivity. Qed.

Example fnmatch_noopt : fnmatch "f160w_noopt_drz.fits" "f160w_0.[0-9]*drz.fits" = false.
Proof. reflexivity. Qed.

Example glob_download_tree :
  glob download_pattern download_tree =
  [ ["."; "mastDownload"; "HST"; "ib1f19l7q"; "ib1f19l7q_flt.fits"];
    ["."; "mastDownload"; "HST"; "ib1f19l6q"; "ib1f19l6q_flt.fits"] ].
Proof. reflexivity. Qed.

Lemma dir_lookup_put_eq name x es : dir_lookup name (dir_put name x es) = Some x.
Proof.
  induction es as [|[n y] es IH]; simpl.
  - by rewrite String.eqb_refl.
  - destruct (String.eqb n name) eqn:E; simpl; rewrite E; auto.
Qed.

Lemma dir_lookup_put_ne name n x es :
  n <> name -> dir_lookup n (dir_put name x es) = dir_lookup n es.
Proof.
  intros Hne. induction es as [|[m y] es IH]; simpl.
  - apply String.eqb_neq in Hne. rewrite String.eqb_sym in Hne. by rewrite Hne.
  - destruct (String.eqb m name) eqn:E; simpl.
    + apply String.eqb_eq in E; subst m.
      assert (String.eqb name n = false) as -> by (apply String.eqb_neq; congruence).
      done.
    + destruct (String.eqb m n); auto.
Qed.

Lemma dir_lookup_remove_eq name es : dir_lookup name (dir_remove name es) = None.
Proof.
  induction es as [|[m y] es IH]; simpl; [done|].
  destruct (String.eqb m name) eqn:E; simpl; [done|]. by rewrite E.
Qed.

Lemma dir_lookup_remove_ne name n es :
  n <> name -> dir_lookup n (dir_remove name es) = dir_lookup n es.
Proof.
  intros Hne. induction es as [|[m y] es IH]; simpl; [done|].
  destruct (String.eqb m name) eqn:E; simpl.
  - apply String.eqb_eq in E; subst m.
    assert (String.eqb name n = false) as -> by (apply String.eqb_neq; congruence).
    done.
  - destruct (String.eqb m n); auto.
Qed.

Lemma dir_lookup_alter_ne f name n es :
  n <> name -> dir_lookup n (dir_alter f name es) = dir_lookup n es.
Proof.
  intros Hne. induction es as [|[m y] es IH]; simpl; [done|].
  destruct (String.eqb m name) eqn:E; simpl.
  - apply String.eqb_eq in E; subst m.
    assert (String.eqb name n = false) as -> by (apply String.eqb_neq; congruence).
    done.
  - destruct (String.eqb m n); auto.
Qed.

(** Removing a path below the entry [c] leaves the other entries of the
    directory as they were. *)
Lemma remove_at_frame c rest es :
  c <> "." ->
  exists es', remove_at ("." :: c :: rest) (Dir es) = Dir es' /\
    forall n, n <> c -> dir_lookup n es' = dir_lookup n es.
Proof.
  intros Hc. simpl.
  assert (String.eqb c "." = false) as -> by (by apply String.eqb_neq).
  destruct rest; eexists; split; try reflexivity; intros n Hn.
  - by apply dir_lookup_remove_ne.
  - by apply dir_lookup_alter_ne.
Qed.

Lemma component_matches_literal pattern name :
  has_magic pattern = false -> component_matches pattern name = true -> name = pattern.
Proof.
  unfold component_matches. intros ->. intros H. by apply String.eqb_eq in H.
Qed.

Lemma component_matches_magic pattern name :
  has_magic pattern = true -> component_matches pattern name = true ->
  fnmatch name pattern = true.
Proof.
  unfold component_matches. intros ->. intros H.
  apply andb_prop in H. tauto.
Qed.

Lemma glob_from_step p ps es q :
  String.eqb p "." = false ->
  In q (glob_from (p :: ps) (Dir es)) ->
  exists name child q',
    In (name, child) es /\ component_matches p name = true /\
    q = name :: q' /\ In q' (glob_from ps child).
Proof.
  intros Hp. simpl. rewrite Hp. intros H.
  apply in_flat_map in H as [[name child] [Hin H]].
  destruct (component_matches p name) eqn:E; [|by destruct H].
  apply in_map_iff in H as [q' [<- Hq']].
  by exists name, child, q'.
Qed.

Lemma glob_from_file p ps c q :
  String.eqb p "." = false -> ~ In q (glob_from (p :: ps) (File c)).
Proof. intros Hp. simpl. rewrite Hp. tauto. Qed.

Lemma glob_download_shape root p :
  In p (glob download_pattern root) -> downloaded p.
Proof.
  unfold glob.
  change (split_on "/" download_pattern)
    with ["."; "mastDownload"; "HST"; "*"; "*fl?.fits"].
  change (glob_from ("." :: ?ps) root) with (map (cons ".") (glob_from ps root)).
  intros H. apply in_map_iff in H as [p1 [<- H]].
  destruct root as [c|es]; [by apply glob_from_file in H|].
  apply glob_from_step in H as (n1 & c1 & p2 & _ & M1 & -> & H); [|done].
  apply component_matches_literal in M1 as ->; [|done].
  destruct c1 as [c|es1]; [by apply glob_from_file in H|].
  apply glob_from_step in H as (n2 & c2 & p3 & _ & M2 & -> & H); [|done].
  apply component_matches_literal in M2 as ->; [|done].
  destruct c2 as [c|es2]; [by apply glob_from_file in H|].
  apply glob_from_step in H as (d & c3 & p4 & _ & _ & -> & H); [|done].
  destruct c3 as [c|es3]; [by apply glob_from_file in H|].
  apply glob_from_step in H as (f & c4 & p5 & _ & M4 & -> & H); [|done].
  apply component_matches_magic in M4; [|done].
  destruct H as [<-|[]].
  by exists d, f.
Qed.

Lemma downloaded_basename p :
  downloaded p -> fnmatch (basename p) "*fl?.fits" = true.
Proof. by intros (d & f & -> & H). Qed.

Lemma downloaded_basename_ne p : downloaded p -> basename p <> "mastDownload".
Proof.
  intros H%downloaded_basename E. rewrite E in H. discriminate H.
Qed.

Lemma move_one_effect es p root' :
  downloaded p ->
  move_one (Dir es) p = Ok root' ->
  exists es', root' = Dir es' /\
    is_Some (dir_lookup (basename p) es') /\
    forall n, n <> "mastDownload" -> n <> basename p ->
      dir_lookup n es' = dir_lookup n es.
Proof.
  intros Hp. pose proof (downloaded_basename_ne p Hp) as Hb.
  destruct Hp as (d & f & -> & Hf).
  unfold move_one, os_rename.
  destruct (remove_at_frame "mastDownload" ["HST"; d; f] es) as (es1 & -> & Hes1); [done|].
  destruct (resolve _ (Dir es)) as [x|]; [|done].
  set (b := basename _) in *.
  intros H.
  assert (root' = Dir (dir_put b x es1)) as ->.
  { destruct (dir_lookup b es1) as [[c|[|? ?]]|], x; congruence. }
  eexists; split; [done|]. split.
  - rewrite dir_lookup_put_eq. by eexists.
  - intros n Hn Hnb. rewrite dir_lookup_put_ne by done. by apply Hes1.
Qed.

Lemma move_all_effect ps : forall es root',
  Forall downloaded ps ->
  for_each move_one ps (Dir es) = Ok root' ->
  exists es', root' = Dir es' /\
    (forall p, In p ps -> is_Some (dir_lookup (basename p) es')) /\
    (forall n, n <> "mastDownload" -> ~ In n (map basename ps) ->
       dir_lookup n es' = dir_lookup n es).
Proof.
  induction ps as [|p ps IH]; intros es root' Hps H; simpl in H.
  - injection H as <-. exists es. split; [done|]. split; [by intros ? []|done].
  - apply Forall_cons in Hps as [Hp Hps].
    destruct (move_one (Dir es) p) as [root1|] eqn:E1; [|done].
    simpl in H.
    destruct (move_one_effect _ _ _ Hp E1) as (es1 & -> & Hin1 & Hfr1).
    destruct (IH es1 root' Hps H) as (es' & -> & Hin & Hfr).
    exists es'. split; [done|]. split.
    + intros q [<-|Hq]; [|by apply Hin].
      destruct (in_dec String.string_dec (basename p) (map basename ps)) as [Hd|Hd].
      * apply in_map_iff in Hd as (q & Hqb & Hq). rewrite <- Hqb. by apply Hin.
      * rewrite Hfr; [done| |done]. by apply downloaded_basename_ne.
    + intros n Hn Hnin. simpl in Hnin.
      rewrite Hfr; [|done|tauto]. apply Hfr1; [done|]. intros ->. tauto.
Qed.

(** ** Claim C2: what cell 7 does to the working directory *)

(** C2, as stated, fails: the notebook's own cell 7 renames files and
    deletes a directory.  On a download of two exposures, both files are
    moved out of [mastDownload/] and the [mastDownload/] tree is gone. *)
Lemma cell7_changes_disk :
  cell7 download_tree = Ok moved_tree /\ moved_tree <> download_tree.
Proof. split; [reflexivity | discriminate]. Qed.

(** ** Claim C5: the parameters taken from the MDRIZTAB dictionary *)

Lemma request_loop_ok (d : gmap string value) (kw_list : list string) :
  forall (m0 : gmap string value) (out0 : list printed),
  (forall k, k ∈ kw_list -> is_Some (d !! k)) ->
  exists m out,
    for_each (request_one d) kw_list (m0, out0) = Ok (m, out) /\
    forall k, m !! k = if decide (k ∈ kw_list) then d !! k else m0 !! k.
Proof.
  induction kw_list as [|k0 ks IH]; intros m0 out0 Hall.
  - exists m0, out0. split; [done|]. intros k. case_decide as Hk; [|done].
    by apply elem_of_nil in Hk.
  - destruct (Hall k0) as [v Hv]; [by left|].
    destruct (IH (<[k0:=v]> m0) (out0 ++ [PKeyVal k0 v])) as (m & out & Hrun & Hm).
    { intros k Hk. apply Hall. by right. }
    exists m, out. split.
    + simpl. rewrite Hv. simpl. exact Hrun.
    + intros k. rewrite Hm.
      destruct (decide (k ∈ ks)) as [Hin|Hnin].
      * rewrite decide_True; [done|by right].
      * destruct (decide (k = k0)) as [->|Hne].
        -- rewrite decide_True; [|by left]. by rewrite lookup_insert_eq.
        -- rewrite decide_False.
           ++ by rewrite lookup_insert_ne.
           ++ intros [?|?]%elem_of_cons; done.
Qed.

Lemma request_loop_missing (d : gmap string value) (kw_list : list string) :
  forall (st : gmap string value * list printed) k,
  k ∈ kw_list -> d !! k = None ->
  exists k', k' ∈ kw_list /\ d !! k' = None /\
    for_each (request_one d) kw_list st = Raise (KeyError (VStr k')).
Proof.
  induction kw_list as [|k0 ks IH]; intros [m0 out0] k Hin Hk.
  - by apply elem_of_nil in Hin.
  - simpl. destruct (d !! k0) as [v|] eqn:E0; simpl.
    + apply elem_of_cons in Hin as [->|Hin]; [congruence|].
      destruct (IH (<[k0:=v]> m0, out0 ++ [PKeyVal k0 v]) k Hin Hk) as (k' & ? & ? & ?).
      exists k'. split; [by right|done].
    + exists k0. split; [by left|done].
Qed.

(** C5, as stated, fails: asked for a keyword that the MDRIZTAB dictionary
    does not hold, the function raises [KeyError] and returns no mapping. *)
Lemma get_vals_unknown_keyword :
  @get_vals_from_mdriztab example_drizzlepac ["a_flt.fits"] ["final_scale"]
  = Raise (KeyError (VStr "final_scale")).
Proof. reflexivity. Qed.

(** C5, amended: when every requested keyword is a key of the dictionary
    read from the MDRIZTAB table, [get_vals_from_mdriztab] returns a
    mapping whose keys are exactly the requested keywords, each with the
    value the dictionary has for it. *)
Theorem get_vals_from_mdriztab_exact `{Drizzlepac}
    (input_images kw_list : list string) (mdriz_dict : gmap string value) :
  getMdriztabPars input_images = Ok mdriz_dict ->
  (forall k, k ∈ kw_list -> is_Some (mdriz_dict !! k)) ->
  exists requested_params,
    get_vals_from_mdriztab input_images kw_list = Ok requested_params /\
    dom requested_params = list_to_set kw_list /\
    forall k, k ∈ kw_list -> requested_params !! k = mdriz_dict !! k.
Proof.
  intros Hd Hall. unfold get_vals_from_mdriztab, get_vals_from_mdriztab_out.
  rewrite Hd. simpl.
  destruct (request_loop_ok mdriz_dict kw_list ∅
              [PText "Outputting the following parameters:"] Hall)
    as (m & out & -> & Hm).
  exists m. split; [done|]. split.
  - apply set_eq. intros k. rewrite elem_of_dom, elem_of_list_to_set, Hm.
    case_decide as Hk.
    + split; [done|]. intros _. by apply Hall.
    + rewrite lookup_empty. split; [by intros [? ?]|done].
  - intros k Hk. rewrite Hm. by rewrite decide_True.
Qed.

Lemma get_vals_from_mdriztab_exact_witness :
  exists requested_params,
    @get_vals_from_mdriztab example_drizzlepac ["a_flt.fits"] default_kw_list
      = Ok requested_params /\
    dom requested_params = list_to_set default_kw_list /\
    forall k, k ∈ default_kw_list -> requested_params !! k = example_mdriz_dict !! k.
Proof.
  apply (@get_vals_from_mdriztab_exact example_drizzlepac
           ["a_flt.fits"] default_kw_list example_mdriz_dict).
  - reflexivity.
  - intros k Hk. unfold default_kw_list in Hk.
    repeat (apply elem_of_cons in Hk as [->|Hk]; [by vm_compute; eexists|]).
    by apply elem_of_nil in Hk.
Defined.

(** A missing keyword is reported as the first [KeyError] of the loop. *)
Lemma get_vals_from_mdriztab_missing `{Drizzlepac}
    (input_images kw_list : list string) (mdriz_dict : gmap string value) k :
  getMdriztabPars input_images = Ok mdriz_dict ->
  k ∈ kw_list -> mdriz_dict !! k = None ->
  exists k', k' ∈ kw_list /\ mdriz_dict !! k' = None /\
    get_vals_from_mdriztab input_images kw_list = Raise (KeyError (VStr k')).
Proof.
  intros Hd Hin Hk. unfold get_vals_from_mdriztab, get_vals_from_mdriztab_out.
  rewrite Hd. simpl.
  destruct (request_loop_missing mdriz_dict kw_list
              (∅, [PText "Outputting the following parameters:"]) k Hin Hk)
    as (k' & ? & ? & ->).
  by exists k'.
Qed.

(** Reduce a bind whose first computation is already a value. *)
Ltac step_bind := cbn [mbind result_bind].

(** Membership in a list that is written out. *)
Ltac in_list := apply list_elem_of_In; simpl; tauto.

(** ** Loops that collect one value per element *)

Lemma bind_ok_inv {A B} (r : result A) (k : A -> result B) b :
  r ≫= k = Ok b -> exists a, r = Ok a /\ k a = Ok b.
Proof. destruct r as [a|e]; [by exists a|done]. Qed.

Lemma for_each_collect {A B} (g : A -> result B) (xs : list A) :
  forall acc0 acc,
  for_each (fun acc x => v ← g x; Ok (acc ++ [v])) xs acc0 = Ok acc <->
  exists vs, acc = acc0 ++ vs /\ Forall2 (fun x v => g x = Ok v) xs vs.
Proof.
  induction xs as [|x xs IH]; intros acc0 acc; simpl.
  - split.
    + intros [= <-]. exists []. by rewrite app_nil_r.
    + intros (vs & -> & Hvs). apply Forall2_nil_inv_l in Hvs as ->.
      by rewrite app_nil_r.
  - destruct (g x) as [v|e] eqn:E; simpl.
    + rewrite IH. split.
      * intros (vs & -> & Hvs). exists (v :: vs).
        split; [by rewrite <- app_assoc|by constructor].
      * intros (vs & -> & Hvs).
        apply Forall2_cons_inv_l in Hvs as (v' & vs' & Hv & Hvs' & ->).
        assert (v' = v) as -> by congruence.
        exists vs'. split; [by rewrite <- app_assoc|done].
    + split; [done|].
      intros (vs & _ & Hvs).
      apply Forall2_cons_inv_l in Hvs as (v' & vs' & Hv & _). congruence.
Qed.

(** ** Claim C6: the shape of the header summary table *)

Lemma header_row_spec root f row :
  header_row root f = Ok row <->
  exists r0 r1,
    row = r0 ++ r1 /\
    Forall2 (fun kw v => fits_getval f kw 0 root = Ok v) keywords_ext0 r0 /\
    Forall2 (fun kw v => fits_getval f kw 1 root = Ok v) keywords_ext1 r1.
Proof.
  unfold header_row. split.
  - intros (r0 & E0 & H)%bind_ok_inv.
    apply (for_each_collect (fun kw => fits_getval f kw 0 root)) in E0
      as (r0' & -> & H0).
    apply (for_each_collect (fun kw => fits_getval f kw 1 root)) in H
      as (r1 & -> & H1).
    by exists r0', r1.
  - intros (r0 & r1 & -> & H0 & H1).
    assert (for_each (append_getval root f 0) keywords_ext0 [] = Ok r0) as ->.
    { apply (for_each_collect (fun kw => fits_getval f kw 0 root)). by exists r0. }
    change (for_each (append_getval root f 1) keywords_ext1 ([] ++ r0) = Ok (r0 ++ r1)).
    apply (for_each_collect (fun kw => fits_getval f kw 1 root)). by exists r1.
Qed.

Lemma header_row_length root f row :
  header_row root f = Ok row -> length row = length keywords.
Proof.
  intros (r0 & r1 & -> & H0 & H1)%header_row_spec.
  apply Forall2_length in H0, H1. unfold keywords.
  rewrite !length_app. congruence.
Qed.

(** The value the row of [f] holds for the keyword at position [j]. *)
Lemma header_row_lookup root f row j kw :
  header_row root f = Ok row ->
  keywords !! j = Some kw ->
  exists v, row !! j = Some v /\
    fits_getval f kw (if (j <? length keywords_ext0)%nat then 0 else 1)%nat root = Ok v.
Proof.
  intros (r0 & r1 & -> & H0 & H1)%header_row_spec Hkw.
  unfold keywords in Hkw.
  pose proof (Forall2_length _ _ _ H0) as L0.
  destruct (Nat.ltb_spec j (length keywords_ext0)) as [Hlt|Hge].
  - rewrite lookup_app_l in Hkw by done.
    destruct (Forall2_lookup_l _ _ _ _ _ H0 Hkw) as (v & Hv & Hget).
    exists v. split; [|done]. rewrite lookup_app_l; [done|]. by rewrite <- L0.
  - rewrite lookup_app_r in Hkw by done.
    destruct (Forall2_lookup_l _ _ _ _ _ H1 Hkw) as (v & Hv & Hget).
    exists v. split; [|done]. rewrite lookup_app_r; rewrite <- L0; done.
Qed.

Lemma data_rows_spec root files data :
  for_each (append_row root) files [] = Ok data <->
  Forall2 (fun f row => header_row root f = Ok row) files data.
Proof.
  unfold append_row.
  rewrite (for_each_collect (fun f => header_row root f)). split.
  - by intros (vs & -> & ?).
  - intros ?. by exists data.
Qed.

Lemma cast_column_spec `{Numeric} d col cs :
  cast_column d col = Ok cs <-> Forall2 (fun v c => column_cast d v = Ok c) col cs.
Proof.
  revert cs. induction col as [|v col IH]; intros cs; simpl.
  - split; [intros [= <-]; constructor|by intros ->%Forall2_nil_inv_l].
  - destruct (column_cast d v) as [c|] eqn:E; simpl.
    + destruct (cast_column d col) as [cs'|] eqn:E'; simpl.
      * split.
        -- intros [= <-]. constructor; [done|]. by apply IH.
        -- intros (c' & cs'' & Hc & Hcs & ->)%Forall2_cons_inv_l.
           apply IH in Hcs. congruence.
      * split; [done|].
        intros (c' & cs'' & Hc & Hcs & ->)%Forall2_cons_inv_l.
        apply IH in Hcs. congruence.
    + split; [done|].
      intros (c' & cs'' & Hc & Hcs & ->)%Forall2_cons_inv_l. congruence.
Qed.

Lemma omap_lookup_full {A} (data : list (list A)) j :
  Forall (fun row => (j < length row)%nat) data ->
  Forall2 (fun row v => row !! j = Some v) data (omap (fun row => row !! j) data).
Proof.
  induction 1 as [|row data Hj _ IH]; simpl; [constructor|].
  destruct (lookup_lt_is_Some_2 row j Hj) as [v Hv]. rewrite Hv.
  by constructor.
Qed.

(** The columns of a table built from rows: the names are the given ones,
    in order, and column [j] holds, row by row, the cast of entry [j]. *)
Lemma build_columns_spec `{Numeric} data names : forall dtypes j0 t,
  Forall (fun row => (j0 + length names <= length row)%nat) data ->
  build_columns data j0 names dtypes = Ok t ->
  colnames t = names /\
  length dtypes = length names /\
  forall j name d, names !! j = Some name -> dtypes !! j = Some d ->
    exists col, t !! j = Some (name, col) /\
      Forall2 (fun row c => exists v, row !! (j0 + j)%nat = Some v /\ column_cast d v = Ok c)
              data col.
Proof.
  induction names as [|name names IH]; intros [|d dtypes] j0 t Hlen Hb;
    simpl in Hb; try done.
  - injection Hb as <-. split; [done|]. split; [done|]. by intros [|?] ? ? ?.
  - destruct (cast_column d _) as [col|] eqn:Ecol; [|done]. simpl in Hb.
    destruct (build_columns data (S j0) names dtypes) as [t'|] eqn:Et; [|done].
    injection Hb as <-.
    apply IH in Et as (Hn & Hl & Hcols).
    2:{ eapply Forall_impl; [exact Hlen|]. simpl. intros. lia. }
    split; [simpl; by f_equal|]. split; [simpl; by f_equal|].
    intros [|j] name' d' Hname Hd; simpl in *.
    + injection Hname as <-. injection Hd as <-.
      exists col. split; [done|].
      apply cast_column_spec in Ecol.
      assert (Forall2 (fun row v => row !! j0 = Some v) data
                (omap (fun row => row !! j0) data)) as Hom.
      { apply omap_lookup_full. eapply Forall_impl; [exact Hlen|]. simpl. intros. lia. }
      rewrite Nat.add_0_r.
      clear -Ecol Hom. revert Ecol Hom.
      generalize (omap (fun row : list value => row !! j0) data) as vs.
      intros vs Hc Hr. revert col Hc.
      induction Hr as [|row v data' vs' Hv _ IHr]; intros col Hc.
      * apply Forall2_nil_inv_l in Hc as ->. constructor.
      * apply Forall2_cons_inv_l in Hc as (c & cs & Hcv & Hcs & ->).
        constructor; [by exists v|by apply IHr].
    + destruct (Hcols j name' d' Hname Hd) as (col' & Ht & Hcells).
      exists col'. split; [done|].
      eapply Forall2_impl; [exact Hcells|]. simpl.
      intros row c (v & Hv & Hc). exists v. split; [|done].
      by replace (j0 + S j)%nat with (S j0 + j)%nat by lia.
Qed.

(** A one-component pattern selects entries of the directory by name. *)
Lemma glob_names pattern es :
  String.eqb pattern "." = false ->
  join_path <$> glob_from [pattern] (Dir es)
  = List.filter (component_matches pattern) es.*1.
Proof.
  intros Hp. cbn [glob_from]. rewrite Hp.
  induction es as [|[name child] es IH]; [done|].
  cbn [flat_map fmap list_fmap fst List.filter].
  destruct (component_matches pattern name).
  - rewrite fmap_app. cbn. f_equal. exact IH.
  - exact IH.
Qed.

Lemma glob_flt_files_spec es :
  StronglySorted String.le (glob_flt_files (Dir es)) /\
  glob_flt_files (Dir es) ≡ₚ List.filter (component_matches flt_pattern) es.*1.
Proof.
  unfold glob_flt_files, sorted, glob.
  change (split_on "/" flt_pattern) with [flt_pattern].
  rewrite glob_names by done. split.
  - apply StronglySorted_merge_sort; apply _.
  - apply merge_sort_Permutation.
Qed.

Lemma table_from_rows_spec `{Numeric} data names dtypes t :
  Table_from_rows data names dtypes = Ok t ->
  colnames t = names /\
  forall j name d, names !! j = Some name -> dtypes !! j = Some d ->
    exists col, t !! j = Some (name, col) /\
      Forall2 (fun row c => exists v, row !! j = Some v /\ column_cast d v = Ok c) data col.
Proof.
  unfold Table_from_rows.
  destruct (forallb _ _) eqn:Hall; [|done]. intros Hb.
  apply build_columns_spec in Hb as (Hn & _ & Hc).
  - split; [done|]. exact Hc.
  - apply Forall_forall. intros row Hrow.
    rewrite forallb_forall in Hall.
    apply list_elem_of_In, Hall, Nat.eqb_eq in Hrow. simpl. lia.
Qed.

(** C6: the header summary table.  In a directory with no file matching
    ['*fl?.fits'] cell 10 produces the table of the twelve named columns
    with no row.  Whenever cell 10 produces its table, the file list is the
    sorted list of the names matching ['*fl?.fits'], the table has one row
    per file of that list, in that order, and its columns are the eleven
    extension-0 keywords followed by ORIENTAT, each with one cell per file;
    the cell of row [i] and column [j] is the value of keyword [j] in file
    [i], read from extension 0 for the first eleven columns and from
    extension 1 for the last. *)
Theorem summary_table_rows_and_columns `{Numeric} es :
  (List.filter (component_matches "*fl?.fits") es.*1 = [] ->
   cell10 (Dir es) = Ok ([], (fun kw => (kw, [])) <$> keywords)) /\
  forall flt_files t,
  cell10 (Dir es) = Ok (flt_files, t) ->
  StronglySorted String.le flt_files /\
  flt_files ≡ₚ List.filter (component_matches "*fl?.fits") es.*1 /\
  colnames t =
    ["ROOTNAME"; "ASN_ID"; "TARGNAME"; "DETECTOR"; "FILTER"; "EXPTIME";
     "RA_TARG"; "DEC_TARG"; "POSTARG1"; "POSTARG2"; "DATE-OBS"; "ORIENTAT"] /\
  n_rows t = length flt_files /\
  Forall (fun col => length col.2 = length flt_files) t /\
  forall i f j kw d,
    flt_files !! i = Some f -> keywords !! j = Some kw -> summary_dtypes !! j = Some d ->
    exists v c,
      fits_getval f kw (if (j <? 11)%nat then 0 else 1)%nat (Dir es) = Ok v /\
      column_cast d v = Ok c /\
      table_cell t i j = Some c.
Proof.
  split.
  { intros Hnone. unfold cell10, glob_flt_files, glob.
    change (split_on "/" flt_pattern) with [flt_pattern].
    rewrite glob_names by done.
    change flt_pattern with "*fl?.fits". rewrite Hnone. reflexivity. }
  intros flt_files t.
  unfold cell10. intros (data & Hdata & Ht)%bind_ok_inv.
  apply bind_ok_inv in Ht as (t' & Ht & [= <- <-]).
  apply data_rows_spec in Hdata.
  apply table_from_rows_spec in Ht as (Hnames & Hcols).
  destruct (glob_flt_files_spec es) as (Hs & Hp).
  split; [done|]. split; [done|]. split; [done|].
  pose proof (Forall2_length _ _ _ Hdata) as Hlen.
  split; [|split].
  - destruct (Hcols 0%nat "ROOTNAME" DStr eq_refl eq_refl) as (col & Hcol & Hcells).
    destruct t' as [|[n0 c0] t']; [done|]. injection Hcol as -> ->.
    simpl. apply Forall2_length in Hcells. congruence.
  - apply Forall_lookup. intros j [name col] Hj.
    assert (j < length keywords)%nat as Hlt.
    { rewrite <- Hnames. unfold colnames. rewrite length_fmap.
      by eapply lookup_lt_Some. }
    destruct (lookup_lt_is_Some_2 keywords j Hlt) as [kw Hkw].
    destruct (lookup_lt_is_Some_2 summary_dtypes j) as [d Hd]; [exact Hlt|].
    destruct (Hcols j kw d Hkw Hd) as (col' & Hcol & Hcells).
    pose proof (eq_trans (eq_sym Hj) Hcol) as [= -> ->].
    apply Forall2_length in Hcells. simpl. lia.
  - intros i f j kw d Hf Hkw Hd.
    destruct (Forall2_lookup_l _ _ _ _ _ Hdata Hf) as (row & Hrow & Hget).
    destruct (header_row_lookup _ _ _ _ _ Hget Hkw) as (v & Hv & Hval).
    destruct (Hcols j kw d Hkw Hd) as (col & Hcol & Hcells).
    destruct (Forall2_lookup_l _ _ _ _ _ Hcells Hrow) as (c & Hc & v' & Hv' & Hcast).
    assert (v' = v) as -> by congruence.
    exists v, c. split; [exact Hval|]. split; [done|].
    unfold table_cell. rewrite Hcol. simpl. exact Hc.
Qed.

Lemma summary_table_rows_and_columns_witness :
  @cell10 plain_numeric (Dir [("crds_cache", Dir [])])
    = Ok ([], (fun kw => (kw, [])) <$> keywords) /\
  exists flt_files t,
    @cell10 plain_numeric moved_tree = Ok (flt_files, t) /\
    flt_files = ["ib1f19l6q_flt.fits"; "ib1f19l7q_flt.fits"] /\
    n_rows t = 2%nat /\
    Forall (fun col => length col.2 = 2%nat) t /\
    colnames t =
      ["ROOTNAME"; "ASN_ID"; "TARGNAME"; "DETECTOR"; "FILTER"; "EXPTIME";
       "RA_TARG"; "DEC_TARG"; "POSTARG1"; "POSTARG2"; "DATE-OBS"; "ORIENTAT"] /\
    table_cell t 1 8 = Some (VFloat (b64_lit 542 1000)).
Proof.
  split.
  { apply (proj1 (@summary_table_rows_and_columns plain_numeric [("crds_cache", Dir [])])).
    reflexivity. }
  destruct (@cell10 plain_numeric moved_tree) as [[flt_files t]|e] eqn:E;
    [|by vm_compute in E].
  exists flt_files, t. split; [done|].
  pose proof (proj2 (@summary_table_rows_and_columns plain_numeric moved_entries)
                flt_files t E) as (_ & _ & Hnames & Hrows & Hcols & Hcells).
  assert (flt_files = ["ib1f19l6q_flt.fits"; "ib1f19l7q_flt.fits"]) as Hf.
  { vm_compute in E. by injection E as <- _. }
  split; [done|]. rewrite Hf in *.
  split; [exact Hrows|]. split; [exact Hcols|]. split; [exact Hnames|].
  destruct (Hcells 1%nat "ib1f19l7q_flt.fits" 8%nat "POSTARG1" DF8 eq_refl eq_refl eq_refl)
    as (v & c & Hv & Hc & Hcell).
  vm_compute in Hv. injection Hv as <-. cbn in Hc. injection Hc as <-.
  rewrite Hcell. vm_compute. reflexivity.
Defined.

Lemma Forall2_exists {A B} (P : A -> B -> Prop) (xs : list A) :
  (forall x, x ∈ xs -> exists y, P x y) -> exists ys, Forall2 P xs ys.
Proof.
  induction xs as [|x xs IH]; intros Hall.
  - exists []. constructor.
  - destruct (Hall x) as [y Hy]; [by left|].
    destruct IH as [ys Hys]; [intros x' Hx'; apply Hall; by right|].
    exists (y :: ys). by constructor.
Qed.

Lemma cast_column_ok `{Numeric} d col :
  Forall (fun v => exists c, column_cast d v = Ok c) col ->
  exists cs, cast_column d col = Ok cs.
Proof.
  induction 1 as [|v col [c Hc] _ [cs IH]]; simpl.
  - by exists [].
  - rewrite Hc. simpl. rewrite IH. simpl. by eexists.
Qed.

Lemma build_columns_ok `{Numeric} data names : forall dtypes j0,
  length dtypes = length names ->
  (forall j d row v, dtypes !! j = Some d -> row ∈ data ->
     row !! (j0 + j)%nat = Some v -> exists c, column_cast d v = Ok c) ->
  exists t, build_columns data j0 names dtypes = Ok t.
Proof.
  induction names as [|name names IH]; intros [|d dtypes] j0 Hlen Hcast;
    simpl in Hlen; try done.
  - by exists [].
  - simpl.
    destruct (cast_column_ok d (omap (fun row => row !! j0) data)) as [col ->].
    { apply Forall_forall. intros v (row & Hrow & Hv)%list_elem_of_omap.
      apply (Hcast 0%nat d row v); [done|done|by rewrite Nat.add_0_r]. }
    destruct (IH dtypes (S j0)) as [t ->]; [lia| |by eexists].
    intros j d' row v Hd Hrow Hv. apply (Hcast (S j) d' row v); [done|done|].
    by replace (j0 + S j)%nat with (S j0 + j)%nat by lia.
Qed.

(** Cell 10 does produce a table when every exposure holds the twelve
    keywords and every value can be cast to the dtype of its column. *)
Lemma cell10_succeeds `{Numeric} root :
  (forall f j kw d,
     f ∈ glob_flt_files root -> keywords !! j = Some kw -> summary_dtypes !! j = Some d ->
     exists v c,
       fits_getval f kw (if (j <? 11)%nat then 0 else 1)%nat root = Ok v /\
       column_cast d v = Ok c) ->
  exists t, cell10 root = Ok (glob_flt_files root, t).
Proof.
  intros Hall. unfold cell10.
  assert (exists data, Forall2 (fun f row => header_row root f = Ok row)
                         (glob_flt_files root) data) as [data Hdata].
  { apply Forall2_exists. intros f Hf.
    assert (forall ext off kws,
              (forall i kw, kws !! i = Some kw ->
                 keywords !! (off + i)%nat = Some kw /\
                 (if (off + i <? 11)%nat then 0 else 1)%nat = ext) ->
              exists r, Forall2 (fun kw v => fits_getval f kw ext root = Ok v) kws r)
      as Hpart.
    { intros ext off kws Hk. apply Forall2_exists.
      intros kw (i & Hi)%list_elem_of_lookup.
      destruct (Hk i kw Hi) as (Hkw & Hext).
      destruct (lookup_lt_is_Some_2 summary_dtypes (off + i)) as [d Hd].
      { apply lookup_lt_Some in Hkw. exact Hkw. }
      destruct (Hall f _ kw d Hf Hkw Hd) as (v & _ & Hv & _).
      exists v. by rewrite <- Hext. }
    destruct (Hpart 0%nat 0%nat keywords_ext0) as [r0 H0].
    { intros i kw Hi. pose proof (lookup_lt_Some _ _ _ Hi) as Hlt.
      simpl in Hlt. split; [by apply lookup_app_l_Some|].
      simpl. destruct (Nat.ltb_spec i 11); [done|lia]. }
    destruct (Hpart 1%nat 11%nat keywords_ext1) as [r1 H1].
    { intros i kw Hi. pose proof (lookup_lt_Some _ _ _ Hi) as Hlt.
      simpl in Hlt. split.
      - unfold keywords. rewrite lookup_app_r by (simpl; lia).
        change (length keywords_ext0) with 11%nat.
        by replace (11 + i - 11)%nat with i by lia.
      - destruct (Nat.ltb_spec (11 + i) 11); [lia|done]. }
    exists (r0 ++ r1). apply header_row_spec. by exists r0, r1. }
  pose proof Hdata as Hrun. apply data_rows_spec in Hrun. rewrite Hrun.
  change (exists t, (Table_from_rows data keywords summary_dtypes
                       ≫= fun t0 => Ok (glob_flt_files root, t0))
                    = Ok (glob_flt_files root, t)).
  assert (Forall (fun row => length row = length keywords) data) as Hlen.
  { apply Forall_forall. intros row (i & Hi)%list_elem_of_lookup.
    destruct (Forall2_lookup_r _ _ _ _ _ Hdata Hi) as (f & _ & Hrow).
    by eapply header_row_length. }
  unfold Table_from_rows.
  assert (forallb (fun row => Nat.eqb (length row) (length keywords)) data = true) as ->.
  { apply forallb_forall. intros row Hrow%list_elem_of_In.
    rewrite Forall_forall in Hlen. apply Nat.eqb_eq. by apply Hlen. }
  destruct (build_columns_ok data keywords summary_dtypes 0%nat) as [t Ht]; [done| |].
  - intros j d row v Hd (i & Hi)%list_elem_of_lookup Hv. simpl in Hv.
    destruct (Forall2_lookup_r _ _ _ _ _ Hdata Hi) as (f & Hf & Hrow).
    destruct (lookup_lt_is_Some_2 keywords j) as [kw Hkw].
    { apply lookup_lt_Some in Hd. exact Hd. }
    destruct (Hall f j kw d) as (v' & c & Hv' & Hc); [|done|done|].
    { apply list_elem_of_lookup. by exists i. }
    destruct (header_row_lookup _ _ _ _ _ Hrow Hkw) as (v'' & Hv'' & Hval).
    change (length keywords_ext0) with 11%nat in Hval.
    exists c. congruence.
  - rewrite Ht. by exists t.
Qed.

(** ** Claim C7: the inspection cells depend on headers only *)

Lemma for_each_ext {A S} (f g : S -> A -> result S) xs :
  (forall s x, f s x = g s x) -> forall s, for_each f xs s = for_each g xs s.
Proof.
  intros Hfg. induction xs as [|x xs IH]; intros s; simpl; [done|].
  rewrite Hfg. destruct (g s x); simpl; auto.
Qed.

Lemma dir_lookup_header_view name es :
  dir_lookup name (prod_map id header_view_node <$> es)
  = header_view_node <$> dir_lookup name es.
Proof.
  induction es as [|[n x] es IH]; simpl; [done|].
  destruct (String.eqb n name); [done|exact IH].
Qed.

Lemma fits_getheader_header_view name ext root :
  fits_getheader name ext (header_view root) = fits_getheader name ext root.
Proof.
  unfold fits_getheader, fits_open.
  assert (resolve [name] (header_view root) = 
          (if String.eqb name "." then Some (header_view root)
           else header_view_node <$> resolve [name] root)) as ->.
  { cbn [resolve]. destruct (String.eqb name "."); [done|].
    destruct root as [c|es]; simpl; [done|].
    rewrite dir_lookup_header_view. by destruct (dir_lookup name es). }
  cbn [resolve].
  destruct (String.eqb name ".").
  - destruct root as [[hdus|]|es]; simpl; try done.
    rewrite list_lookup_fmap. by destruct (hdus !! ext).
  - destruct root as [c|es]; [done|].
    destruct (dir_lookup name es) as [[[hdus|]|es']|]; simpl; try done.
    rewrite list_lookup_fmap. by destruct (hdus !! ext).
Qed.

Lemma glob_flt_files_header_view root :
  glob_flt_files (header_view root) = glob_flt_files root.
Proof.
  unfold glob_flt_files, glob. f_equal.
  change (split_on "/" flt_pattern) with [flt_pattern].
  destruct root as [c|es]; [done|].
  unfold header_view. rewrite !glob_names by done. f_equal.
  rewrite <- list_fmap_compose. apply list_fmap_ext. by intros ? [? ?].
Qed.

Lemma cell10_header_view `{Numeric} root : cell10 (header_view root) = cell10 root.
Proof.
  unfold cell10. rewrite glob_flt_files_header_view.
  rewrite (for_each_ext (append_row (header_view root)) (append_row root)); [done|].
  intros data f. unfold append_row, header_row.
  assert (forall ext, append_getval (header_view root) f ext = append_getval root f ext) as Hg.
  { intros ext. unfold append_getval, fits_getval.
    by rewrite fits_getheader_header_view. }
  by rewrite !Hg.
Qed.

Lemma cell14_header_view `{Numeric} root files :
  cell14 (header_view root) files = cell14 root files.
Proof.
  unfold cell14.
  rewrite (for_each_ext (wcs_file (header_view root)) (wcs_file root)); [done|].
  intros cd f. unfold wcs_file. by rewrite !fits_getheader_header_view.
Qed.

(** C7: the header-inspection step and the alignment-inspection step are
    functions of the file headers and nothing else.  On two working
    directories with the same entry names and the same headers, and from any
    two kernel states, cell 10 gives the same file list and table (or raises
    the same exception); with the same file list, cell 14 gives the same
    alignment table; and running either cell a second time reproduces its
    table. *)
Theorem inspection_steps_deterministic `{Numeric} root root' k k' :
  same_headers root root' ->
  (fun r => (k_flt_files r, k_table r)) <$> run_cell10 root k
    = (fun r => (k_flt_files r, k_table r)) <$> run_cell10 root' k' /\
  (k_flt_files k = k_flt_files k' ->
     k_wcstable <$> run_cell14 root k = k_wcstable <$> run_cell14 root' k') /\
  (forall k1, run_cell10 root k = Ok k1 ->
     exists k2, run_cell10 root' k1 = Ok k2 /\
       k_flt_files k2 = k_flt_files k1 /\ k_table k2 = k_table k1) /\
  (forall k1, run_cell14 root k = Ok k1 ->
     exists k2, run_cell14 root' k1 = Ok k2 /\ k_wcstable k2 = k_wcstable k1).
Proof.
  intros Hsame. unfold same_headers in Hsame.
  assert (cell10 root = cell10 root') as E10.
  { by rewrite <- (cell10_header_view root), Hsame, cell10_header_view. }
  assert (forall files, cell14 root files = cell14 root' files) as E14.
  { intros files.
    by rewrite <- (cell14_header_view root), Hsame, cell14_header_view. }
  split; [|split; [|split]].
  - unfold run_cell10. rewrite E10. by destruct (cell10 root') as [[? ?]|].
  - intros Hf. unfold run_cell14. rewrite Hf.
    destruct (k_flt_files k') as [files|]; simpl; [|done].
    rewrite E14. by destruct (cell14 root' files).
  - intros k1. unfold run_cell10. rewrite <- E10.
    destruct (cell10 root) as [[files t]|]; simpl; [|done].
    intros [= <-]. by eexists.
  - intros k1. unfold run_cell14 at 1.
    destruct (k_flt_files k) as [files|] eqn:Ef; simpl; [|done].
    destruct (cell14 root files) as [t|] eqn:Et; simpl; [|done].
    intros [= <-]. unfold run_cell14. simpl.
    rewrite <- E14, Et. simpl. by eexists.
Qed.

Lemma inspection_steps_deterministic_witness :
  same_headers moved_tree moved_tree_new_pixels /\
  (fun r => (k_flt_files r, k_table r)) <$> @run_cell10 plain_numeric moved_tree fresh_kernel
  = (fun r => (k_flt_files r, k_table r))
      <$> @run_cell10 plain_numeric moved_tree_new_pixels (mkKernel (Some ["x.fits"]) None None).
Proof.
  split; [reflexivity|].
  apply (@inspection_steps_deterministic plain_numeric
           moved_tree moved_tree_new_pixels fresh_kernel
           (mkKernel (Some ["x.fits"]) None None)).
  reflexivity.
Defined.

(** ** Claim C8: the detectors of the alignment table *)

Lemma det_scale_get_supported det :
  supported det -> exists scale, det_scale_get det = Ok scale.
Proof. intros [->|[->| ->]]; by eexists. Qed.

Lemma det_scale_get_unsupported det :
  ~ supported det -> det_scale_get det = Raise (KeyError det).
Proof.
  intros Hns. destruct det as [s| | |]; try done. unfold det_scale_get.
  assert (det_scale !! s = None) as ->; [|done].
  unfold det_scale, supported in *.
  rewrite !lookup_insert_ne, lookup_singleton_ne; [done|..]; intros <-; tauto.
Qed.

Lemma det_scale_get_inv det scale : det_scale_get det = Ok scale -> supported det.
Proof.
  intros H. destruct (decide (det = VStr "IR")) as [->|H1]; [by left|].
  destruct (decide (det = VStr "UVIS")) as [->|H2]; [by right; left|].
  destruct (decide (det = VStr "WFC")) as [->|H3]; [by right; right|].
  rewrite det_scale_get_unsupported in H; [done|].
  unfold supported. tauto.
Qed.

Lemma bind_ok {A B} (r : result A) (k : A -> result B) a :
  r = Ok a -> r ≫= k = k a.
Proof. by intros ->. Qed.

Lemma for_each_ok_all {A S} (body : S -> A -> result S) xs :
  (forall s x, x ∈ xs -> exists s', body s x = Ok s') ->
  forall s, exists s', for_each body xs s = Ok s'.
Proof.
  induction xs as [|x xs IH]; intros Hall s; simpl; [by eexists|].
  destruct (Hall s x) as [s1 ->]; [by left|]. simpl.
  apply IH. intros s2 y Hy. apply Hall. by right.
Qed.

Lemma rms_to_pixels_ok hdr0 hdr1 kw raw x det :
  header_get kw hdr1 = Ok raw -> py_to_float raw = Ok x ->
  header_get "DETECTOR" hdr0 = Ok det -> supported det ->
  exists pix, rms_to_pixels hdr0 hdr1 kw = Ok pix.
Proof.
  intros Hraw Hx Hdet [scale Hs]%det_scale_get_supported.
  unfold rms_to_pixels. rewrite Hraw. simpl. rewrite Hx. simpl.
  rewrite Hdet. simpl. rewrite Hs. simpl. by eexists.
Qed.

Lemma rms_to_pixels_unsupported hdr0 hdr1 kw raw x det :
  header_get kw hdr1 = Ok raw -> py_to_float raw = Ok x ->
  header_get "DETECTOR" hdr0 = Ok det -> ~ supported det ->
  rms_to_pixels hdr0 hdr1 kw = Raise (KeyError det).
Proof.
  intros Hraw Hx Hdet Hs%det_scale_get_unsupported.
  unfold rms_to_pixels. rewrite Hraw. simpl. rewrite Hx. simpl.
  rewrite Hdet. simpl. by rewrite Hs.
Qed.

Lemma rms_to_pixels_inv hdr0 hdr1 kw pix :
  rms_to_pixels hdr0 hdr1 kw = Ok pix ->
  exists det, header_get "DETECTOR" hdr0 = Ok det /\ supported det.
Proof.
  unfold rms_to_pixels.
  intros (raw & _ & H)%bind_ok_inv.
  apply bind_ok_inv in H as (x & _ & H).
  apply bind_ok_inv in H as (det & Hdet & H).
  apply bind_ok_inv in H as (scale & Hs & _).
  exists det. split; [done|]. by eapply det_scale_get_inv.
Qed.

Lemma wcs_file_inv `{Numeric} root cd f cd' :
  wcs_file root cd f = Ok cd' ->
  exists det, detector_of root f = Ok det /\ supported det.
Proof.
  unfold wcs_file, detector_of.
  intros (hdr0 & -> & H1)%bind_ok_inv.
  apply bind_ok_inv in H1 as (hdr1 & _ & H1).
  apply bind_ok_inv in H1 as (cd1 & _ & H1).
  apply bind_ok_inv in H1 as (cd2 & _ & H1).
  cbn [for_each] in H1.
  apply bind_ok_inv in H1 as (cd3 & H1 & _).
  unfold append_pix in H1.
  apply bind_ok_inv in H1 as (pix & Hpix & _).
  by apply rms_to_pixels_inv in Hpix.
Qed.

Section CompleteExposures.
Context `{Numeric}.
Hypothesis around_float : forall x d, exists r, np_around (VFloat x) d = Ok r.

Lemma wcs_file_prefix root cd f :
  complete_for_wcs root f ->
  exists hdr0 hdr1 cd2 det raw_ra x_ra raw_dec x_dec,
    header_get "DETECTOR" hdr0 = Ok det /\
    detector_of root f = Ok det /\
    header_get "RMS_RA" hdr1 = Ok raw_ra /\ py_to_float raw_ra = Ok x_ra /\
    header_get "RMS_DEC" hdr1 = Ok raw_dec /\ py_to_float raw_dec = Ok x_dec /\
    wcs_file root cd f
    = for_each (append_pix hdr0 hdr1) ["RMS_RA"; "RMS_DEC"] cd2.
Proof.
  intros (hdr0 & hdr1 & H0 & H1 & Hk0 & Hk1).
  destruct (Hk0 "DETECTOR") as [det Hdet]; [in_list|].
  destruct (Hk1 "RMS_RA") as (raw_ra & Hra & Hnra); [in_list|].
  destruct (Hk1 "RMS_DEC") as (raw_dec & Hdec & Hndec); [in_list|].
  destruct Hnra as [[x_ra Hxra] _]; [done|].
  destruct Hndec as [[x_dec Hxdec] _]; [done|].
  destruct (for_each_ok_all (append_ext0 hdr0) ext_0_kws) with
    (s := dd_append "filename" (VStr f) cd) as [cd1 Hcd1].
  { intros s kw Hkw. destruct (Hk0 kw Hkw) as [v Hv].
    unfold append_ext0. rewrite Hv. by eexists. }
  destruct (for_each_ok_all (append_ext1 hdr1) ext_1_kws) with (s := cd1)
    as [cd2 Hcd2].
  { intros s kw Hkw. destruct (Hk1 kw Hkw) as (raw & Hraw & Hn).
    unfold append_ext1. rewrite Hraw. simpl.
    destruct (contains "RMS" kw); [|by eexists].
    destruct (Hn eq_refl) as [_ [r ->]]. by eexists. }
  exists hdr0, hdr1, cd2, det, raw_ra, x_ra, raw_dec, x_dec.
  repeat (split; [done|]). split.
  { unfold detector_of. by rewrite H0. }
  repeat (split; [done|]).
  unfold wcs_file. rewrite H0. step_bind. rewrite H1. step_bind.
  rewrite Hcd1. step_bind. by rewrite Hcd2.
Qed.

Lemma wcs_file_ok root cd f det :
  complete_for_wcs root f -> detector_of root f = Ok det -> supported det ->
  exists cd', wcs_file root cd f = Ok cd'.
Proof.
  intros Hc Hd Hs.
  destruct (wcs_file_prefix root cd f Hc)
    as (hdr0 & hdr1 & cd2 & det' & raw_ra & x_ra & raw_dec & x_dec &
        Hdet & Hdet' & Hra & Hxra & Hdec & Hxdec & ->).
  assert (det' = det) as -> by congruence.
  apply for_each_ok_all. intros s kw Hkw.
  assert (exists raw x, header_get kw hdr1 = Ok raw /\ py_to_float raw = Ok x)
    as (raw & x & Hraw & Hx).
  { apply elem_of_cons in Hkw as [->|Hkw]; [by eauto|].
    apply elem_of_cons in Hkw as [->|Hkw]; [by eauto|].
    by apply elem_of_nil in Hkw. }
  destruct (rms_to_pixels_ok hdr0 hdr1 kw raw x det Hraw Hx Hdet Hs) as [pix Hpix].
  unfold append_pix. rewrite Hpix. simpl.
  destruct (around_float pix 2) as [r ->]. by eexists.
Qed.

Lemma wcs_file_unsupported root cd f det :
  complete_for_wcs root f -> detector_of root f = Ok det -> ~ supported det ->
  wcs_file root cd f = Raise (KeyError det).
Proof.
  intros Hc Hd Hs.
  destruct (wcs_file_prefix root cd f Hc)
    as (hdr0 & hdr1 & cd2 & det' & raw_ra & x_ra & raw_dec & x_dec &
        Hdet & Hdet' & Hra & Hxra & Hdec & Hxdec & ->).
  assert (det' = det) as -> by congruence.
  cbn [for_each]. unfold append_pix.
  by rewrite (rms_to_pixels_unsupported hdr0 hdr1 "RMS_RA" raw_ra x_ra det).
Qed.

Lemma wcs_loop_ok root files : forall cd,
  Forall (complete_for_wcs root) files ->
  Forall (fun f => exists det, detector_of root f = Ok det /\ supported det) files ->
  exists cd', for_each (wcs_file root) files cd = Ok cd'.
Proof.
  induction files as [|f files IH]; intros cd Hc Hs; simpl; [by eexists|].
  apply Forall_cons in Hc as [Hcf Hc]. apply Forall_cons in Hs as [(det & Hd & Hsd) Hs].
  destruct (wcs_file_ok root cd f det Hcf Hd Hsd) as [cd1 ->]. simpl.
  by apply IH.
Qed.

Lemma wcs_loop_unsupported root files : forall cd f det,
  Forall (complete_for_wcs root) files ->
  f ∈ files -> detector_of root f = Ok det -> ~ supported det ->
  exists det', ~ supported det' /\
    for_each (wcs_file root) files cd = Raise (KeyError det').
Proof.
  induction files as [|f0 files IH]; intros cd f det Hc Hin Hd Hs.
  - by apply elem_of_nil in Hin.
  - apply Forall_cons in Hc as [Hc0 Hc]. simpl.
    destruct (wcs_file_prefix root cd f0 Hc0)
      as (_ & _ & _ & det0 & _ & _ & _ & _ & _ & Hd0 & _).
    destruct (decide (supported det0)) as [Hs0|Hs0].
    + destruct (wcs_file_ok root cd f0 det0 Hc0 Hd0 Hs0) as [cd1 ->]. simpl.
      apply elem_of_cons in Hin as [->|Hin]; [|by eapply IH].
      congruence.
    + exists det0. split; [done|].
      by rewrite (wcs_file_unsupported root cd f0 det0).
Qed.
End CompleteExposures.

(** Without any assumption on the other cards: an exposure whose
    detector is not one of the three makes cell 14 raise, so that no
    alignment table is bound. *)
Lemma cell14_fails_on_unsupported `{Numeric} root files f det :
  f ∈ files -> detector_of root f = Ok det -> ~ supported det ->
  exists e, cell14 root files = Raise e.
Proof.
  intros Hin Hd Hs. unfold cell14. generalize ([] : table) as cd.
  induction files as [|f0 files IH]; intros cd; [by apply elem_of_nil in Hin|].
  cbn [for_each].
  destruct (wcs_file root cd f0) as [cd1|e] eqn:E0; [|by exists e].
  step_bind.
  apply elem_of_cons in Hin as [->|Hin].
  - apply wcs_file_inv in E0 as (det' & Hd' & Hs'). congruence.
  - destruct (IH Hin cd1) as [e He]. exists e. exact He.
Qed.

(** The conversion divides the RMS in milliarcseconds by 1000 and by the
    plate scale that [det_scale] holds for the detector. *)
Lemma rms_to_pixels_value hdr0 hdr1 kw raw x det :
  header_get kw hdr1 = Ok raw -> py_to_float raw = Ok x ->
  header_get "DETECTOR" hdr0 = Ok det -> supported det ->
  exists scale,
    (det = VStr "IR" /\ scale = b64_lit 1283 10000 \/
     det = VStr "UVIS" /\ scale = b64_lit 396 10000 \/
     det = VStr "WFC" /\ scale = b64_lit 5 100) /\
    rms_to_pixels hdr0 hdr1 kw
    = Ok (SFdiv 53 1024 (SFdiv 53 1024 x (b64_of_Z 1000)) scale).
Proof.
  intros Hraw Hx Hdet Hs.
  unfold rms_to_pixels. rewrite Hraw. step_bind. rewrite Hx. step_bind.
  rewrite Hdet. step_bind.
  destruct Hs as [->|[->| ->]]; eexists; (split; [|reflexivity]); tauto.
Qed.

(** C8, as stated, fails in both directions.  An exposure of a handled
    detector that lacks the NMATCHES and RMS cards has no RMS to convert
    and makes the step fail; and an exposure of another detector whose
    RMS_RA card is text makes the step fail in the rounding, with
    [TypeError], which is no lookup error. *)
Lemma cell14_outside_the_three_cases :
  (detector_of bare_ir_tree "ib1f19l6q_flt.fits" = Ok (VStr "IR") /\
   supported (VStr "IR") /\
   (exists hdr0 hdr1,
      fits_getheader "ib1f19l6q_flt.fits" 0 bare_ir_tree = Ok hdr0 /\
      fits_getheader "ib1f19l6q_flt.fits" 1 bare_ir_tree = Ok hdr1 /\
      rms_to_pixels hdr0 hdr1 "RMS_RA" = Raise (KeyError (VStr "RMS_RA"))) /\
   @cell14 plain_numeric bare_ir_tree ["ib1f19l6q_flt.fits"]
     = Raise (KeyError (VStr "NMATCHES"))) /\
  (detector_of text_rms_tree "jb1f19l7q_flt.fits" = Ok (VStr "SBC") /\
   ~ supported (VStr "SBC") /\
   @cell14 plain_numeric text_rms_tree ["jb1f19l7q_flt.fits"] = Raise TypeError /\
   is_lookup_error TypeError = false).
Proof.
  split.
  - split; [reflexivity|]. split; [by left|]. split; [|reflexivity].
    eexists _, _. split; [reflexivity|]. split; reflexivity.
  - split; [reflexivity|]. split; [|split; reflexivity].
    unfold supported. intros [?|[?|?]]; discriminate.
Qed.

(** C8, amended: the alignment step handles the detectors IR, UVIS and
    WFC only.  An exposure with another DETECTOR value makes the step fail,
    so that no table is produced.  For exposures that hold the cards the
    step reads, with numeric RMS values that can be rounded: the
    mas-to-pixel conversion of an exposure whose DETECTOR is one of the
    three succeeds and is the RMS divided by 1000 and by the plate scale of
    that detector, the step produces its table when every exposure is
    such, and when some exposure has another DETECTOR value the step raises
    [KeyError] for a detector outside the three. *)
Theorem det_scale_handles_three_detectors `{Numeric} root flt_files :
  (forall f det,
     f ∈ flt_files -> detector_of root f = Ok det -> ~ supported det ->
     exists e, cell14 root flt_files = Raise e) /\
  ((forall x d, exists r, np_around (VFloat x) d = Ok r) ->
   Forall (complete_for_wcs root) flt_files ->
   (forall f hdr0 hdr1 det kw,
      f ∈ flt_files ->
      fits_getheader f 0 root = Ok hdr0 -> fits_getheader f 1 root = Ok hdr1 ->
      header_get "DETECTOR" hdr0 = Ok det -> supported det ->
      kw ∈ ["RMS_RA"; "RMS_DEC"] ->
      exists raw x scale,
        header_get kw hdr1 = Ok raw /\ py_to_float raw = Ok x /\
        (det = VStr "IR" /\ scale = b64_lit 1283 10000 \/
         det = VStr "UVIS" /\ scale = b64_lit 396 10000 \/
         det = VStr "WFC" /\ scale = b64_lit 5 100) /\
        rms_to_pixels hdr0 hdr1 kw
        = Ok (SFdiv 53 1024 (SFdiv 53 1024 x (b64_of_Z 1000)) scale)) /\
   (Forall (fun f => exists det, detector_of root f = Ok det /\ supported det) flt_files ->
      exists wcstable, cell14 root flt_files = Ok wcstable) /\
   (forall f det,
      f ∈ flt_files -> detector_of root f = Ok det -> ~ supported det ->
      exists e det',
        cell14 root flt_files = Raise e /\
        e = KeyError det' /\ ~ supported det' /\ is_lookup_error e = true)).
Proof.
  split; [intros f det; by apply cell14_fails_on_unsupported|].
  intros Hround Hc. split; [|split].
  - intros f hdr0 hdr1 det kw Hf H0 H1 Hdet Hs Hkw.
    rewrite Forall_forall in Hc.
    destruct (Hc f Hf) as (hdr0' & hdr1' & H0' & H1' & _ & Hk1).
    assert (hdr0' = hdr0) as -> by congruence.
    assert (hdr1' = hdr1) as -> by congruence.
    assert (kw ∈ ext_1_kws /\ contains "RMS" kw = true) as [Hkw1 Hrms].
    { apply elem_of_cons in Hkw as [->|Hkw]; [split; [in_list|done]|].
      apply elem_of_cons in Hkw as [->|Hkw]; [split; [in_list|done]|].
      by apply elem_of_nil in Hkw. }
    destruct (Hk1 kw Hkw1) as (raw & Hraw & Hn).
    destruct (Hn Hrms) as [[x Hx] _].
    destruct (rms_to_pixels_value hdr0 hdr1 kw raw x det Hraw Hx Hdet Hs)
      as (scale & Hscale & Hpix).
    by exists raw, x, scale.
  - intros Hs. unfold cell14.
    destruct (wcs_loop_ok Hround root flt_files [] Hc Hs) as [cd ->].
    by eexists.
  - intros f det Hf Hd Hs. unfold cell14.
    destruct (wcs_loop_unsupported Hround root flt_files [] f det Hc Hf Hd Hs)
      as (det' & Hs' & ->).
    exists (KeyError det'), det'. done.
Qed.

Example cell14_sbc :
  @cell14 plain_numeric sbc_tree (glob_flt_files sbc_tree) = Raise (KeyError (VStr "SBC")).
Proof. reflexivity. Qed.

Lemma sbc_tree_complete :
  Forall (@complete_for_wcs plain_numeric sbc_tree) (glob_flt_files sbc_tree).
Proof.
  change (glob_flt_files sbc_tree) with ["ib1f19l6q_flt.fits"; "jb1f19l7q_flt.fits"].
  repeat constructor.
  all: eexists _, _; split; [reflexivity|]; split; [reflexivity|]; split.
  all: intros kw Hkw;
    repeat (apply elem_of_cons in Hkw as [->|Hkw];
            [first [ by eexists
                   | eexists; split; [reflexivity|]; intros Hrms;
                     first [discriminate Hrms | split; by eexists] ]|]);
    by apply elem_of_nil in Hkw.
Qed.

Lemma det_scale_handles_three_detectors_witness :
  (exists raw x scale,
     header_get "RMS_RA" (hdu_header (mkHdu
       [ ("ORIENTAT", VFloat (b64_lit (-1398) 10)); ("IDCSCALE", VFloat ir_idcscale);
         ("WCSNAME", VStr "IDC_w3m18525i-FIT_REL_GSC242"); ("NMATCHES", VInt 14);
         ("RMS_RA", VFloat (b64_lit 125 10)); ("RMS_DEC", VFloat (b64_lit 93 10)) ] None))
       = Ok raw /\ py_to_float raw = Ok x /\
     (VStr "IR" = VStr "IR" /\ scale = b64_lit 1283 10000 \/
      VStr "IR" = VStr "UVIS" /\ scale = b64_lit 396 10000 \/
      VStr "IR" = VStr "WFC" /\ scale = b64_lit 5 100) /\
     x = b64_lit 125 10 /\ scale = b64_lit 1283 10000) /\
  exists e det',
    @cell14 plain_numeric sbc_tree (glob_flt_files sbc_tree) = Raise e /\
    e = KeyError det' /\ ~ supported det' /\ is_lookup_error e = true.
Proof.
  assert (forall x d, exists r, @np_around plain_numeric (VFloat x) d = Ok r) as Hround.
  { intros x d. by eexists. }
  pose proof (proj2 (@det_scale_handles_three_detectors plain_numeric
                       sbc_tree (glob_flt_files sbc_tree)) Hround sbc_tree_complete)
    as (Hconv & _ & Hfail).
  split.
  - destruct (Hconv "ib1f19l6q_flt.fits" _ _ (VStr "IR") "RMS_RA"
                ltac:(in_list) eq_refl eq_refl eq_refl ltac:(by left) ltac:(in_list))
      as (raw & x & scale & Hraw & Hx & Hscale & _).
    exists raw, x, scale. split; [exact Hraw|]. split; [exact Hx|]. split; [exact Hscale|].
    cbn in Hraw. injection Hraw as <-. cbn in Hx. injection Hx as <-.
    split; [reflexivity|].
    destruct Hscale as [[_ ->]|[[? _]|[? _]]]; [reflexivity|discriminate|discriminate].
  - apply (Hfail "jb1f19l7q_flt.fits" (VStr "SBC")).
    + in_list.
    + reflexivity.
    + unfold supported. intros [?|[?|?]]; discriminate.
Defined.

(** ** Claim C3: how the pixel phase is computed *)

Lemma store_inv {A} (arr : list A) i x arr' :
  store arr i x = Ok arr' -> (i < length arr)%nat /\ arr' = <[i := x]> arr.
Proof.
  unfold store. destruct (Nat.ltb_spec i (length arr)); [|done].
  by intros [= <-].
Qed.

Lemma load_store {A} (arr : list A) i x y :
  (i < length arr)%nat -> load (<[i := x]> arr) i = Ok y -> y = x.
Proof.
  intros Hi. unfold load. rewrite list_lookup_insert_eq by done.
  by intros [= <-].
Qed.

Lemma phase_step_inv `{Numeric} promo root st i im st' :
  phase_step promo root st (i, im) = Ok st' ->
  exists h1 h2 x y,
    exposure_phases promo root (d_plate_scale st) im h1 h2 x y /\
    (i < length (d_postarg1 st))%nat /\ (i < length (d_postarg2 st))%nat /\
    (i < length (d_x_phase st))%nat /\ (i < length (d_y_phase st))%nat /\
    st' = mkDither (d_plate_scale st)
            (<[i := h1]> (d_postarg1 st)) (<[i := h2]> (d_postarg2 st))
            (<[i := x]> (d_x_phase st)) (<[i := y]> (d_y_phase st)).
Proof.
  unfold phase_step.
  intros (hdu & Hopen & H1)%bind_ok_inv.
  apply bind_ok_inv in H1 as (hdu0 & Hhdu0 & H1).
  apply bind_ok_inv in H1 as (v1 & Hv1 & H1).
  apply bind_ok_inv in H1 as (h1 & Hh1 & H1).
  apply bind_ok_inv in H1 as (postarg1 & [Hi1 ->]%store_inv & H1).
  apply bind_ok_inv in H1 as (v2 & Hv2 & H1).
  apply bind_ok_inv in H1 as (h2 & Hh2 & H1).
  apply bind_ok_inv in H1 as (postarg2 & [Hi2 ->]%store_inv & H1).
  apply bind_ok_inv in H1 as (p1 & ->%load_store & H1); [|done].
  apply bind_ok_inv in H1 as (x & Hx & H1).
  apply bind_ok_inv in H1 as (x_phase & [Hi3 ->]%store_inv & H1).
  apply bind_ok_inv in H1 as (p2 & ->%load_store & H1); [|done].
  apply bind_ok_inv in H1 as (y & Hy & H1).
  apply bind_ok_inv in H1 as (y_phase & [Hi4 ->]%store_inv & [= <-]).
  exists h1, h2, x, y. repeat (split; [|done]).
  exists v1, v2. unfold fits_getval, fits_getheader.
  rewrite Hopen. step_bind. rewrite Hhdu0. step_bind. done.
Qed.

(** The loop invariant: elements below the running index keep their
    values, and each file visited has its four elements written. *)
Lemma phase_loop `{Numeric} promo root files : forall k st d,
  for_each (phase_step promo root) (enumerate_from k files) st = Ok d ->
  d_plate_scale d = d_plate_scale st /\
  length (d_postarg1 d) = length (d_postarg1 st) /\
  length (d_postarg2 d) = length (d_postarg2 st) /\
  length (d_x_phase d) = length (d_x_phase st) /\
  length (d_y_phase d) = length (d_y_phase st) /\
  (forall j, (j < k)%nat ->
     d_postarg1 d !! j = d_postarg1 st !! j /\ d_postarg2 d !! j = d_postarg2 st !! j /\
     d_x_phase d !! j = d_x_phase st !! j /\ d_y_phase d !! j = d_y_phase st !! j) /\
  (forall i im, files !! i = Some im ->
     exists h1 h2 x y,
       exposure_phases promo root (d_plate_scale st) im h1 h2 x y /\
       d_postarg1 d !! (k + i)%nat = Some h1 /\ d_postarg2 d !! (k + i)%nat = Some h2 /\
       d_x_phase d !! (k + i)%nat = Some x /\ d_y_phase d !! (k + i)%nat = Some y).
Proof.
  induction files as [|im0 files IH]; intros k st d Hrun.
  - injection Hrun as <-. repeat (split; [done|]). by intros [|?] ? ?.
  - cbn [enumerate_from for_each] in Hrun.
    apply bind_ok_inv in Hrun as (st1 & Hstep & Hrun).
    apply phase_step_inv in Hstep
      as (h1 & h2 & x & y & Hspec & Hi1 & Hi2 & Hi3 & Hi4 & ->).
    apply IH in Hrun as (Hs & L1 & L2 & L3 & L4 & Hframe & Hrest).
    cbn [d_plate_scale d_postarg1 d_postarg2 d_x_phase d_y_phase] in *.
    rewrite length_insert in L1, L2, L3, L4.
    repeat (split; [done|]). split.
    + intros j Hj. destruct (Hframe j) as (F1 & F2 & F3 & F4); [lia|].
      rewrite F1, F2, F3, F4.
      rewrite !list_lookup_insert_ne by lia. done.
    + intros [|i] im Him; simpl in Him.
      * injection Him as <-. exists h1, h2, x, y. split; [done|].
        rewrite Nat.add_0_r.
        destruct (Hframe k) as (F1 & F2 & F3 & F4); [lia|].
        rewrite F1, F2, F3, F4.
        rewrite !list_lookup_insert_eq by done. done.
      * destruct (Hrest i im Him) as (h1' & h2' & x' & y' & Hspec' & G).
        exists h1', h2', x', y'. split; [done|].
        by replace (k + S i)%nat with (S k + i)%nat by lia.
Qed.

(** Every element of the phase arrays was computed by [pixel_phase] from
    the plate scale of the run. *)
Lemma cell12_phases `{Numeric} promo junk root flt_files d i phase :
  cell12 promo junk root flt_files = Ok d ->
  d_x_phase d !! i = Some phase \/ d_y_phase d !! i = Some phase ->
  exists p, pixel_phase promo p (d_plate_scale d) = Ok phase.
Proof.
  unfold cell12.
  intros (first & _ & H1)%bind_ok_inv Hphase.
  apply bind_ok_inv in H1 as (plate_scale & _ & H1).
  apply bind_ok_inv in H1 as (_ & _ & H1).
  apply phase_loop in H1 as (Hs & _ & _ & L3 & L4 & _ & Hall).
  cbn [d_plate_scale d_x_phase d_y_phase] in *.
  unfold np_empty in L3, L4. rewrite length_fmap, length_seq in L3, L4.
  assert (i < length flt_files)%nat as Hi.
  { destruct Hphase as [Hp|Hp]; apply lookup_lt_Some in Hp; lia. }
  destruct (lookup_lt_is_Some_2 flt_files i Hi) as [im Him].
  destruct (Hall i im Him)
    as (h1 & h2 & x & y & (v1 & v2 & _ & _ & _ & _ & Hx & Hy) & _ & _ & Gx & Gy).
  simpl in Gx, Gy. rewrite Hs.
  destruct Hphase as [Hp|Hp]; [exists h1|exists h2]; congruence.
Qed.

(** ** Rounding keeps a magnitude below one at most one *)

Lemma digits2_pos_bounds m :
  2 ^ (Zpos (digits2_pos m) - 1) <= Zpos m < 2 ^ Zpos (digits2_pos m).
Proof.
  induction m as [m IH|m IH|]; simpl digits2_pos.
  - rewrite Pos2Z.inj_succ.
    replace (Z.succ (Zpos (digits2_pos m)) - 1) with (Z.succ (Zpos (digits2_pos m) - 1)) by lia.
    rewrite !Z.pow_succ_r by lia. lia.
  - rewrite Pos2Z.inj_succ.
    replace (Z.succ (Zpos (digits2_pos m)) - 1) with (Z.succ (Zpos (digits2_pos m) - 1)) by lia.
    rewrite !Z.pow_succ_r by lia. lia.
  - simpl. lia.
Qed.

Lemma Zdigits2_le m k : 0 <= m -> 0 <= k -> m < 2 ^ k -> Zdigits2 m <= k.
Proof.
  intros Hm Hk Hlt. destruct m as [|p|p]; simpl; [lia| |lia].
  pose proof (digits2_pos_bounds p) as [Hlo _].
  assert (2 ^ (Zpos (digits2_pos p) - 1) < 2 ^ k) as Hpow by lia.
  apply Z.pow_lt_mono_r_iff in Hpow; lia.
Qed.

Lemma shr_1_m mrs : 0 <= shr_m mrs -> shr_m (shr_1 mrs) = shr_m mrs / 2.
Proof.
  destruct mrs as [m r s]. simpl. intros Hm.
  rewrite <- Z.div2_div. by destruct m as [|[p|p|]|p].
Qed.

Lemma iter_shr_m p : forall mrs,
  0 <= shr_m mrs -> shr_m (SpecFloat.iter_pos shr_1 p mrs) = shr_m mrs / 2 ^ Zpos p.
Proof.
  assert (forall a, 0 <= a -> 0 <= a / 2) as Hhalf.
  { intros a Ha. apply Z.div_pos; lia. }
  assert (forall q, 0 < 2 ^ Zpos q) as Hpos.
  { intros q. by apply Z.pow_pos_nonneg. }
  induction p as [p IH|p IH|]; intros mrs Hm; simpl SpecFloat.iter_pos.
  - assert (0 <= shr_m (shr_1 mrs)) as H1 by (rewrite shr_1_m by done; by apply Hhalf).
    assert (0 <= shr_m (SpecFloat.iter_pos shr_1 p (shr_1 mrs))) as H2.
    { rewrite IH by done. apply Z.div_pos; [done|apply Hpos]. }
    rewrite IH, IH, shr_1_m by done.
    pose proof (Hpos p).
    rewrite !Z.div_div by lia. f_equal.
    replace (Zpos p~1) with (1 + Zpos p + Zpos p) by lia.
    rewrite !Z.pow_add_r by lia. change (2 ^ 1) with 2. ring.
  - assert (0 <= shr_m (SpecFloat.iter_pos shr_1 p mrs)) as H2.
    { rewrite IH by done. apply Z.div_pos; [done|apply Hpos]. }
    rewrite IH, IH by done.
    pose proof (Hpos p).
    rewrite Z.div_div by lia. f_equal.
    replace (Zpos p~0) with (Zpos p + Zpos p) by lia.
    by rewrite Z.pow_add_r by lia.
  - by rewrite shr_1_m.
Qed.

Lemma shr_record_of_loc_m m l : shr_m (shr_record_of_loc m l) = m.
Proof. by destruct l as [|[| |]]. Qed.

Lemma shr_fexp_spec prec emax m e l mrs' e' :
  0 <= m ->
  shr_fexp prec emax m e l = (mrs', e') ->
  e <= e' /\ shr_m mrs' = m / 2 ^ (e' - e) /\
  (e' = e \/ e' = fexp prec emax (Zdigits2 m + e)).
Proof.
  intros Hm. unfold shr_fexp, shr.
  destruct (fexp prec emax (Zdigits2 m + e) - e) as [|n|n] eqn:En;
    intros [= <- <-].
  - rewrite Z.sub_diag, Z.div_1_r, shr_record_of_loc_m. lia.
  - rewrite iter_shr_m by (by rewrite shr_record_of_loc_m).
    rewrite shr_record_of_loc_m.
    replace (e + Zpos n - e) with (Zpos n) by lia.
    split; [lia|]. split; [done|]. right. lia.
  - rewrite Z.sub_diag, Z.div_1_r, shr_record_of_loc_m. lia.
Qed.

Lemma round_nearest_even_bounds m l :
  m <= round_nearest_even m l <= m + 1.
Proof.
  destruct l as [|[| |]]; simpl; try lia. destruct (Z.even m); lia.
Qed.

Section UnitRounding.
Variables prec emax : Z.
Hypothesis prec_ge_2 : 2 <= prec.
Hypothesis prec_le_emax : prec <= emax.

Lemma fexp_small d : d <= 1 -> fexp prec emax d < 0.
Proof. unfold fexp, emin. lia. Qed.

(** Rounding a magnitude below one gives a magnitude of at most one. *)
Lemma binary_round_aux_unit s m e l :
  0 <= m -> e < 0 -> m < 2 ^ (- e) ->
  unit_bounded (binary_round_aux prec emax s m e l) /\
  sign_of (binary_round_aux prec emax s m e l) = s.
Proof.
  intros Hm He Hlt. unfold binary_round_aux.
  destruct (shr_fexp prec emax m e l) as [mrs1 e1] eqn:E1.
  apply shr_fexp_spec in E1 as (Hle1 & Hm1 & He1); [|done].
  set (r := round_nearest_even (shr_m mrs1) (loc_of_shr_record mrs1)).
  pose proof (round_nearest_even_bounds (shr_m mrs1) (loc_of_shr_record mrs1)) as Hr.
  fold r in Hr.
  assert (0 < 2 ^ (e1 - e)) as Hp1 by (apply Z.pow_pos_nonneg; lia).
  assert (e1 < 0) as He1neg.
  { destruct He1 as [->| ->]; [done|]. apply fexp_small.
    pose proof (Zdigits2_le m (- e) Hm ltac:(lia) Hlt). lia. }
  assert (0 <= shr_m mrs1 < 2 ^ (- e1)) as Hb1.
  { rewrite Hm1. split; [by apply Z.div_pos|].
    apply Z.div_lt_upper_bound; [done|].
    rewrite <- Z.pow_add_r by lia. by replace (e1 - e + - e1) with (- e) by lia. }
  destruct (shr_fexp prec emax r e1 loc_Exact) as [mrs2 e2] eqn:E2.
  apply shr_fexp_spec in E2 as (Hle2 & Hm2 & He2); [|lia].
  assert (0 < 2 ^ (e2 - e1)) as Hp2 by (apply Z.pow_pos_nonneg; lia).
  assert (e2 < 0) as He2neg.
  { destruct He2 as [->| ->]; [done|]. apply fexp_small.
    assert (r < 2 ^ (- e1 + 1)) as Hr2.
    { rewrite Z.pow_add_r by lia. change (2 ^ 1) with 2. lia. }
    pose proof (Zdigits2_le r (- e1 + 1) ltac:(lia) ltac:(lia) Hr2). lia. }
  assert (0 <= shr_m mrs2 <= 2 ^ (- e2)) as Hb2.
  { rewrite Hm2. split; [apply Z.div_pos; lia|].
    apply Z.div_le_upper_bound; [done|].
    rewrite <- Z.pow_add_r by lia. replace (e2 - e1 + - e2) with (- e1) by lia. lia. }
  destruct (shr_m mrs2) as [|m2|m2] eqn:Em2; [done| |lia].
  assert ((e2 <=? emax - prec) = true) as -> by (apply Z.leb_le; lia).
  simpl. split; [split; lia|done].
Qed.

Lemma shl_align_spec mx ex ex' mz ez :
  shl_align mx ex ex' = (mz, ez) ->
  ez <= ex /\ Zpos mz = Zpos mx * 2 ^ (ex - ez).
Proof.
  unfold shl_align. destruct (ex' - ex) as [|d|d] eqn:Ed; intros [= <- <-].
  - rewrite Z.sub_diag. simpl. lia.
  - rewrite Z.sub_diag. simpl. lia.
  - split; [lia|].
    change (Pos.iter xO mx d) with (shift_pos d mx).
    rewrite shift_pos_correct. replace (ex - ex') with (Zpos d) by lia.
    change (Z.pow_pos 2 d) with (2 ^ Zpos d). lia.
Qed.

Lemma shl_align_below_one mx ex ex' mz ez :
  shl_align mx ex ex' = (mz, ez) ->
  ex < 0 -> Zpos mx < 2 ^ (- ex) ->
  ez < 0 /\ Zpos mz < 2 ^ (- ez).
Proof.
  intros (Hle & ->)%shl_align_spec Hex Hlt. split; [lia|].
  replace (- ez) with (- ex + (ex - ez)) by lia.
  rewrite Z.pow_add_r by lia.
  apply Z.mul_lt_mono_pos_r; [|done]. apply Z.pow_pos_nonneg; lia.
Qed.

Lemma binary_round_unit s mx ex :
  ex < 0 -> Zpos mx < 2 ^ (- ex) ->
  unit_bounded (binary_round prec emax s mx ex) /\
  sign_of (binary_round prec emax s mx ex) = s.
Proof.
  intros Hex Hlt. unfold binary_round.
  destruct (shl_align mx ex _) as [mz ez] eqn:E.
  apply shl_align_below_one in E as [Hez Hmz]; [|done..].
  by apply binary_round_aux_unit.
Qed.

(** The fractional part has a magnitude below one. *)
Lemma modf_frac_unit x :
  x <> S754_nan ->
  unit_open (modf_frac prec emax x) /\ sign_of (modf_frac prec emax x) = sign_of x.
Proof.
  intros Hx. destruct x as [s|s| |s m e]; try done.
  simpl. destruct e as [|p|p]; try done.
  pose proof (Z.mod_pos_bound (Zpos m) (2 ^ Zpos p) ltac:(by apply Z.pow_pos_nonneg)) as Hmod.
  destruct (Zpos m mod 2 ^ Zpos p) as [|fm|fm] eqn:Efm; try done.
  destruct (shl_align fm (Zneg p) _) as [mz ez] eqn:E.
  apply shl_align_below_one in E; [done|done|].
  change (- Zneg p) with (Zpos p). lia.
Qed.

End UnitRounding.

(** The model of [np.modf] returns the fractional part: the number minus
    its truncation toward zero, exactly. *)
Lemma modf_frac_value prec emax s m e :
  exists f, SF2Q (modf_frac prec emax (S754_finite s m e)) = Some f /\
    (f == Fval s m e - Qtrunc (Fval s m e))%Q.
Proof.
  destruct e as [|p|p].
  - exists 0%Q. split; [done|]. unfold Fval, Qtrunc, Qeq. simpl.
    rewrite Z.quot_1_r. destruct s; simpl; lia.
  - exists 0%Q. split; [done|]. unfold Fval, Qtrunc, Qeq. simpl.
    rewrite Z.quot_1_r. lia.
  - assert (0 < 2 ^ Zpos p) as HD by (by apply Z.pow_pos_nonneg).
    pose proof (Z.div_mod (Zpos m) (2 ^ Zpos p) ltac:(lia)) as Hdm.
    pose proof (Z.mod_pos_bound (Zpos m) (2 ^ Zpos p) HD) as Hmod.
    assert (Qtrunc (Fval s m (Zneg p))
            = inject_Z (cond_Zopp s (Zpos m / 2 ^ Zpos p))) as ->.
    { unfold Qtrunc, Fval. simpl Qnum. simpl Qden. f_equal.
      rewrite Pos2Z.inj_pow.
      destruct s; simpl cond_Zopp.
      - change (Zneg m) with (- Zpos m).
        rewrite Z.quot_opp_l by lia. f_equal. apply Z.quot_div_nonneg; lia.
      - apply Z.quot_div_nonneg; lia. }
    simpl modf_frac.
    destruct (Zpos m mod 2 ^ Zpos p) as [|fm|fm] eqn:Efm; [| |lia].
    + exists 0%Q. split; [done|]. unfold Fval, Qeq, Qminus, Qplus, Qopp, inject_Z.
      simpl. rewrite Pos2Z.inj_pow. destruct s; simpl cond_Zopp; lia.
    + destruct (shl_align fm (Zneg p) _) as [mz ez] eqn:E.
      apply shl_align_spec in E as [Hez Hmz].
      destruct ez as [|pz|pz]; try lia.
      eexists; split; [done|].
      assert (2 ^ Zpos pz = 2 ^ Zpos p * 2 ^ (Zneg p - Zneg pz)) as Hpz.
      { rewrite <- Z.pow_add_r by lia. f_equal. lia. }
      unfold Fval, Qeq, Qminus, Qplus, Qopp, inject_Z. simpl Qnum. simpl Qden.
      rewrite !Pos2Z.inj_mul, !Pos2Z.inj_pow, Hpz.
      set (D := 2 ^ Zpos p) in *. set (K := 2 ^ (Zneg p - Zneg pz)) in *.
      destruct s; simpl cond_Zopp.
      * change (Zneg mz) with (- Zpos mz). change (Zneg m) with (- Zpos m).
        rewrite Hmz. nia.
      * rewrite Hmz. nia.
Qed.

(** ** Claim C10: the range of the pixel phase *)

Lemma unit_open_bounded x : unit_open x -> unit_bounded x.
Proof. destruct x; simpl; try done. lia. Qed.

Lemma SFabs_unit_open x :
  unit_open x -> unit_open (SFabs x) /\ sign_of (SFabs x) = false.
Proof. by destruct x. Qed.

Lemma to_b16_unit x :
  unit_open x -> sign_of x = false ->
  unit_bounded (to_b16 x) /\ sign_of (to_b16 x) = false.
Proof.
  destruct x as [s|s| |s m e]; try done. simpl. intros [He Hm] ->.
  by apply binary_round_unit.
Qed.

Lemma pixel_phase_unit promo p plate_scale x :
  pixel_phase promo p plate_scale = Ok x ->
  is_nan x = true \/
  (unit_bounded x /\ sign_of x = false /\ (promo = Weak -> unit_open x)).
Proof.
  assert (forall prec emax q, 2 <= prec -> prec <= emax ->
            is_nan (SFabs (modf_frac prec emax q)) = true \/
            (unit_open (SFabs (modf_frac prec emax q)) /\
             sign_of (SFabs (modf_frac prec emax q)) = false)) as Hfrac.
  { intros prec emax q ? ?. destruct (decide (q = S754_nan)) as [->|Hq]; [by left|].
    right. apply SFabs_unit_open. by apply modf_frac_unit. }
  assert ((s ← py_to_float plate_scale;
           Ok (SFabs (modf_frac 11 16 (b16_div p (to_b16 s))))) = Ok x ->
          is_nan x = true \/
          (unit_bounded x /\ sign_of x = false /\ (promo = Weak -> unit_open x)))
    as Hweak.
  { intros (s & _ & [= <-])%bind_ok_inv.
    destruct (Hfrac 11 16 (b16_div p (to_b16 s))) as [?|[? ?]]; [lia|lia|by left|].
    right. split; [by apply unit_open_bounded|done]. }
  intros Hx.
  destruct promo; [|by apply Hweak].
  destruct plate_scale as [t|n|s|b]; try by apply Hweak.
  all: unfold pixel_phase in Hx; apply bind_ok_inv in Hx as (s' & _ & [= <-]).
  all: destruct (Hfrac 53 1024 (b64_div (b64_widen p) s')) as [Hn|[Ho Hs]];
    [lia|lia| |].
  all: try (left; by destruct (SFabs _)).
  all: right; destruct (to_b16_unit _ Ho Hs) as [? ?]; by repeat split.
Qed.

Lemma unit_bounded_Q x :
  unit_bounded x -> sign_of x = false ->
  exists q, SF2Q x = Some q /\ (0 <= q)%Q /\ (q <= 1)%Q.
Proof.
  destruct x as [s|s| |s m e]; simpl; try done.
  - intros _ _. by exists 0%Q.
  - intros [He Hm] ->. eexists; split; [done|].
    destruct e as [|p|p]; try done.
    unfold Fval, Qle. simpl. rewrite Pos2Z.inj_pow.
    change (- Zneg p) with (Zpos p) in Hm. lia.
Qed.

Lemma unit_open_Q x q :
  unit_open x -> sign_of x = false -> SF2Q x = Some q -> (q < 1)%Q.
Proof.
  destruct x as [s|s| |s m e]; simpl; try done.
  - by intros _ _ [= <-].
  - intros [He Hm] -> [= <-].
    destruct e as [|p|p]; try done.
    unfold Fval, Qlt. simpl. rewrite Pos2Z.inj_pow.
    change (- Zneg p) with (Zpos p) in Hm. lia.
Qed.

(** C10, as stated, fails in two ways.  With the division carried out in
    binary64, an exposure offset by 16.03 arcsec at the WFC3/IR plate scale
    has a fractional part just below one that the binary16 array stores as
    exactly one.  And with either promotion rule, an exposure at the pattern
    origin with a zero plate scale has phase 0/0, which is not a number. *)
Lemma pixel_phase_reaches_one_or_nan :
  (exists d x q,
     @cell12 plain_numeric Legacy zero_junk far_dither_tree ["ib1f19l6q_flt.fits"] = Ok d /\
     d_x_phase d !! 0%nat = Some x /\ SF2Q x = Some q /\ (q == 1)%Q /\ ~ (q < 1)%Q) /\
  (forall promo, exists d,
     @cell12 plain_numeric promo zero_junk zero_scale_tree ["ib1f19l6q_flt.fits"] = Ok d /\
     d_x_phase d !! 0%nat = Some S754_nan /\ SF2Q S754_nan = None).
Proof.
  split.
  - eexists _, _, _. split; [vm_compute; reflexivity|].
    split; [reflexivity|]. split; [reflexivity|]. split; [reflexivity|].
    unfold Qlt. simpl. lia.
  - intros [|]; eexists; (split; [vm_compute; reflexivity|]); by split.
Qed.

(** C10, amended: every computed pixel phase that is a number lies in the
    closed interval [0, 1]; it is below one when numpy carries out the
    division in binary16 (NumPy 2 and later). *)
Theorem pixel_phase_in_closed_unit_interval `{Numeric}
    promo junk root flt_files d i phase :
  cell12 promo junk root flt_files = Ok d ->
  d_x_phase d !! i = Some phase \/ d_y_phase d !! i = Some phase ->
  is_nan phase = true \/
  exists q, SF2Q phase = Some q /\ (0 <= q)%Q /\ (q <= 1)%Q /\
            (promo = Weak -> (q < 1)%Q).
Proof.
  intros Hrun Hphase.
  destruct (cell12_phases _ _ _ _ _ _ _ Hrun Hphase) as [p Hp].
  destruct (pixel_phase_unit _ _ _ _ Hp) as [Hnan|(Hb & Hs & Ho)]; [by left|].
  right. destruct (unit_bounded_Q phase Hb Hs) as (q & Hq & H0 & H1).
  exists q. repeat (split; [done|]).
  intros Hw. by eapply unit_open_Q; [apply Ho| |].
Qed.

Lemma pixel_phase_in_closed_unit_interval_witness :
  exists d phase,
    @cell12 plain_numeric Legacy zero_junk far_dither_tree ["ib1f19l6q_flt.fits"] = Ok d /\
    d_x_phase d !! 0%nat = Some phase /\
    (is_nan phase = true \/
     exists q, SF2Q phase = Some q /\ (0 <= q)%Q /\ (q <= 1)%Q /\
               (Legacy = Weak -> (q < 1)%Q)).
Proof.
  destruct (@cell12 plain_numeric Legacy zero_junk far_dither_tree ["ib1f19l6q_flt.fits"])
    as [d|e] eqn:E; [|by vm_compute in E].
  destruct (d_x_phase d !! 0%nat) as [phase|] eqn:Ex.
  - exists d, phase. split; [done|]. split; [done|].
    apply (@pixel_phase_in_closed_unit_interval plain_numeric Legacy zero_junk
             far_dither_tree ["ib1f19l6q_flt.fits"] d 0%nat phase E).
    by left.
  - exfalso. vm_compute in E. injection E as <-. discriminate Ex.
Defined.

(** A phase that is not a number comes from a quotient that is not one. *)
Lemma pixel_phase_nan promo p plate_scale x :
  pixel_phase promo p plate_scale = Ok x -> is_nan x = true ->
  exists s, py_to_float plate_scale = Ok s /\
    (is_nan (b64_div (b64_widen p) s) = true \/ is_nan (b16_div p (to_b16 s)) = true).
Proof.
  assert (forall prec emax q, 2 <= prec -> prec <= emax ->
            is_nan (SFabs (modf_frac prec emax q)) = true -> is_nan q = true) as Hq.
  { intros prec emax q ? ? Hn. destruct (decide (q = S754_nan)) as [->|Hne]; [done|].
    destruct (modf_frac_unit prec emax q Hne) as [Ho _].
    by destruct (modf_frac prec emax q). }
  intros Hx Hn.
  assert ((s ← py_to_float plate_scale;
           Ok (SFabs (modf_frac 11 16 (b16_div p (to_b16 s))))) = Ok x ->
          exists s, py_to_float plate_scale = Ok s /\
            (is_nan (b64_div (b64_widen p) s) = true \/
             is_nan (b16_div p (to_b16 s)) = true)) as Hweak.
  { intros (s & Hs & [= <-])%bind_ok_inv. exists s. split; [done|]. right.
    apply (Hq 11 16); [lia|lia|done]. }
  destruct promo; [|by apply Hweak].
  destruct plate_scale as [t|n|s|b]; try by apply Hweak.
  all: unfold pixel_phase in Hx; apply bind_ok_inv in Hx as (s' & Hs' & [= <-]).
  all: exists s'; split; [done|]; left; apply (Hq 53 1024); [lia|lia|].
  all: destruct (decide (b64_div (b64_widen p) s' = S754_nan)) as [->|Hne]; [done|].
  all: destruct (modf_frac_unit 53 1024 _ Hne) as [Ho Hsg].
  all: destruct (SFabs_unit_open _ Ho) as [Ho' Hs''].
  all: destruct (to_b16_unit _ Ho' Hs'') as [Hb _].
  all: by destruct (to_b16 _).
Qed.

(** ** Claim C9: the calls of the pixfrac sweep *)

Lemma astrodrizzle_inv `{Drizzlepac} es call root' :
  AstroDrizzle (Dir es) call = Ok root' ->
  exists c, drizzle_product (Dir es) call = Ok c /\
    root' = Dir (dir_put (product_name call) (File c) es).
Proof.
  unfold AstroDrizzle. intros (c & Hc & [= <-])%bind_ok_inv. by exists c.
Qed.

(** Each run of a list of calls with distinct products leaves its product
    in the directory, and touches no other entry. *)
Lemma sweep_products `{Drizzlepac} calls : forall es root',
  NoDup (product_name <$> calls) ->
  for_each AstroDrizzle calls (Dir es) = Ok root' ->
  exists es', root' = Dir es' /\
    (forall call, call ∈ calls ->
       exists root_i c, drizzle_product root_i call = Ok c /\
         dir_lookup (product_name call) es' = Some (File c)) /\
    (forall n, n ∉ product_name <$> calls -> dir_lookup n es' = dir_lookup n es).
Proof.
  induction calls as [|call calls IH]; intros es root' Hnd Hrun.
  - injection Hrun as <-. exists es. split; [done|]. split; [|done].
    intros call Hc. by apply elem_of_nil in Hc.
  - cbn [for_each] in Hrun. apply bind_ok_inv in Hrun as (root1 & Hstep & Hrun).
    apply astrodrizzle_inv in Hstep as (c & Hc & ->).
    rewrite fmap_cons in Hnd. apply NoDup_cons in Hnd as [Hnin Hnd].
    destruct (IH _ _ Hnd Hrun) as (es' & -> & Hprod & Hframe).
    exists es'. split; [done|]. split.
    + intros call' [->|Hin]%elem_of_cons; [|by apply Hprod].
      exists (Dir es), c. split; [done|].
      rewrite Hframe by done. apply dir_lookup_put_eq.
    + intros n Hn. rewrite fmap_cons in Hn. apply not_elem_of_cons in Hn as [Hne Hn].
      rewrite Hframe by done. by apply dir_lookup_put_ne.
Qed.

(** A series of drizzle calls that completes has run the library once per
    call, in order. *)
Lemma drizzle_steps_run `{Drizzlepac} named calls : forall root root',
  for_each (drizzle_step named) calls root = Ok root' ->
  for_each AstroDrizzle calls root = Ok root'.
Proof.
  induction calls as [|call calls IH]; intros root root' Hrun; [exact Hrun|].
  cbn [for_each] in *. apply bind_ok_inv in Hrun as (root1 & Hstep & Hrun).
  unfold drizzle_step in Hstep. apply bind_ok_inv in Hstep as (_ & _ & Hstep).
  rewrite Hstep. cbn [mbind result_bind]. by apply IH.
Qed.

(** C9: the sweep makes exactly ten image-combination calls; their
    [final_pixfrac] values are the ten elements of [np.arange(0.1, 1.1,
    0.1)], each within rounding error of k/10 for k = 1..10; their output
    names are ['f160w_0.1'] to ['f160w_1.0'], pairwise distinct, and so are
    the files they produce: when the sweep completes, the product of every
    call is in the working directory as that call wrote it. *)
Theorem sweep_ten_distinct_calls `{Drizzlepac} flt_files selected_params :
  let calls := sweep_call flt_files selected_params <$> pixfracs in
  length calls = 10%nat /\
  dc_final_pixfrac <$> calls = Some <$> pixfracs /\
  Forall2 (fun k x => near_tenth k x = true) [1; 2; 3; 4; 5; 6; 7; 8; 9; 10] pixfracs /\
  dc_output <$> calls =
    ["f160w_0.1"; "f160w_0.2"; "f160w_0.3"; "f160w_0.4"; "f160w_0.5";
     "f160w_0.6"; "f160w_0.7"; "f160w_0.8"; "f160w_0.9"; "f160w_1.0"] /\
  NoDup (dc_output <$> calls) /\
  NoDup (product_name <$> calls) /\
  forall es root',
    cell29 flt_files selected_params (Dir es) = Ok root' ->
    exists es', root' = Dir es' /\
      forall call, call ∈ calls ->
        exists root_i c, drizzle_product root_i call = Ok c /\
          dir_lookup (product_name call) es' = Some (File c).
Proof.
  intros calls.
  assert (dc_output <$> calls = outname <$> pixfracs) as Hout.
  { unfold calls. rewrite <- list_fmap_compose. done. }
  assert (product_name <$> calls = (fun x => outname x +:+ "_drz.fits") <$> pixfracs) as Hprod.
  { unfold calls. rewrite <- list_fmap_compose. done. }
  assert (NoDup (product_name <$> calls)) as Hnd.
  { rewrite Hprod. apply (@bool_decide_unpack _ (NoDup_dec _)). by vm_compute. }
  split; [unfold calls; by rewrite length_fmap|].
  split; [unfold calls; by rewrite <- list_fmap_compose|].
  split.
  { let l := eval vm_compute in pixfracs in change pixfracs with l.
    repeat constructor; by vm_compute. }
  split; [rewrite Hout; by vm_compute|].
  split; [rewrite Hout; apply (@bool_decide_unpack _ (NoDup_dec _)); by vm_compute|].
  split; [done|].
  intros es root' Hrun. unfold cell29 in Hrun. fold calls in Hrun.
  apply drizzle_steps_run in Hrun.
  destruct (sweep_products calls es root' Hnd Hrun) as (es' & -> & Hp & _).
  exists es'. split; [reflexivity|exact Hp].
Qed.

Lemma sweep_ten_distinct_calls_witness :
  exists root' es',
    swept_tree = Ok root' /\ root' = Dir es' /\
    is_Some (dir_lookup "f160w_1.0_drz.fits" es').
Proof.
  destruct swept_tree as [root'|e] eqn:E; [|by vm_compute in E].
  destruct (@sweep_ten_distinct_calls example_drizzlepac
              ["ib1f19l6q_flt.fits"; "ib1f19l7q_flt.fits"] example_mdriz_dict)
    as (_ & _ & _ & _ & _ & _ & Hrun).
  destruct (Hrun moved_entries root' E) as (es' & -> & Hall).
  exists (Dir es'), es'. split; [done|]. split; [done|].
  destruct (Hall (sweep_call ["ib1f19l6q_flt.fits"; "ib1f19l7q_flt.fits"]
                    example_mdriz_dict (b64_of_Z 1)))
    as (root_i & c & _ & Hc).
  - apply list_elem_of_fmap. exists (b64_of_Z 1). split; [done|].
    apply list_elem_of_lookup. exists 9%nat. by vm_compute.
  - exists (File c). exact Hc.
Defined.

(** ** Claim C1: the files the evaluation step looks at *)

Lemma glob_pattern_names pattern root :
  String.eqb pattern "." = false -> has_magic pattern = true ->
  split_on "/" pattern = [pattern] ->
  forall name, name ∈ join_path <$> glob pattern root -> fnmatch name pattern = true.
Proof.
  intros Hp Hm Hs name. unfold glob. rewrite Hs.
  destruct root as [c|es].
  - cbn [glob_from]. rewrite Hp. by intros ?%elem_of_nil.
  - rewrite glob_names by done.
    intros [_ Hn]%list_elem_of_In%filter_In.
    by apply component_matches_magic.
Qed.

Lemma of_option_inv {A} e (o : option A) a : of_option e o = Ok a -> o = Some a.
Proof. destruct o; [by intros [= ->]|done]. Qed.

Lemma weight_step_inv `{Numeric} root ylims xlims st i im st' :
  weight_step root ylims xlims st (i, im) = Ok st' ->
  exists ratio frac,
    weight_entry root ylims xlims im ratio frac /\
    (i < length (ev_std_med st))%nat /\ (i < length (ev_fraclist st))%nat /\
    ev_std_med st' = <[i := ratio]> (ev_std_med st) /\
    ev_fraclist st' = <[i := frac]> (ev_fraclist st) /\
    (i = 0%nat -> is_Some (ev_info st')) /\
    (i <> 0%nat -> ev_info st' = ev_info st).
Proof.
  unfold weight_step.
  intros (hdus & Hopen & H1)%bind_ok_inv.
  apply bind_ok_inv in H1 as (hdu0 & Hhdu0%of_option_inv & H1).
  apply bind_ok_inv in H1 as (hdu2 & Hhdu2%of_option_inv & H1).
  apply bind_ok_inv in H1 as (info & Hinfo & H1).
  apply bind_ok_inv in H1 as (wht & Hwht%of_option_inv & H1).
  apply bind_ok_inv in H1 as (std_med & [Hi1 ->]%store_inv & H1).
  apply bind_ok_inv in H1 as (pixf & Hpixf & H1).
  apply bind_ok_inv in H1 as (frac & Hfrac & H1).
  apply bind_ok_inv in H1 as (fraclist & [Hi2 ->]%store_inv & [= <-]).
  eexists _, frac. split; [by exists hdus, hdu0, hdu2, wht, pixf|].
  cbn [ev_std_med ev_fraclist ev_info].
  repeat (split; [done|]). split.
  - intros ->. cbn in Hinfo.
    apply bind_ok_inv in Hinfo as (target & _ & Hinfo).
    apply bind_ok_inv in Hinfo as (scale & _ & Hinfo).
    apply bind_ok_inv in Hinfo as (nimg & _ & [= <-]). by eexists.
  - intros Hne. destruct i; [done|]. cbn in Hinfo. by injection Hinfo as <-.
Qed.

Lemma weight_loop `{Numeric} root ylims xlims files : forall k st d,
  for_each (weight_step root ylims xlims) (enumerate_from k files) st = Ok d ->
  length (ev_std_med d) = length (ev_std_med st) /\
  length (ev_fraclist d) = length (ev_fraclist st) /\
  (forall j, (j < k)%nat ->
     ev_std_med d !! j = ev_std_med st !! j /\
     ev_fraclist d !! j = ev_fraclist st !! j) /\
  (forall i im, files !! i = Some im ->
     exists ratio frac,
       weight_entry root ylims xlims im ratio frac /\
       ev_std_med d !! (k + i)%nat = Some ratio /\
       ev_fraclist d !! (k + i)%nat = Some frac).
Proof.
  induction files as [|im0 files IH]; intros k st d Hrun.
  - injection Hrun as <-. repeat (split; [done|]). by intros [|?] ? ?.
  - cbn [enumerate_from for_each] in Hrun.
    apply bind_ok_inv in Hrun as (st1 & Hstep & Hrun).
    apply weight_step_inv in Hstep
      as (ratio & frac & Hentry & Hi1 & Hi2 & E1 & E2 & _).
    apply IH in Hrun as (L1 & L2 & Hframe & Hrest).
    rewrite E1, E2 in *. rewrite length_insert in L1, L2.
    repeat (split; [done|]). split.
    + intros j Hj. destruct (Hframe j) as (F1 & F2); [lia|].
      rewrite F1, F2, !list_lookup_insert_ne by lia. done.
    + intros [|i] im Him; simpl in Him.
      * injection Him as <-. exists ratio, frac. split; [done|].
        rewrite Nat.add_0_r. destruct (Hframe k) as (F1 & F2); [lia|].
        rewrite F1, F2, !list_lookup_insert_eq by done. done.
      * destruct (Hrest i im Him) as (r' & f' & ? & ? & ?).
        exists r', f'. split; [done|].
        by replace (k + S i)%nat with (S k + i)%nat by lia.
Qed.

Lemma cell34_inv `{Numeric} junk ylims xlims root whtlist ev :
  cell34 junk ylims xlims root = Ok (whtlist, ev) ->
  whtlist = join_path <$> glob sweep_pattern root /\
  length (ev_std_med ev) = length whtlist /\
  length (ev_fraclist ev) = length whtlist /\
  forall i im, whtlist !! i = Some im ->
    exists ratio frac,
      weight_entry root ylims xlims im ratio frac /\
      ev_std_med ev !! i = Some ratio /\ ev_fraclist ev !! i = Some frac.
Proof.
  unfold cell34.
  intros (ev' & Hloop & E)%bind_ok_inv.
  apply bind_ok_inv in E as (_ & _ & [= <- <-]).
  apply weight_loop in Hloop as (L1 & L2 & _ & Hall).
  cbn [ev_std_med ev_fraclist] in L1, L2.
  unfold np_empty in L1, L2. rewrite length_fmap, length_seq in L1, L2.
  repeat (split; [done|]). exact Hall.
Qed.

(** C1: the product of the last sweep call, for pixfrac 1.0, is the file
    ['f160w_1.0_drz.fits'], and the pattern ['f160w_0.[0-9]*drz.fits'] of the
    evaluation step matches it in no working directory: a table built by
    the evaluation step has one entry per matched file and none for
    pixfrac 1.0. *)
Theorem evaluation_misses_pixfrac_one `{Numeric} flt_files selected_params
    junk ylims xlims root :
  (exists x, last pixfracs = Some x /\ format_1f x = "1.0" /\
     product_name (sweep_call flt_files selected_params x) = "f160w_1.0_drz.fits") /\
  ("f160w_1.0_drz.fits" ∉ join_path <$> glob sweep_pattern root) /\
  match cell34 junk ylims xlims root with
  | Ok (whtlist, ev) =>
      ("f160w_1.0_drz.fits" ∉ whtlist) /\
      length (ev_fraclist ev) = length whtlist /\
      length (ev_std_med ev) = length whtlist
  | Raise _ => True
  end.
Proof.
  assert ("f160w_1.0_drz.fits" ∉ (join_path <$> glob sweep_pattern root)) as Hnot.
  { intros Hin%glob_pattern_names; done. }
  split; [|split; [done|]].
  - exists (b64_of_Z 1). by vm_compute.
  - destruct (cell34 junk ylims xlims root) as [[whtlist ev]|e] eqn:E; [|done].
    apply cell34_inv in E as (-> & L1 & L2 & _). done.
Qed.

(** On the directory the sweep leaves behind, all ten products are
    present but the evaluation step reads nine of them. *)
Example evaluation_after_sweep :
  exists root whtlist ev,
    swept_tree = Ok root /\
    @cell34 plain_numeric zero_junk (930, 980) (825, 875) root = Ok (whtlist, ev) /\
    is_Some (resolve ["f160w_1.0_drz.fits"] root) /\
    whtlist = ["f160w_0.1_drz.fits"; "f160w_0.2_drz.fits"; "f160w_0.3_drz.fits";
               "f160w_0.4_drz.fits"; "f160w_0.5_drz.fits"; "f160w_0.6_drz.fits";
               "f160w_0.7_drz.fits"; "f160w_0.8_drz.fits"; "f160w_0.9_drz.fits"] /\
    length (ev_fraclist ev) = 9%nat /\
    Forall2 (fun k x => near_tenth k x = true) [1; 2; 3; 4; 5; 6; 7; 8; 9] (ev_fraclist ev).
Proof.
  destruct swept_tree as [root|e] eqn:E; [|by vm_compute in E].
  vm_compute in E. injection E as <-.
  eexists _, _, _. split; [reflexivity|].
  split; [vm_compute; reflexivity|].
  split; [by eexists|]. split; [reflexivity|]. split; [reflexivity|].
  repeat constructor; by vm_compute.
Qed.

(** ** Slices *)

(** The sub-region is the rectangle of rows [ylims[0] .. ylims[1]-1] and
    columns [xlims[0] .. xlims[1]-1] when the bounds lie within the image. *)
Lemma py_slice_lookup {A} (l : list A) lo hi j :
  0 <= lo -> lo <= hi -> hi <= Z.of_nat (length l) ->
  (j < Z.to_nat (hi - lo))%nat ->
  py_slice l lo hi !! j = l !! (Z.to_nat lo + j)%nat.
Proof.
  intros Hlo Hle Hhi Hj. unfold py_slice, slice_bound.
  destruct (Z.ltb_spec lo 0); [lia|]. destruct (Z.ltb_spec hi 0); [lia|].
  rewrite !Z.min_l by lia.
  rewrite lookup_take_lt by lia. by rewrite lookup_drop.
Qed.

Lemma py_slice_length {A} (l : list A) lo hi :
  0 <= lo -> lo <= hi -> hi <= Z.of_nat (length l) ->
  length (py_slice l lo hi) = Z.to_nat (hi - lo).
Proof.
  intros Hlo Hle Hhi. unfold py_slice, slice_bound.
  destruct (Z.ltb_spec lo 0); [lia|]. destruct (Z.ltb_spec hi 0); [lia|].
  rewrite !Z.min_l by lia. rewrite length_take, length_drop. lia.
Qed.

Lemma sub_region_cell (wht : image) y0 y1 x0 x1 r c row :
  0 <= y0 -> y0 <= y1 -> y1 <= Z.of_nat (length wht) ->
  (r < Z.to_nat (y1 - y0))%nat ->
  wht !! (Z.to_nat y0 + r)%nat = Some row ->
  0 <= x0 -> x0 <= x1 -> x1 <= Z.of_nat (length row) ->
  (c < Z.to_nat (x1 - x0))%nat ->
  exists row', sub_region wht (y0, y1) (x0, x1) !! r = Some row' /\
    length row' = Z.to_nat (x1 - x0) /\
    row' !! c = row !! (Z.to_nat x0 + c)%nat.
Proof.
  intros Hy0 Hy Hy1 Hr Hrow Hx0 Hx Hx1 Hc.
  exists (py_slice row x0 x1). split; [|split].
  - unfold sub_region, image in *. cbn [fst snd].
    rewrite list_lookup_fmap, py_slice_lookup by done. by rewrite Hrow.
  - by apply py_slice_length.
  - by apply py_slice_lookup.
Qed.

(** * Further properties of the cells *)

(** ** Cell 7: moving the downloaded files *)

Lemma dir_lookup_alter_eq f name es :
  dir_lookup name (dir_alter f name es) = f <$> dir_lookup name es.
Proof.
  induction es as [|[m y] es IH]; simpl; [done|].
  destruct (String.eqb m name) eqn:E; simpl; rewrite E; [done|exact IH].
Qed.

Lemma dir_lookup_Some_name name es x : dir_lookup name es = Some x -> name ∈ es.*1.
Proof.
  induction es as [|[m y] es IH]; simpl; [done|].
  destruct (String.eqb m name) eqn:E.
  - apply String.eqb_eq in E as ->. intros _. by left.
  - intros Hl. right. by apply IH.
Qed.

Lemma dir_lookup_None_name name es : dir_lookup name es = None <-> name ∉ es.*1.
Proof.
  induction es as [|[m y] es IH]; simpl.
  - split; [intros _ ?%elem_of_nil; done|done].
  - rewrite not_elem_of_cons. destruct (String.eqb m name) eqn:E.
    + apply String.eqb_eq in E as ->. split; [done|]. intros [? _]. done.
    + apply String.eqb_neq in E. rewrite IH. split; [|tauto].
      intros Hn. split; [congruence|done].
Qed.

Lemma glob_download_path root p :
  In p (glob download_pattern root) -> download_path p.
Proof.
  unfold glob.
  change (split_on "/" download_pattern)
    with ["."; "mastDownload"; "HST"; "*"; "*fl?.fits"].
  change (glob_from ("." :: ?ps) root) with (map (cons ".") (glob_from ps root)).
  intros H. apply in_map_iff in H as [p1 [<- H]].
  destruct root as [c|es]; [by apply glob_from_file in H|].
  apply glob_from_step in H as (n1 & c1 & p2 & _ & M1 & -> & H); [|done].
  apply component_matches_literal in M1 as ->; [|done].
  destruct c1 as [c|es1]; [by apply glob_from_file in H|].
  apply glob_from_step in H as (n2 & c2 & p3 & _ & M2 & -> & H); [|done].
  apply component_matches_literal in M2 as ->; [|done].
  destruct c2 as [c|es2]; [by apply glob_from_file in H|].
  apply glob_from_step in H as (d & c3 & p4 & _ & M3 & -> & H); [|done].
  destruct c3 as [c|es3]; [by apply glob_from_file in H|].
  apply glob_from_step in H as (f & c4 & p5 & _ & M4 & -> & H); [|done].
  destruct H as [<-|[]].
  by exists d, f.
Qed.

Lemma download_path_downloaded p : download_path p -> downloaded p.
Proof.
  intros (d & f & -> & _ & Hf). exists d, f. split; [done|].
  by apply component_matches_magic in Hf.
Qed.

Lemma component_matches_not_dot pattern name :
  has_magic pattern = true -> is_hidden pattern = false ->
  component_matches pattern name = true -> name <> ".".
Proof.
  unfold component_matches. intros -> ->. intros H ->. discriminate H.
Qed.

(** A path resolves as before once a path of the same depth with another
    base name has been removed. *)
Lemma resolve_remove_at_other p : forall q n,
  Forall (fun c => c <> ".") p -> Forall (fun c => c <> ".") q ->
  length p = length q -> p <> [] -> basename p <> basename q ->
  resolve p (remove_at q n) = resolve p n.
Proof.
  induction p as [|c p IH]; intros q n Hp Hq Hlen Hne Hb; [done|].
  destruct q as [|c' q]; [done|].
  apply Forall_cons in Hp as [Hc Hp]. apply Forall_cons in Hq as [Hc' Hq].
  apply String.eqb_neq in Hc, Hc'.
  destruct n as [cn|es].
  { cbn [remove_at]. by rewrite Hc'. }
  destruct q as [|c'' q].
  - destruct p as [|? ?]; [|done]. cbn [resolve remove_at]. rewrite Hc, Hc'.
    rewrite dir_lookup_remove_ne; [done|]. exact Hb.
  - destruct p as [|c2 p]; [done|].
    cbn [remove_at]. rewrite Hc'.
    change (resolve (c :: ?r) (Dir ?e))
      with (if String.eqb c "." then resolve r (Dir e)
            else match dir_lookup c e with Some x => resolve r x | None => None end).
    rewrite Hc.
    destruct (decide (c = c')) as [->|Hcc].
    + rewrite dir_lookup_alter_eq. destruct (dir_lookup c' es) as [x|]; [|done].
      cbn [fmap option_fmap option_map].
      apply (IH (c'' :: q) x); [done|done|simpl in *; lia|done|exact Hb].
    + by rewrite dir_lookup_alter_ne.
Qed.

Lemma resolve_first_component c rest a b :
  c <> "." -> dir_lookup c a = dir_lookup c b ->
  resolve ("." :: c :: rest) (Dir a) = resolve ("." :: c :: rest) (Dir b).
Proof.
  intros Hc%String.eqb_neq Hl. cbn [resolve]. rewrite Hc.
  change (String.eqb "." ".") with true. cbv iota. by rewrite Hl.
Qed.

Lemma move_one_inv es p root' :
  download_path p ->
  move_one (Dir es) p = Ok root' ->
  exists x es0, resolve p (Dir es) = Some x /\ remove_at p (Dir es) = Dir es0 /\
    root' = Dir (dir_put (basename p) x es0).
Proof.
  intros (d & f & -> & Hd & Hf).
  unfold move_one, os_rename.
  destruct (remove_at_frame "mastDownload" ["HST"; d; f] es) as (es1 & -> & Hes1); [done|].
  destruct (resolve _ (Dir es)) as [x|]; [|done].
  set (b := basename _) in *.
  intros H. exists x, es1. split; [done|]. split; [done|].
  destruct (dir_lookup b es1) as [[c|[|? ?]]|], x; congruence.
Qed.

Lemma download_paths_apart p q :
  download_path p -> download_path q -> basename q <> basename p ->
  forall n, resolve q (remove_at p n) = resolve q n.
Proof.
  intros (d & f & -> & Hd & Hf) (d' & f' & -> & Hd' & Hf') Hb n.
  apply component_matches_not_dot in Hd, Hf, Hd', Hf'; try done.
  change (resolve ("." :: ?r) ?m) with (resolve r m).
  change (remove_at ("." :: ?r) ?m) with (remove_at r m).
  apply resolve_remove_at_other; try done.
  - repeat (apply Forall_cons; split; [done|]). done.
  - repeat (apply Forall_cons; split; [done|]). done.
Qed.

Lemma move_all_content ps : forall es root',
  Forall download_path ps -> NoDup (map basename ps) ->
  for_each move_one ps (Dir es) = Ok root' ->
  exists es', root' = Dir es' /\
    forall p, In p ps -> dir_lookup (basename p) es' = resolve p (Dir es).
Proof.
  induction ps as [|p ps IH]; intros es root' Hps Hnd H; simpl in H.
  - injection H as <-. exists es. split; [done|]. by intros ? [].
  - apply Forall_cons in Hps as [Hp Hps]. simpl in Hnd.
    apply NoDup_cons in Hnd as [Hnin Hnd].
    destruct (move_one (Dir es) p) as [root1|] eqn:E1; [|done].
    simpl in H.
    destruct (move_one_inv _ _ _ Hp E1) as (x & es0 & Hx & Hes0 & ->).
    destruct (IH _ root' Hps Hnd H) as (es' & -> & Hin).
    assert (Forall downloaded ps) as Hps'.
    { eapply Forall_impl; [exact Hps|]. apply download_path_downloaded. }
    destruct (move_all_effect ps _ _ Hps' H) as (es'' & [= <-] & _ & Hfr).
    assert (basename p <> "mastDownload") as Hb
      by (by apply downloaded_basename_ne, download_path_downloaded).
    exists es'. split; [done|]. intros q [<-|Hq].
    + rewrite Hfr; [|done|by rewrite <- list_elem_of_In].
      by rewrite dir_lookup_put_eq.
    + rewrite (Hin q Hq).
      assert (download_path q) as Hdq
        by (rewrite Forall_forall in Hps; by apply Hps, list_elem_of_In).
      assert (basename q <> basename p) as Hqp.
      { intros Heq. apply Hnin. rewrite <- Heq.
        apply list_elem_of_In, in_map, Hq. }
      rewrite <- (download_paths_apart p q Hp Hdq Hqp (Dir es)), Hes0.
      destruct Hdq as (d & f & -> & _).
      apply resolve_first_component; [done|].
      by apply dir_lookup_put_ne.
Qed.

Lemma cell7_inv es root' :
  cell7 (Dir es) = Ok root' ->
  exists es1, for_each move_one (glob download_pattern (Dir es)) (Dir es) = Ok (Dir es1) /\
    root' = Dir (dir_remove "mastDownload" es1).
Proof.
  unfold cell7. intros H.
  destruct (for_each move_one _ (Dir es)) as [root1|] eqn:E; [|done].
  simpl in H. unfold shutil_rmtree in H.
  destruct root1 as [c|es1]; [done|].
  destruct (dir_lookup "mastDownload" es1) as [[c|es2]|]; try done.
  injection H as <-. by exists es1.
Qed.

Lemma glob_download_paths root :
  Forall download_path (glob download_pattern root).
Proof.
  apply Forall_forall. intros p Hp%list_elem_of_In. by eapply glob_download_path.
Qed.

(** X1: cell 7 keeps what it moves.  When no two downloaded files share a
    base name and cell 7 completes, each path that the pattern matched is
    found in the working directory under its base name, and the entry
    there is the file (or directory) that the path named before. *)
Theorem cell7_preserves_content es root' :
  NoDup (map basename (glob download_pattern (Dir es))) ->
  cell7 (Dir es) = Ok root' ->
  exists es', root' = Dir es' /\
    forall p, In p (glob download_pattern (Dir es)) ->
      dir_lookup (basename p) es' = resolve p (Dir es) /\
      is_Some (resolve p (Dir es)).
Proof.
  intros Hnd (es1 & Hloop & ->)%cell7_inv.
  destruct (move_all_content _ _ _ (glob_download_paths _) Hnd Hloop)
    as (es' & [= <-] & Hc).
  eexists; split; [done|]. intros p Hp.
  assert (dir_lookup (basename p) (dir_remove "mastDownload" es1)
          = resolve p (Dir es)) as Heq.
  { rewrite dir_lookup_remove_ne; [by apply Hc|].
    by apply downloaded_basename_ne, download_path_downloaded, (glob_download_path (Dir es)). }
  split; [exact Heq|]. rewrite <- Heq.
  assert (Forall downloaded (glob download_pattern (Dir es))) as Hd.
  { eapply Forall_impl; [apply glob_download_paths|]. apply download_path_downloaded. }
  destruct (move_all_effect _ _ _ Hd Hloop) as (es'' & [= <-] & Hin & _).
  rewrite dir_lookup_remove_ne; [by apply Hin|].
  by apply downloaded_basename_ne, download_path_downloaded, (glob_download_path (Dir es)).
Qed.

Lemma cell7_preserves_content_witness :
  exists es', moved_tree = Dir es' /\
    forall p, In p (glob download_pattern download_tree) ->
      dir_lookup (basename p) es' = resolve p download_tree /\
      is_Some (resolve p download_tree).
Proof.
  apply (cell7_preserves_content
           [ ("crds_cache", Dir []);
             ("mastDownload",
               Dir [ ("HST",
                       Dir [ ("ib1f19l7q", Dir [("ib1f19l7q_flt.fits", File exposure_l7q)]);
                             ("ib1f19l6q", Dir [("ib1f19l6q_flt.fits", File exposure_l6q)]) ]) ]) ]
           moved_tree).
  - apply (@bool_decide_unpack _ (NoDup_dec _)). vm_compute. exact I.
  - reflexivity.
Defined.

Lemma glob_from_missing name ps es :
  has_magic name = false -> name <> "." -> dir_lookup name es = None ->
  glob_from (name :: ps) (Dir es) = [].
Proof.
  intros Hm Hn%String.eqb_neq. cbn [glob_from]. rewrite Hn.
  induction es as [|[n x] es IH]; [done|].
  cbn [dir_lookup flat_map]. destruct (String.eqb n name) eqn:E; [done|].
  intros Hl. unfold component_matches at 1. rewrite Hm, String.eqb_sym, E.
  by apply IH.
Qed.

(** X2: cell 7 needs the download directory.  In a working directory
    with no entry [mastDownload] nothing is moved and the cell stops with
    [FileNotFoundError] for ['mastDownload/']. *)
Theorem cell7_needs_download es :
  dir_lookup "mastDownload" es = None ->
  cell7 (Dir es) = Raise (FileNotFoundError "mastDownload").
Proof.
  intros Hl. unfold cell7, glob.
  change (split_on "/" download_pattern)
    with ["."; "mastDownload"; "HST"; "*"; "*fl?.fits"].
  change (glob_from ("." :: ?ps) ?r) with (map (cons ".") (glob_from ps r)).
  rewrite glob_from_missing by done.
  cbn [map for_each mbind result_bind]. unfold shutil_rmtree. by rewrite Hl.
Qed.

Lemma cell7_needs_download_witness :
  cell7 moved_tree = Raise (FileNotFoundError "mastDownload").
Proof. apply (cell7_needs_download moved_entries). reflexivity. Defined.

(** X3: cell 7 cannot be run twice.  After a run that completed, a
    second run of the cell raises [FileNotFoundError]: the directory it
    reads from and removes is gone. *)
Theorem cell7_rerun_fails es root' :
  cell7 (Dir es) = Ok root' ->
  cell7 root' = Raise (FileNotFoundError "mastDownload").
Proof.
  intros (es1 & _ & ->)%cell7_inv.
  unfold cell7, glob.
  change (split_on "/" download_pattern)
    with ["."; "mastDownload"; "HST"; "*"; "*fl?.fits"].
  change (glob_from ("." :: ?ps) ?r) with (map (cons ".") (glob_from ps r)).
  rewrite glob_from_missing; [|done|done|apply dir_lookup_remove_eq].
  cbn [map for_each mbind result_bind]. unfold shutil_rmtree.
  by rewrite dir_lookup_remove_eq.
Qed.

Lemma cell7_rerun_fails_witness :
  cell7 moved_tree = Raise (FileNotFoundError "mastDownload").
Proof.
  apply (cell7_rerun_fails
           [ ("crds_cache", Dir []);
             ("mastDownload",
               Dir [ ("HST",
                       Dir [ ("ib1f19l7q", Dir [("ib1f19l7q_flt.fits", File exposure_l7q)]);
                             ("ib1f19l6q", Dir [("ib1f19l6q_flt.fits", File exposure_l6q)]) ]) ]) ]
           moved_tree).
  reflexivity.
Defined.

(** ** The file-name patterns *)

Lemma match_pats_nil s : match_pats [] s = true <-> s = "".
Proof. destruct s; simpl; split; congruence. Qed.

Lemma match_pats_lit c ps s :
  match_pats (PLit c :: ps) s = true <->
  exists s', s = String c s' /\ match_pats ps s' = true.
Proof.
  destruct s as [|d s]; simpl.
  - split; [done|]. by intros (? & ? & _).
  - rewrite andb_true_iff, Ascii.eqb_eq. split.
    + intros [-> H]. by exists s.
    + intros (s' & [= -> ->] & H). done.
Qed.

Lemma match_pats_any ps s :
  match_pats (PAny :: ps) s = true <->
  exists c s', s = String c s' /\ match_pats ps s' = true.
Proof.
  destruct s as [|d s]; simpl.
  - split; [done|]. by intros (? & ? & ? & _).
  - split.
    + intros H. by exists d, s.
    + intros (c & s' & [= -> ->] & H). done.
Qed.

Lemma match_pats_class neg ranges ps s :
  match_pats (PClass neg ranges :: ps) s = true <->
  exists c s', s = String c s' /\ class_matches neg ranges c = true /\
    match_pats ps s' = true.
Proof.
  destruct s as [|d s]; simpl.
  - split; [done|]. by intros (? & ? & ? & _).
  - rewrite andb_true_iff. split.
    + intros [Hc H]. by exists d, s.
    + intros (c & s' & [= -> ->] & Hc & H). done.
Qed.

(** [*] matches any prefix of the name, the rest of the pattern what is
    left. *)
Lemma match_pats_star ps s :
  match_pats (PStar :: ps) s = true <->
  exists pre suf, s = pre +:+ suf /\ match_pats ps suf = true.
Proof.
  induction s as [|c s IH].
  - simpl. rewrite orb_false_r. split.
    + intros H. by exists "", "".
    + intros (pre & suf & Heq & H). destruct pre; [|done].
      change ("" +:+ suf) with suf in Heq. by subst suf.
  - change (match_pats (PStar :: ps) (String c s))
      with (match_pats ps (String c s) || match_pats (PStar :: ps) s)%bool.
    rewrite orb_true_iff, IH. split.
    + intros [H | (pre & suf & -> & H)].
      * by exists "", (String c s).
      * by exists (String c pre), suf.
    + intros (pre & suf & Heq & H). destruct pre as [|a pre].
      * change ("" +:+ suf) with suf in Heq. subst suf. by left.
      * change (String a pre +:+ suf) with (String a (pre +:+ suf)) in Heq.
        injection Heq as -> ->. right. by exists pre, suf.
Qed.

Lemma fnmatch_flt_pattern name :
  fnmatch name flt_pattern = true <->
  exists pre c, name = pre +:+ "fl" +:+ String c ".fits".
Proof.
  unfold fnmatch.
  change (translate flt_pattern)
    with [PStar; PLit "f"; PLit "l"; PAny; PLit "."; PLit "f"; PLit "i";
          PLit "t"; PLit "s"]%char.
  rewrite match_pats_star. split.
  - intros (pre & suf & -> & H).
    apply match_pats_lit in H as (s1 & -> & H).
    apply match_pats_lit in H as (s2 & -> & H).
    apply match_pats_any in H as (c & s3 & -> & H).
    apply match_pats_lit in H as (s4 & -> & H).
    apply match_pats_lit in H as (s5 & -> & H).
    apply match_pats_lit in H as (s6 & -> & H).
    apply match_pats_lit in H as (s7 & -> & H).
    apply match_pats_lit in H as (s8 & -> & H).
    apply match_pats_nil in H as ->.
    by exists pre, c.
  - intros (pre & c & ->). by exists pre, ("fl" +:+ String c ".fits").
Qed.

Lemma fnmatch_sweep_pattern name :
  fnmatch name sweep_pattern = true <->
  exists d rest, name = "f160w_0." +:+ String d (rest +:+ "drz.fits") /\
    ascii_in_range "0" "9" d = true.
Proof.
  unfold fnmatch.
  change (translate sweep_pattern)
    with [PLit "f"; PLit "1"; PLit "6"; PLit "0"; PLit "w"; PLit "_"; PLit "0";
          PLit "."; PClass false [("0", "9")]; PStar;
          PLit "d"; PLit "r"; PLit "z"; PLit "."; PLit "f"; PLit "i";
          PLit "t"; PLit "s"]%char.
  split.
  - intros H.
    do 8 (apply match_pats_lit in H as (? & -> & H)).
    apply match_pats_class in H as (d & s & -> & Hd & H).
    apply match_pats_star in H as (rest & suf & -> & H).
    do 8 (apply match_pats_lit in H as (? & -> & H)).
    apply match_pats_nil in H as ->.
    exists d, rest. split; [done|].
    unfold class_matches in Hd. simpl in Hd. by rewrite orb_false_r in Hd.
  - intros (d & rest & -> & Hd).
    do 8 (apply match_pats_lit; eexists; split; [reflexivity|]).
    apply match_pats_class. exists d, (rest +:+ "drz.fits"). split; [done|]. split.
    + unfold class_matches. simpl. by rewrite orb_false_r.
    + apply match_pats_star. by exists rest, "drz.fits".
Qed.

Lemma glob_flt_files_elem es name :
  name ∈ glob_flt_files (Dir es) <->
  name ∈ es.*1 /\ component_matches flt_pattern name = true.
Proof.
  destruct (glob_flt_files_spec es) as [_ Hp]. rewrite Hp.
  rewrite list_elem_of_In, filter_In, <- list_elem_of_In. done.
Qed.

(** X4: which files cell 10 reads.  [flt_files] holds exactly the names
    of the working directory that do not start with a dot and end in
    [fl], one more character and [.fits]. *)
Theorem flt_files_are_the_fl_fits_names es name :
  name ∈ glob_flt_files (Dir es) <->
  name ∈ es.*1 /\ is_hidden name = false /\
  exists pre c, name = pre +:+ "fl" +:+ String c ".fits".
Proof.
  rewrite glob_flt_files_elem. unfold component_matches.
  change (has_magic flt_pattern) with true.
  change (is_hidden flt_pattern) with false. cbv iota.
  rewrite orb_false_l, andb_true_iff, negb_true_iff, fnmatch_flt_pattern.
  tauto.
Qed.

(** X5: which files cell 34 reads.  [whtlist] holds exactly the names of
    the working directory of the form [f160w_0.], a digit, any text,
    [drz.fits], in the order of the directory listing. *)
Theorem whtlist_are_the_sweep_names es :
  join_path <$> glob sweep_pattern (Dir es)
  = List.filter (component_matches sweep_pattern) es.*1 /\
  forall name,
    component_matches sweep_pattern name = true <->
    exists d rest, name = "f160w_0." +:+ String d (rest +:+ "drz.fits") /\
      ascii_in_range "0" "9" d = true.
Proof.
  split.
  - unfold glob. change (split_on "/" sweep_pattern) with [sweep_pattern].
    by rewrite glob_names.
  - intros name. unfold component_matches.
    change (has_magic sweep_pattern) with true.
    change (is_hidden sweep_pattern) with false. cbv iota.
    rewrite orb_false_l, andb_true_iff, negb_true_iff, fnmatch_sweep_pattern.
    split; [tauto|]. intros (d & rest & -> & Hd). split; [done|].
    by exists d, rest.
Qed.

(** X6: cell 7 feeds cell 10.  After cell 7 has completed, the base name
    of every downloaded path is in the list [flt_files] that cell 10
    builds from the working directory. *)
Theorem cell7_then_flt_files es root' p :
  cell7 (Dir es) = Ok root' ->
  In p (glob download_pattern (Dir es)) ->
  basename p ∈ glob_flt_files root'.
Proof.
  intros (es1 & Hloop & ->)%cell7_inv Hp.
  assert (Forall downloaded (glob download_pattern (Dir es))) as Hd.
  { eapply Forall_impl; [apply glob_download_paths|]. apply download_path_downloaded. }
  destruct (move_all_effect _ _ _ Hd Hloop) as (es'' & [= <-] & Hin & _).
  pose proof (glob_download_path _ _ Hp) as Hdp.
  apply glob_flt_files_elem. split.
  - destruct (Hin p Hp) as [x Hx].
    apply (dir_lookup_Some_name _ _ x).
    rewrite dir_lookup_remove_ne; [done|].
    by apply downloaded_basename_ne, download_path_downloaded.
  - by destruct Hdp as (d & f & -> & _ & Hf).
Qed.

Lemma cell7_then_flt_files_witness :
  basename ["."; "mastDownload"; "HST"; "ib1f19l6q"; "ib1f19l6q_flt.fits"]
  ∈ glob_flt_files moved_tree.
Proof.
  apply (cell7_then_flt_files
           [ ("crds_cache", Dir []);
             ("mastDownload",
               Dir [ ("HST",
                       Dir [ ("ib1f19l7q", Dir [("ib1f19l7q_flt.fits", File exposure_l7q)]);
                             ("ib1f19l6q", Dir [("ib1f19l6q_flt.fits", File exposure_l6q)]) ]) ]) ]
           moved_tree).
  - reflexivity.
  - vm_compute. tauto.
Defined.

(** ** Cell 10 and the order of the directory listing *)

Lemma dir_lookup_elem name x es :
  NoDup es.*1 -> dir_lookup name es = Some x <-> (name, x) ∈ es.
Proof.
  induction es as [|[m y] es IH]; simpl.
  - intros _. split; [done|]. by intros ?%elem_of_nil.
  - intros [Hm Hnd]%NoDup_cons. rewrite elem_of_cons.
    destruct (String.eqb m name) eqn:E.
    + apply String.eqb_eq in E as ->. split.
      * intros [= ->]. by left.
      * intros [[= ->]|Hin]; [done|]. exfalso. apply Hm.
        apply list_elem_of_fmap. by exists (name, x).
    + apply String.eqb_neq in E. rewrite (IH Hnd). split; [tauto|].
      intros [[= -> ->]|?]; done.
Qed.

Lemma dir_lookup_perm name es es' :
  NoDup es.*1 -> es ≡ₚ es' -> dir_lookup name es = dir_lookup name es'.
Proof.
  intros Hnd Hp.
  assert (NoDup es'.*1) as Hnd' by (by rewrite <- Hp).
  destruct (dir_lookup name es) as [x|] eqn:E.
  - apply dir_lookup_elem in E; [|done]. rewrite Hp in E.
    apply dir_lookup_elem in E; done.
  - destruct (dir_lookup name es') as [x|] eqn:E'; [|done].
    apply dir_lookup_elem in E'; [|done]. rewrite <- Hp in E'.
    apply dir_lookup_elem in E'; [|done]. congruence.
Qed.

Lemma fits_open_perm name es es' :
  NoDup es.*1 -> es ≡ₚ es' -> fits_open name (Dir es) = fits_open name (Dir es').
Proof.
  intros Hnd Hp. unfold fits_open. cbn [resolve].
  destruct (String.eqb name "."); [done|].
  by rewrite (dir_lookup_perm name es es').
Qed.

Lemma filter_Permutation {A} (f : A -> bool) (l l' : list A) :
  l ≡ₚ l' -> List.filter f l ≡ₚ List.filter f l'.
Proof.
  induction 1 as [|x l l' _ IH|x y l|l l' l'' _ IH1 _ IH2]; simpl.
  - done.
  - destruct (f x); [by constructor|done].
  - destruct (f x), (f y); try done. apply perm_swap.
  - by etrans.
Qed.

Lemma glob_flt_files_perm es es' :
  es.*1 ≡ₚ es'.*1 -> glob_flt_files (Dir es) = glob_flt_files (Dir es').
Proof.
  intros Hp.
  destruct (glob_flt_files_spec es) as [Hs1 Hp1].
  destruct (glob_flt_files_spec es') as [Hs2 Hp2].
  apply (StronglySorted_unique String.le); [done|done|].
  rewrite Hp1, Hp2.
  apply filter_Permutation, Hp.
Qed.

(** X7: sorting makes cell 10 independent of the order in which the
    operating system lists the directory.  Two listings of the same
    entries give the same [flt_files] and the same table (or the same
    exception). *)
Theorem cell10_listing_order_irrelevant `{Numeric} es es' :
  NoDup es.*1 -> es ≡ₚ es' ->
  glob_flt_files (Dir es) = glob_flt_files (Dir es') /\
  cell10 (Dir es) = cell10 (Dir es').
Proof.
  intros Hnd Hp.
  assert (glob_flt_files (Dir es) = glob_flt_files (Dir es')) as Hg.
  { apply glob_flt_files_perm. by rewrite Hp. }
  split; [exact Hg|].
  unfold cell10. rewrite Hg.
  rewrite (for_each_ext (append_row (Dir es)) (append_row (Dir es'))); [done|].
  intros data f. unfold append_row, header_row.
  assert (forall ext, append_getval (Dir es) f ext = append_getval (Dir es') f ext) as Hv.
  { intros ext. unfold append_getval, fits_getval, fits_getheader.
    by rewrite (fits_open_perm f es es'). }
  by rewrite !Hv.
Qed.

Lemma cell10_listing_order_irrelevant_witness :
  glob_flt_files moved_tree = glob_flt_files (Dir (reverse moved_entries)) /\
  @cell10 plain_numeric moved_tree = @cell10 plain_numeric (Dir (reverse moved_entries)).
Proof.
  apply (@cell10_listing_order_irrelevant plain_numeric moved_entries (reverse moved_entries)).
  - apply (@bool_decide_unpack _ (NoDup_dec _)). vm_compute. exact I.
  - symmetry. apply reverse_Permutation.
Defined.

(** ** Cell 14: the shape of the alignment table *)

Lemma dd_append_loop (body : table -> string -> result table) (g : string -> string) kws :
  (forall s kw s', body s kw = Ok s' -> exists v, s' = dd_append (g kw) v s) ->
  forall cd cd', for_each body kws cd = Ok cd' ->
  exists vs, length vs = length kws /\
    cd' = foldl (fun d kv => dd_append kv.1 kv.2 d) cd (zip (g <$> kws) vs).
Proof.
  intros Hbody. induction kws as [|kw kws IH]; intros cd cd' H.
  - injection H as <-. by exists [].
  - cbn [for_each] in H. apply bind_ok_inv in H as (cd1 & H1 & H).
    apply Hbody in H1 as [v ->].
    apply IH in H as (vs & Hlen & ->).
    exists (v :: vs). split; [simpl; lia|done].
Qed.

Lemma wcs_file_appends `{Numeric} root cd f cd' :
  wcs_file root cd f = Ok cd' ->
  exists v1 v2 v3 v4 v5 v6 v7 v8,
    cd' = foldl (fun d kv => dd_append kv.1 kv.2 d) cd
            (zip wcs_columns [VStr f; v1; v2; v3; v4; v5; v6; v7; v8]).
Proof.
  unfold wcs_file.
  intros (hdr0 & _ & H1)%bind_ok_inv.
  apply bind_ok_inv in H1 as (hdr1 & _ & H1).
  apply bind_ok_inv in H1 as (cd1 & Ha & H1).
  apply bind_ok_inv in H1 as (cd2 & Hb & Hc).
  apply (dd_append_loop _ id) in Ha as (vs0 & Hl0 & ->).
  2:{ intros s kw s'. unfold append_ext0.
      intros (v & _ & [= <-])%bind_ok_inv. by exists v. }
  apply (dd_append_loop _ id) in Hb as (vs1 & Hl1 & ->).
  2:{ intros s kw s'. unfold append_ext1.
      intros (raw & _ & (v & _ & [= <-])%bind_ok_inv)%bind_ok_inv. by exists v. }
  apply (dd_append_loop _ (fun kw => kw +:+ "_pix")) in Hc as (vs2 & Hl2 & ->).
  2:{ intros s kw s'. unfold append_pix.
      intros (raw & _ & (v & _ & [= <-])%bind_ok_inv)%bind_ok_inv. by exists v. }
  destruct vs0 as [|v1 [|v2 [|? ?]]]; try done.
  destruct vs1 as [|v3 [|v4 [|v5 [|v6 [|? ?]]]]]; try done.
  destruct vs2 as [|v7 [|v8 [|? ?]]]; try done.
  by exists v1, v2, v3, v4, v5, v6, v7, v8.
Qed.

Lemma wcs_loop_shape `{Numeric} root files : forall done cd cd',
  (done = [] /\ cd = []) \/
  (done <> [] /\ exists cols, cd = zip wcs_columns cols /\ length cols = 9%nat /\
     Forall (fun col => length col = length done) cols /\
     cols !! 0%nat = Some (VStr <$> done)) ->
  for_each (wcs_file root) files cd = Ok cd' ->
  (done ++ files = [] /\ cd' = []) \/
  (done ++ files <> [] /\ exists cols, cd' = zip wcs_columns cols /\ length cols = 9%nat /\
     Forall (fun col => length col = length (done ++ files)) cols /\
     cols !! 0%nat = Some (VStr <$> (done ++ files))).
Proof.
  induction files as [|f files IH]; intros done cd cd' Hinv Hrun.
  - injection Hrun as <-. by rewrite app_nil_r.
  - cbn [for_each] in Hrun. apply bind_ok_inv in Hrun as (cd1 & H1 & Hrun).
    rewrite (cons_middle f), app_assoc. apply (IH _ cd1); [|done].
    right. split; [by destruct done|].
    apply wcs_file_appends in H1 as (v1 & v2 & v3 & v4 & v5 & v6 & v7 & v8 & ->).
    destruct Hinv as [[-> ->]|(Hne & cols & -> & Hlen & Hall & H0)].
    + exists [[VStr f]; [v1]; [v2]; [v3]; [v4]; [v5]; [v6]; [v7]; [v8]].
      split; [reflexivity|]. split; [done|]. split; [|done].
      repeat (apply Forall_cons; split; [done|]). done.
    + destruct cols as [|c0 [|c1 [|c2 [|c3 [|c4 [|c5 [|c6 [|c7 [|c8 [|? ?]]]]]]]]]];
        try done.
      exists [c0 ++ [VStr f]; c1 ++ [v1]; c2 ++ [v2]; c3 ++ [v3]; c4 ++ [v4];
              c5 ++ [v5]; c6 ++ [v6]; c7 ++ [v7]; c8 ++ [v8]].
      split; [reflexivity|]. split; [done|]. split.
      * rewrite !Forall_cons in Hall. rewrite !Forall_cons, !length_app. simpl.
        destruct Hall as (? & ? & ? & ? & ? & ? & ? & ? & ? & _).
        repeat split; try lia. constructor.
      * injection H0 as ->. by rewrite fmap_app.
Qed.

(** X8: the alignment table of cell 14 is rectangular.  When the cell
    completes on a non-empty file list, [col_dict] holds the nine columns
    [filename], [DETECTOR], [EXPTIME], [WCSNAME], [NMATCHES], [RMS_RA],
    [RMS_DEC], [RMS_RA_pix], [RMS_DEC_pix] in this order, every column has
    one cell per file, and the first column is the file list itself; on
    an empty file list the table has no column. *)
Theorem cell14_table_shape `{Numeric} root flt_files wcstable :
  cell14 root flt_files = Ok wcstable ->
  (flt_files = [] -> wcstable = []) /\
  (flt_files <> [] ->
     colnames wcstable = wcs_columns /\
     Forall (fun col => length col.2 = length flt_files) wcstable /\
     wcstable !! 0%nat = Some ("filename", VStr <$> flt_files)).
Proof.
  unfold cell14. intros (cd & Hloop & [= <-])%bind_ok_inv.
  apply (wcs_loop_shape root flt_files [] []) in Hloop; [|by left].
  rewrite app_nil_l in Hloop.
  destruct Hloop as [[-> ->]|(Hne & cols & -> & Hlen & Hall & H0)]; [done|].
  split; [done|]. intros _.
  destruct cols as [|c0 [|c1 [|c2 [|c3 [|c4 [|c5 [|c6 [|c7 [|c8 [|? ?]]]]]]]]]];
    try done.
  split; [reflexivity|]. split.
  - rewrite !Forall_cons in Hall.
    repeat (apply Forall_cons; split; [simpl; tauto|]). done.
  - injection H0 as ->. reflexivity.
Qed.

Lemma cell14_table_shape_witness :
  exists wcstable,
    @cell14 plain_numeric moved_tree ["ib1f19l6q_flt.fits"; "ib1f19l7q_flt.fits"]
      = Ok wcstable /\
    (["ib1f19l6q_flt.fits"; "ib1f19l7q_flt.fits"] = [] -> wcstable = []) /\
    (["ib1f19l6q_flt.fits"; "ib1f19l7q_flt.fits"] <> [] ->
       colnames wcstable = wcs_columns /\
       Forall (fun col => length col.2 = 2%nat) wcstable /\
       wcstable !! 0%nat
       = Some ("filename", [VStr "ib1f19l6q_flt.fits"; VStr "ib1f19l7q_flt.fits"])).
Proof.
  destruct (@cell14 plain_numeric moved_tree ["ib1f19l6q_flt.fits"; "ib1f19l7q_flt.fits"])
    as [t|e] eqn:E; [|by vm_compute in E].
  exists t. split; [done|].
  apply (@cell14_table_shape plain_numeric moved_tree
           ["ib1f19l6q_flt.fits"; "ib1f19l7q_flt.fits"] t E).
Defined.

(** ** Cell 12: symmetry and well-definedness of the pixel phase *)

Lemma binary_round_aux_opp prec emax s m e l :
  binary_round_aux prec emax (negb s) m e l
  = SFopp (binary_round_aux prec emax s m e l).
Proof.
  unfold binary_round_aux.
  destruct (shr_fexp prec emax m e l) as [mrs1 e1].
  destruct (shr_fexp prec emax _ e1 loc_Exact) as [mrs2 e2].
  destruct (shr_m mrs2); [done| |done].
  by destruct (e2 <=? emax - prec).
Qed.

Lemma binary_round_opp prec emax s m e :
  binary_round prec emax (negb s) m e = SFopp (binary_round prec emax s m e).
Proof.
  unfold binary_round. destruct (shl_align m e _) as [mz ez].
  apply binary_round_aux_opp.
Qed.

Lemma SFdiv_opp_l prec emax x y :
  SFdiv prec emax (SFopp x) y = SFopp (SFdiv prec emax x y).
Proof.
  destruct x as [sx|sx| |sx mx ex], y as [sy|sy| |sy my ey]; try reflexivity;
    try (destruct sx, sy; reflexivity).
  unfold SFdiv. cbn [SFopp].
  destruct (SFdiv_core_binary prec emax (Zpos mx) ex (Zpos my) ey) as [[mz ez] lz].
  rewrite <- binary_round_aux_opp. by destruct sx, sy.
Qed.

Lemma modf_frac_opp prec emax x :
  modf_frac prec emax (SFopp x) = SFopp (modf_frac prec emax x).
Proof.
  destruct x as [s|s| |s m e]; try reflexivity. cbn [SFopp modf_frac].
  destruct e as [|p|p]; try reflexivity.
  destruct (Zpos m mod 2 ^ Zpos p); try reflexivity.
  by destruct (shl_align _ _ _).
Qed.

Lemma SFabs_opp x : SFabs (SFopp x) = SFabs x.
Proof. by destruct x. Qed.

Lemma to_b16_opp x : to_b16 (SFopp x) = SFopp (to_b16 x).
Proof. destruct x; try reflexivity. apply binary_round_opp. Qed.

Lemma b64_widen_opp x : b64_widen (SFopp x) = SFopp (b64_widen x).
Proof. destruct x; try reflexivity. apply binary_round_opp. Qed.

(** X9: the pixel phase does not see the direction of a dither.  An
    offset stored as [-p] gets the same phase as the offset [p], under
    either promotion rule, and a POSTARG card [-v] is stored as the
    opposite of the card [v]. *)
Theorem pixel_phase_even `{Numeric} promo p v plate_scale :
  pixel_phase promo (SFopp p) plate_scale = pixel_phase promo p plate_scale /\
  half_of_value (VFloat (SFopp v)) = SFopp <$> half_of_value (VFloat v).
Proof.
  split; [|cbn; by rewrite to_b16_opp].
  assert (forall s, SFabs (modf_frac 11 16 (b16_div (SFopp p) (to_b16 s)))
                    = SFabs (modf_frac 11 16 (b16_div p (to_b16 s)))) as Hweak.
  { intros s. unfold b16_div. by rewrite SFdiv_opp_l, modf_frac_opp, SFabs_opp. }
  assert (forall s, to_b16 (SFabs (modf_frac 53 1024 (b64_div (b64_widen (SFopp p)) s)))
                    = to_b16 (SFabs (modf_frac 53 1024 (b64_div (b64_widen p) s)))) as Hleg.
  { intros s. unfold b64_div.
    by rewrite b64_widen_opp, SFdiv_opp_l, modf_frac_opp, SFabs_opp. }
  unfold pixel_phase.
  destruct promo, plate_scale as [t|n|s|b]; cbn [mbind result_bind py_to_float];
    try reflexivity.
  all: try (destruct (b64_of_Z n); cbn [mbind result_bind]; try reflexivity).
  all: by rewrite ?Hweak, ?Hleg.
Qed.

(** Rounding a non-negative magnitude never gives a NaN. *)
Lemma binary_round_aux_not_nan prec emax s m e l :
  0 <= m -> binary_round_aux prec emax s m e l <> S754_nan.
Proof.
  intros Hm. unfold binary_round_aux.
  destruct (shr_fexp prec emax m e l) as [mrs1 e1] eqn:E1.
  apply shr_fexp_spec in E1 as (Hle1 & Hm1 & _); [|done].
  pose proof (round_nearest_even_bounds (shr_m mrs1) (loc_of_shr_record mrs1)) as Hr.
  assert (0 <= shr_m mrs1) as Hpos1.
  { rewrite Hm1. apply Z.div_pos; [done|]. apply Z.pow_pos_nonneg; lia. }
  destruct (shr_fexp prec emax _ e1 loc_Exact) as [mrs2 e2] eqn:E2.
  apply shr_fexp_spec in E2 as (Hle2 & Hm2 & _); [|lia].
  assert (0 <= shr_m mrs2) as Hpos2.
  { rewrite Hm2. apply Z.div_pos; [lia|]. apply Z.pow_pos_nonneg; lia. }
  destruct (shr_m mrs2); [done| |lia].
  by destruct (e2 <=? emax - prec).
Qed.

Lemma binary_round_not_nan prec emax s m e :
  binary_round prec emax s m e <> S754_nan.
Proof.
  unfold binary_round. destruct (shl_align m e _) as [mz ez].
  by apply binary_round_aux_not_nan.
Qed.

Lemma SFdiv_core_binary_nonneg prec emax mx ex my ey q e l :
  SFdiv_core_binary prec emax (Zpos mx) ex (Zpos my) ey = (q, e, l) -> 0 <= q.
Proof.
  unfold SFdiv_core_binary.
  set (m' := match _ with Z0 => Zpos mx | Zpos _ => _ | Zneg _ => 0 end).
  assert (0 <= m') as Hm'.
  { subst m'. destruct (ex - ey - _); [done| |done]. by apply Z.shiftl_nonneg. }
  pose proof (Z_div_mod m' (Zpos my) ltac:(done)) as Hdm.
  destruct (Z.div_eucl m' (Zpos my)) as [q' r]. intros [= <- _ _]. nia.
Qed.

(** A number divided by a number other than zero is not a NaN. *)
Lemma SFdiv_not_nan prec emax x y :
  is_nan x = false -> finite_nonzero y = true -> is_nan (SFdiv prec emax x y) = false.
Proof.
  destruct x as [sx|sx| |sx mx ex], y as [sy|sy| |sy my ey]; try done.
  intros _ _. unfold SFdiv.
  destruct (SFdiv_core_binary prec emax (Zpos mx) ex (Zpos my) ey) as [[q e] l] eqn:E.
  apply SFdiv_core_binary_nonneg in E.
  pose proof (binary_round_aux_not_nan prec emax (xorb sx sy) q e l E) as Hn.
  by destruct (binary_round_aux _ _ _ _ _ _).
Qed.

Lemma to_b16_not_nan x : is_nan x = false -> is_nan (to_b16 x) = false.
Proof.
  destruct x as [s|s| |s m e]; try done. intros _. simpl.
  pose proof (binary_round_not_nan 11 16 s m e). by destruct (binary_round _ _ _ _ _).
Qed.

Lemma b64_widen_not_nan x : is_nan x = false -> is_nan (b64_widen x) = false.
Proof.
  destruct x as [s|s| |s m e]; try done. intros _. simpl.
  pose proof (binary_round_not_nan 53 1024 s m e). by destruct (binary_round _ _ _ _ _).
Qed.

Lemma pixel_phase_number promo p plate_scale s x :
  pixel_phase promo p plate_scale = Ok x ->
  py_to_float plate_scale = Ok s ->
  finite_nonzero s = true -> finite_nonzero (to_b16 s) = true ->
  is_nan p = false ->
  exists q, SF2Q x = Some q /\ (0 <= q)%Q /\ (q <= 1)%Q.
Proof.
  intros Hx Hs Hf Hf16 Hp.
  destruct (pixel_phase_unit _ _ _ _ Hx) as [Hnan|(Hb & Hsg & _)].
  - exfalso. destruct (pixel_phase_nan _ _ _ _ Hx Hnan) as (s' & Hs' & Hq).
    assert (s' = s) as -> by congruence.
    destruct Hq as [Hq|Hq].
    + unfold b64_div in Hq. rewrite SFdiv_not_nan in Hq; [done| |done].
      by apply b64_widen_not_nan.
    + unfold b16_div in Hq. by rewrite SFdiv_not_nan in Hq.
  - by apply unit_bounded_Q.
Qed.

Lemma cell12_entries `{Numeric} promo junk root flt_files d i phase :
  cell12 promo junk root flt_files = Ok d ->
  d_x_phase d !! i = Some phase \/ d_y_phase d !! i = Some phase ->
  exists p, (d_postarg1 d !! i = Some p \/ d_postarg2 d !! i = Some p) /\
    pixel_phase promo p (d_plate_scale d) = Ok phase.
Proof.
  unfold cell12.
  intros (first & _ & H1)%bind_ok_inv Hphase.
  apply bind_ok_inv in H1 as (plate_scale & _ & H1).
  apply bind_ok_inv in H1 as (_ & _ & H1).
  apply phase_loop in H1 as (Hs & _ & _ & L3 & L4 & _ & Hall).
  cbn [d_plate_scale d_x_phase d_y_phase] in *.
  unfold np_empty in L3, L4. rewrite length_fmap, length_seq in L3, L4.
  assert (i < length flt_files)%nat as Hi.
  { destruct Hphase as [Hp|Hp]; apply lookup_lt_Some in Hp; lia. }
  destruct (lookup_lt_is_Some_2 flt_files i Hi) as [im Him].
  destruct (Hall i im Him)
    as (h1 & h2 & x & y & (v1 & v2 & _ & _ & _ & _ & Hx & Hy) & G1 & G2 & Gx & Gy).
  simpl in G1, G2, Gx, Gy. rewrite Hs.
  destruct Hphase as [Hp|Hp]; [exists h1|exists h2]; split; auto; congruence.
Qed.

(** X10: when the pixel phases are numbers.  If the plate scale is a
    number other than zero, also once rounded to binary16, and no stored
    POSTARG is a NaN, then every pixel phase that cell 12 computes is a
    number in the closed interval [0, 1]: none of them is a NaN. *)
Theorem cell12_phases_are_numbers `{Numeric} promo junk root flt_files d s :
  cell12 promo junk root flt_files = Ok d ->
  py_to_float (d_plate_scale d) = Ok s ->
  finite_nonzero s = true -> finite_nonzero (to_b16 s) = true ->
  (forall i p, d_postarg1 d !! i = Some p \/ d_postarg2 d !! i = Some p ->
     is_nan p = false) ->
  forall i phase,
    d_x_phase d !! i = Some phase \/ d_y_phase d !! i = Some phase ->
    exists q, SF2Q phase = Some q /\ (0 <= q)%Q /\ (q <= 1)%Q.
Proof.
  intros Hrun Hs Hf Hf16 Hpost i phase Hphase.
  destruct (cell12_entries _ _ _ _ _ _ _ Hrun Hphase) as (p & Hp & Hx).
  eapply pixel_phase_number; eauto.
Qed.


Lemma cell12_phases_are_numbers_witness :
  exists d phase,
    @cell12 plain_numeric Weak zero_junk moved_tree
      ["ib1f19l6q_flt.fits"; "ib1f19l7q_flt.fits"] = Ok d /\
    d_y_phase d !! 1%nat = Some phase /\
    exists q, SF2Q phase = Some q /\ (0 <= q)%Q /\ (q <= 1)%Q.
Proof.
  destruct (@cell12 plain_numeric Weak zero_junk moved_tree
              ["ib1f19l6q_flt.fits"; "ib1f19l7q_flt.fits"]) as [d|e] eqn:E;
    [|by vm_compute in E].
  pose proof E as E'. vm_compute in E'. injection E' as <-.
  eexists _, _. split; [reflexivity|]. split; [reflexivity|].
  refine (@cell12_phases_are_numbers plain_numeric Weak zero_junk moved_tree
            ["ib1f19l6q_flt.fits"; "ib1f19l7q_flt.fits"] _ ir_idcscale E
            _ _ _ _ 1%nat _ _).
  - reflexivity.
  - reflexivity.
  - reflexivity.
  - intros [|[|i]] p [Hp|Hp].
    + vm_compute in Hp. injection Hp as <-. reflexivity.
    + vm_compute in Hp. injection Hp as <-. reflexivity.
    + vm_compute in Hp. injection Hp as <-. reflexivity.
    + vm_compute in Hp. injection Hp as <-. reflexivity.
    + vm_compute in Hp. discriminate.
    + vm_compute in Hp. discriminate.
  - right. reflexivity.
Defined.

(** ** Cell 12 under the NumPy 2 rules: the phase is an exact fraction *)

Lemma SF2Q_abs x f :
  SF2Q x = Some f -> exists f', SF2Q (SFabs x) = Some f' /\ (f' == Qabs f)%Q.
Proof.
  destruct x as [s|s| |s m e]; try done; intros [= <-].
  - by exists 0%Q.
  - eexists; split; [reflexivity|].
    unfold Fval, SFabs. destruct e as [|p|p], s; unfold Qabs, Qeq, inject_Z; simpl; try lia.
    all: rewrite ?Z.abs_opp; try lia.
Qed.

(** X11: under the NumPy 2 promotion rule the stored pixel phase is
    exact.  When the binary16 quotient of the offset by the plate scale is
    a number [v], the phase is the absolute value of [v] minus its
    truncation toward zero, with no further rounding. *)
Theorem weak_phase_is_exact_fraction p plate_scale s x sg m e :
  pixel_phase Weak p plate_scale = Ok x ->
  py_to_float plate_scale = Ok s ->
  b16_div p (to_b16 s) = S754_finite sg m e ->
  exists q, SF2Q x = Some q /\
    (q == Qabs (Fval sg m e - Qtrunc (Fval sg m e)))%Q.
Proof.
  intros Hx Hs Hq. unfold pixel_phase in Hx. rewrite Hs in Hx.
  cbn [mbind result_bind] in Hx. injection Hx as <-. rewrite Hq.
  destruct (modf_frac_value 11 16 sg m e) as (f & Hf & Hfv).
  destruct (SF2Q_abs _ _ Hf) as (f' & Hf' & Hfa).
  exists f'. split; [done|]. by rewrite Hfa, Hfv.
Qed.

Lemma weak_phase_is_exact_fraction_witness :
  exists q, SF2Q (S754_finite false 1716 (-12)) = Some q /\
    (q == Qabs (Fval false 1453 (-10) - Qtrunc (Fval false 1453 (-10))))%Q.
Proof.
  apply (weak_phase_is_exact_fraction (S754_finite false 1491 (-13))
           (VFloat ir_idcscale) ir_idcscale (S754_finite false 1716 (-12))
           false 1453 (-10)).
  - vm_compute. reflexivity.
  - reflexivity.
  - vm_compute. reflexivity.
Defined.

(** ** Cells 18 to 21: the recommended parameters and the calls they go into *)

Lemma ok_not_raise {A} (a : A) e : Ok a = Raise e -> False.
Proof. discriminate. Qed.

Lemma request_loop_inv (d : gmap string value) (kw_list : list string) :
  forall (m0 : gmap string value) (out0 : list printed) m out,
  for_each (request_one d) kw_list (m0, out0) = Ok (m, out) ->
  (forall k, k ∈ kw_list -> is_Some (d !! k)) /\
  (forall k, m !! k = if decide (k ∈ kw_list) then d !! k else m0 !! k) /\
  Forall2 (fun k line => exists v, d !! k = Some v /\ line = PKeyVal k v)
    kw_list (drop (length out0) out) /\
  take (length out0) out = out0.
Proof.
  induction kw_list as [|k0 ks IH]; intros m0 out0 m out Hrun.
  - injection Hrun as <- <-. split; [by intros k ?%elem_of_nil|]. split.
    + intros k. case_decide as Hk; [by apply elem_of_nil in Hk|done].
    + rewrite drop_all, firstn_all. by split; [constructor|].
  - cbn [for_each] in Hrun. apply bind_ok_inv in Hrun as ([m1 out1] & Hstep & Hrun).
    unfold request_one in Hstep.
    apply bind_ok_inv in Hstep as (v & Hv%of_option_inv & [= <- <-]).
    apply IH in Hrun as (Hall & Hm & Hout & Htake).
    rewrite length_app in Hout, Htake. simpl in Hout, Htake.
    assert (out = out0 ++ PKeyVal k0 v :: drop (length out0 + 1) out) as Hsplit.
    { rewrite <- (take_drop (length out0 + 1) out) at 1.
      rewrite Htake, <- app_assoc. done. }
    split; [|split; [|split]].
    + intros k [->|Hk]%elem_of_cons; [by eexists|by apply Hall].
    + intros k. rewrite Hm.
      destruct (decide (k ∈ ks)) as [Hin|Hnin].
      * rewrite decide_True; [done|by right].
      * destruct (decide (k = k0)) as [->|Hne].
        -- rewrite decide_True; [|by left]. by rewrite lookup_insert_eq.
        -- rewrite decide_False.
           ++ by rewrite lookup_insert_ne.
           ++ intros [?|?]%elem_of_cons; done.
    + rewrite Hsplit at 1. rewrite drop_app_length. constructor; [by exists v|done].
    + rewrite Hsplit. by rewrite take_app_length.
Qed.

Lemma get_vals_out_inv `{Drizzlepac} input_images kw_list sp :
  get_vals_from_mdriztab input_images kw_list = Ok sp ->
  exists mdriz_dict out,
    getMdriztabPars input_images = Ok mdriz_dict /\
    for_each (request_one mdriz_dict) kw_list
      (∅, [PText "Outputting the following parameters:"]) = Ok (sp, out).
Proof.
  unfold get_vals_from_mdriztab, get_vals_from_mdriztab_out.
  destruct (getMdriztabPars input_images) as [d|e]; [|done].
  cbn [mbind result_bind].
  destruct (for_each _ _ _) as [[m out]|e] eqn:E; [|done].
  intros [= <-]. by exists d, out.
Qed.

(** X12: the recommended parameters and the keywords of the drizzle
    calls.  The dictionary that [get_vals_from_mdriztab] returns has the
    requested keywords as its keys, so unpacking it into a call raises
    [TypeError] exactly when a requested keyword is also written out in the
    call.  With the default keyword list none of the three calls of the
    notebook is refused. *)
Theorem selected_params_fit_the_calls `{Drizzlepac} input_images kw_list sp :
  get_vals_from_mdriztab input_images kw_list = Ok sp ->
  (forall named,
     unpack_keywords named sp = Ok tt <-> forall k, k ∈ kw_list -> k ∉ named) /\
  (forall named,
     unpack_keywords named sp = Raise TypeError <-> exists k, k ∈ kw_list /\ k ∈ named) /\
  (kw_list = default_kw_list ->
     Forall (fun named => unpack_keywords named sp = Ok tt)
       [noopt_keywords; opt_keywords; sweep_keywords]).
Proof.
  intros (d & out & _ & Hloop)%get_vals_out_inv.
  apply request_loop_inv in Hloop as (Hall & Hm & _).
  assert (forall k, is_Some (sp !! k) <-> k ∈ kw_list) as Hdom.
  { intros k. rewrite Hm. case_decide as Hk.
    - split; [done|]. intros _. by apply Hall.
    - rewrite lookup_empty. split; [by intros [? ?]|done]. }
  assert (forall named,
            existsb (fun k => bool_decide (is_Some (sp !! k))) named = true <->
            exists k, k ∈ kw_list /\ k ∈ named) as Hex.
  { intros named. rewrite existsb_exists. split.
    - intros (k & Hk%list_elem_of_In & Hs%bool_decide_eq_true). exists k.
      split; [by apply Hdom|done].
    - intros (k & Hk & Hn). exists k. split; [by apply list_elem_of_In|].
      apply bool_decide_eq_true. by apply Hdom. }
  assert (forall named,
            unpack_keywords named sp = Ok tt <-> forall k, k ∈ kw_list -> k ∉ named) as H1.
  { intros named. unfold unpack_keywords.
    destruct (existsb _ named) eqn:E.
    - apply Hex in E as (k & Hk & Hn). split; [done|]. intros Hno.
      by destruct (Hno k Hk).
    - split; [|done]. intros _ k Hk Hn.
      assert (existsb (fun k => bool_decide (is_Some (sp !! k))) named = true) as E'
        by (apply Hex; by exists k).
      congruence. }
  split; [exact H1|]. split.
  - intros named. unfold unpack_keywords. rewrite <- Hex.
    by destruct (existsb _ named).
  - intros ->.
    assert (forall named,
              forallb (fun k => negb (existsb (String.eqb k) named)) default_kw_list = true ->
              unpack_keywords named sp = Ok tt) as Hok.
    { intros named Hf. apply H1. intros k Hk%list_elem_of_In Hn%list_elem_of_In.
      rewrite forallb_forall in Hf. apply Hf, negb_true_iff in Hk.
      assert (existsb (String.eqb k) named = true) as Hex'; [|congruence].
      apply existsb_exists. exists k. split; [done|apply String.eqb_refl]. }
    repeat (apply Forall_cons; split; [by apply Hok|]). constructor.
Qed.

Lemma selected_params_fit_the_calls_witness :
  exists sp,
    @get_vals_from_mdriztab example_drizzlepac ["a_flt.fits"] default_kw_list = Ok sp /\
    (forall named,
       unpack_keywords named sp = Ok tt <->
       forall k, k ∈ default_kw_list -> k ∉ named) /\
    (forall named,
       unpack_keywords named sp = Raise TypeError <->
       exists k, k ∈ default_kw_list /\ k ∈ named) /\
    (default_kw_list = default_kw_list ->
       Forall (fun named => unpack_keywords named sp = Ok tt)
         [noopt_keywords; opt_keywords; sweep_keywords]).
Proof.
  destruct (@get_vals_from_mdriztab example_drizzlepac ["a_flt.fits"] default_kw_list)
    as [sp|e] eqn:E.
  - exists sp. split; [reflexivity|].
    apply (@selected_params_fit_the_calls example_drizzlepac
             ["a_flt.fits"] default_kw_list sp E).
  - exfalso. vm_compute in E. exact (ok_not_raise _ _ E).
Defined.

Lemma for_each_app {A S} (body : S -> A -> result S) xs ys s :
  for_each body (xs ++ ys) s = for_each body xs s ≫= for_each body ys.
Proof.
  revert s. induction xs as [|x xs IH]; intros s; [done|].
  cbn [app for_each]. destruct (body s x) as [s1|e]; [|done].
  cbn [mbind result_bind]. apply IH.
Qed.

(** X13: what [get_vals_from_mdriztab] prints.  When it returns, its
    output is the heading followed by one line per requested keyword, in
    the order of the request, each with the value of the MDRIZTAB
    dictionary for that keyword. *)
Theorem get_vals_prints_each_keyword `{Drizzlepac} input_images kw_list sp out :
  get_vals_from_mdriztab_out input_images kw_list = Ok (sp, out) ->
  exists mdriz_dict lines,
    getMdriztabPars input_images = Ok mdriz_dict /\
    out = PText "Outputting the following parameters:" :: lines /\
    Forall2 (fun k line => exists v, mdriz_dict !! k = Some v /\ line = PKeyVal k v)
      kw_list lines.
Proof.
  unfold get_vals_from_mdriztab_out.
  destruct (getMdriztabPars input_images) as [d|e]; [|done].
  cbn [mbind result_bind]. intros Hloop.
  apply request_loop_inv in Hloop as (_ & _ & Hout & Htake).
  exists d, (drop 1 out). split; [done|]. split; [|exact Hout].
  rewrite <- (take_drop 1 out) at 1. simpl in Htake. by rewrite Htake.
Qed.

Lemma get_vals_prints_each_keyword_witness :
  exists sp out mdriz_dict lines,
    @get_vals_from_mdriztab_out example_drizzlepac ["a_flt.fits"] default_kw_list
      = Ok (sp, out) /\
    @getMdriztabPars example_drizzlepac ["a_flt.fits"] = Ok mdriz_dict /\
    out = PText "Outputting the following parameters:" :: lines /\
    Forall2 (fun k line => exists v, mdriz_dict !! k = Some v /\ line = PKeyVal k v)
      default_kw_list lines.
Proof.
  destruct (@get_vals_from_mdriztab_out example_drizzlepac ["a_flt.fits"] default_kw_list)
    as [[sp out]|e] eqn:E.
  - exists sp, out.
    destruct (@get_vals_prints_each_keyword example_drizzlepac
                ["a_flt.fits"] default_kw_list sp out E) as (d & lines & H1 & H2 & H3).
    exists d, lines. split; [reflexivity|]. split; [exact H1|]. split; [exact H2|exact H3].
  - exfalso. vm_compute in E. exact (ok_not_raise _ _ E).
Defined.

(** X14: a keyword that the MDRIZTAB dictionary lacks.  The function
    raises [KeyError] for the first requested keyword that is not a key
    of the dictionary, whatever follows it in the request, and returns no
    mapping. *)
Theorem get_vals_first_missing_keyword `{Drizzlepac}
    input_images (pre : list string) k (post : list string) mdriz_dict :
  getMdriztabPars input_images = Ok mdriz_dict ->
  (forall k', k' ∈ pre -> is_Some (mdriz_dict !! k')) ->
  mdriz_dict !! k = None ->
  get_vals_from_mdriztab input_images (pre ++ k :: post) = Raise (KeyError (VStr k)).
Proof.
  intros Hd Hpre Hk. unfold get_vals_from_mdriztab, get_vals_from_mdriztab_out.
  rewrite Hd. cbn [mbind result_bind]. rewrite for_each_app.
  destruct (request_loop_ok mdriz_dict pre ∅
              [PText "Outputting the following parameters:"] Hpre)
    as (m & out & -> & _).
  cbn [mbind result_bind for_each request_one]. by rewrite Hk.
Qed.

Lemma get_vals_first_missing_keyword_witness :
  @get_vals_from_mdriztab example_drizzlepac ["a_flt.fits"]
    (["driz_sep_bits"; "combine_type"] ++ "final_scale" :: ["final_bits"])
  = Raise (KeyError (VStr "final_scale")).
Proof.
  apply (@get_vals_first_missing_keyword example_drizzlepac ["a_flt.fits"]
           ["driz_sep_bits"; "combine_type"] "final_scale" ["final_bits"]
           example_mdriz_dict).
  - reflexivity.
  - intros k' Hk'.
    apply elem_of_cons in Hk' as [->|Hk']; [by vm_compute; eexists|].
    apply elem_of_cons in Hk' as [->|Hk']; [by vm_compute; eexists|].
    by apply elem_of_nil in Hk'.
  - reflexivity.
Defined.

(** ** Cells 21 to 34: the drizzle products and the evaluation *)

Lemma nth_pixfrac_call `{Drizzlepac} flt_files selected_params i x :
  pixfracs !! i = Some x ->
  sweep_call flt_files selected_params x
  ∈ sweep_call flt_files selected_params <$> pixfracs.
Proof.
  intros Hx. apply list_elem_of_fmap. exists x. split; [reflexivity|].
  apply list_elem_of_lookup. exists i. exact Hx.
Qed.

Lemma sweep_product_names flt_files selected_params :
  product_name <$> (sweep_call flt_files selected_params <$> pixfracs)
  = ["f160w_0.1_drz.fits"; "f160w_0.2_drz.fits"; "f160w_0.3_drz.fits";
     "f160w_0.4_drz.fits"; "f160w_0.5_drz.fits"; "f160w_0.6_drz.fits";
     "f160w_0.7_drz.fits"; "f160w_0.8_drz.fits"; "f160w_0.9_drz.fits";
     "f160w_1.0_drz.fits"].
Proof.
  rewrite <- list_fmap_compose.
  change (product_name ∘ sweep_call flt_files selected_params)
    with (fun x => outname x +:+ "_drz.fits").
  vm_compute. reflexivity.
Qed.

(** X15: the reference images outlast the sweep.  When cell 21 and then
    the sweep of cell 29 complete, the two products of cell 21 are in the
    working directory exactly as cell 21 wrote them, and the three files
    that cell 31 opens are there as files. *)
Theorem sweep_keeps_reference_products `{Drizzlepac}
    flt_files selected_params es root1 root2 :
  cell21 flt_files selected_params (Dir es) = Ok root1 ->
  cell29 flt_files selected_params root1 = Ok root2 ->
  exists es1 es2, root1 = Dir es1 /\ root2 = Dir es2 /\
    (forall name, name ∈ reference_products ->
       exists c, dir_lookup name es1 = Some (File c) /\
                 dir_lookup name es2 = Some (File c)) /\
    (forall name, name ∈ cell31_files ->
       exists c, dir_lookup name es2 = Some (File c)).
Proof.
  unfold cell21, cell29. intros H1 H2.
  assert (for_each AstroDrizzle
            [noopt_call flt_files selected_params; opt_call flt_files selected_params]
            (Dir es) = Ok root1) as H1'.
  { apply bind_ok_inv in H1 as (r1 & Ha & Hb).
    unfold drizzle_step in Ha, Hb.
    apply bind_ok_inv in Ha as (_ & _ & Ha). apply bind_ok_inv in Hb as (_ & _ & Hb).
    cbn [for_each]. rewrite Ha. cbn [mbind result_bind]. rewrite Hb. reflexivity. }
  clear H1. rename H1' into H1. apply drizzle_steps_run in H2.
  apply sweep_products in H1 as (es1 & -> & Hp1 & _).
  2:{ apply (@bool_decide_unpack _ (NoDup_dec _)). vm_compute. exact I. }
  pose proof (sweep_product_names flt_files selected_params) as Hnames.
  apply sweep_products in H2 as (es2 & -> & Hp2 & Hfr2).
  2:{ rewrite Hnames. apply (@bool_decide_unpack _ (NoDup_dec _)). vm_compute. exact I. }
  exists es1, es2. split; [reflexivity|]. split; [reflexivity|]. split.
  - intros name Hname.
    assert (exists call,
              call ∈ [noopt_call flt_files selected_params;
                      opt_call flt_files selected_params] /\
              product_name call = name) as (call & Hcall & <-).
    { apply elem_of_cons in Hname as [->|Hname].
      - eexists. split; [apply list_elem_of_here|reflexivity].
      - apply elem_of_cons in Hname as [->|Hname]; [|apply elem_of_nil in Hname; destruct Hname].
        eexists. split; [apply list_elem_of_further, list_elem_of_here|reflexivity]. }
    destruct (Hp1 call Hcall) as (root_i & c & _ & Hc).
    exists c. split; [exact Hc|]. rewrite Hfr2; [exact Hc|].
    rewrite Hnames.
    apply elem_of_cons in Hcall as [->|Hcall];
      [|apply elem_of_cons in Hcall as [->|Hcall]; [|apply elem_of_nil in Hcall; destruct Hcall]].
    all: intros Hin%list_elem_of_In; simpl in Hin;
      repeat (destruct Hin as [Hin|Hin]; [discriminate Hin|]); exact Hin.
  - intros name Hname.
    assert (exists i x, pixfracs !! i = Some x /\
              product_name (sweep_call flt_files selected_params x) = name)
      as (i & x & Hx & <-).
    { apply elem_of_cons in Hname as [->|Hname]; [exists 0%nat|].
      2: apply elem_of_cons in Hname as [->|Hname]; [exists 7%nat|].
      3: apply elem_of_cons in Hname as [->|Hname];
           [exists 9%nat|apply elem_of_nil in Hname; destruct Hname].
      all: eexists; split; [vm_compute; reflexivity|vm_compute; reflexivity]. }
    destruct (Hp2 _ (nth_pixfrac_call flt_files selected_params i x Hx))
      as (root_i & c & _ & Hc).
    exists c. exact Hc.
Qed.

Lemma sweep_keeps_reference_products_witness :
  exists root1 root2 es1 es2,
    @cell21 example_drizzlepac ["ib1f19l6q_flt.fits"; "ib1f19l7q_flt.fits"]
      example_mdriz_dict moved_tree = Ok root1 /\
    @cell29 example_drizzlepac ["ib1f19l6q_flt.fits"; "ib1f19l7q_flt.fits"]
      example_mdriz_dict root1 = Ok root2 /\
    root1 = Dir es1 /\ root2 = Dir es2 /\
    (forall name, name ∈ reference_products ->
       exists c, dir_lookup name es1 = Some (File c) /\
                 dir_lookup name es2 = Some (File c)) /\
    (forall name, name ∈ cell31_files ->
       exists c, dir_lookup name es2 = Some (File c)).
Proof.
  destruct (@cell21 example_drizzlepac ["ib1f19l6q_flt.fits"; "ib1f19l7q_flt.fits"]
              example_mdriz_dict moved_tree) as [root1|e] eqn:E1;
    [|exfalso; vm_compute in E1; exact (ok_not_raise _ _ E1)].
  destruct (@cell29 example_drizzlepac ["ib1f19l6q_flt.fits"; "ib1f19l7q_flt.fits"]
              example_mdriz_dict root1) as [root2|e] eqn:E2.
  - destruct (@sweep_keeps_reference_products example_drizzlepac
                ["ib1f19l6q_flt.fits"; "ib1f19l7q_flt.fits"] example_mdriz_dict
                moved_entries root1 root2 E1 E2) as (es1 & es2 & H1 & H2 & H3 & H4).
    exists root1, root2, es1, es2.
    split; [reflexivity|]. split; [exact E2|].
    split; [exact H1|]. split; [exact H2|]. split; [exact H3|exact H4].
  - exfalso. vm_compute in E1. injection E1 as <-.
    vm_compute in E2. exact (ok_not_raise _ _ E2).
Defined.

Lemma dir_put_names name x es :
  (dir_put name x es).*1
  = if bool_decide (name ∈ es.*1) then es.*1 else es.*1 ++ [name].
Proof.
  induction es as [|[n y] es IH]; [done|].
  cbn [dir_put]. destruct (String.eqb n name) eqn:E.
  - apply String.eqb_eq in E as ->. cbn [fmap list_fmap fst].
    rewrite bool_decide_eq_true_2; [done|]. apply list_elem_of_here.
  - apply String.eqb_neq in E. cbn [fmap list_fmap fst].
    change (list_fmap _ _ fst ?l) with (l.*1). rewrite IH.
    destruct (bool_decide (name ∈ es.*1)) eqn:B.
    + apply bool_decide_eq_true in B. rewrite bool_decide_eq_true_2; [done|].
      by apply list_elem_of_further.
    + apply bool_decide_eq_false in B. rewrite bool_decide_eq_false_2; [done|].
      intros [?|?]%elem_of_cons; [congruence|done].
Qed.

Lemma filter_none {A} (P : A -> bool) l :
  (forall x, x ∈ l -> P x = false) -> List.filter P l = [].
Proof.
  induction l as [|x l IH]; intros Hl; [done|]. simpl.
  rewrite (Hl x) by apply list_elem_of_here.
  apply IH. intros y Hy. apply Hl. by apply list_elem_of_further.
Qed.

(** The names that a pattern selects after a series of drizzle runs:
    those it selected before, then the new products it matches. *)
Lemma sweep_selected_names `{Drizzlepac} (P : string -> bool) calls : forall es root',
  NoDup (product_name <$> calls) ->
  (forall call, call ∈ calls -> P (product_name call) = true ->
     product_name call ∉ es.*1) ->
  for_each AstroDrizzle calls (Dir es) = Ok root' ->
  exists es', root' = Dir es' /\
    List.filter P es'.*1 = List.filter P es.*1 ++ List.filter P (product_name <$> calls).
Proof.
  induction calls as [|call calls IH]; intros es root' Hnd Hnew Hrun.
  - injection Hrun as <-. exists es. split; [reflexivity|]. by rewrite app_nil_r.
  - cbn [for_each] in Hrun. apply bind_ok_inv in Hrun as (root1 & Hstep & Hrun).
    apply astrodrizzle_inv in Hstep as (c & Hc & ->).
    rewrite fmap_cons in Hnd. apply NoDup_cons in Hnd as [Hnin Hnd].
    apply IH in Hrun as (es' & -> & Hsel); [|exact Hnd|].
    + exists es'. split; [reflexivity|]. rewrite Hsel, dir_put_names.
      rewrite fmap_cons. cbn [List.filter].
      destruct (bool_decide (product_name call ∈ es.*1)) eqn:B.
      * apply bool_decide_eq_true in B.
        destruct (P (product_name call)) eqn:EP; [|reflexivity].
        destruct (Hnew call (list_elem_of_here _ _) EP B).
      * rewrite List.filter_app. cbn [List.filter].
        destruct (P (product_name call)); [|by rewrite app_nil_r].
        by rewrite <- app_assoc.
    + intros call' Hin HP. rewrite dir_put_names.
      assert (product_name call' ∉ es.*1) as Hnot
        by (apply Hnew; [by apply list_elem_of_further|exact HP]).
      assert (product_name call' <> product_name call) as Hne.
      { intros Heq. apply Hnin. rewrite <- Heq.
        apply list_elem_of_fmap. by exists call'. }
      destruct (bool_decide (product_name call ∈ es.*1)); [exact Hnot|].
      intros [?|Hin']%elem_of_app; [done|].
      apply list_elem_of_singleton in Hin'. done.
Qed.

(** X16: the sweep feeds the evaluation.  When the sweep completes in a
    directory that held no file matching ['f160w_0.[0-9]*drz.fits'], the
    list [whtlist] of cell 34 consists of the nine products for pixfrac
    0.1 to 0.9, each once. *)
Theorem sweep_then_whtlist `{Drizzlepac} flt_files selected_params es root' :
  cell29 flt_files selected_params (Dir es) = Ok root' ->
  (forall n, n ∈ es.*1 -> component_matches sweep_pattern n = false) ->
  join_path <$> glob sweep_pattern root' ≡ₚ
    ["f160w_0.1_drz.fits"; "f160w_0.2_drz.fits"; "f160w_0.3_drz.fits";
     "f160w_0.4_drz.fits"; "f160w_0.5_drz.fits"; "f160w_0.6_drz.fits";
     "f160w_0.7_drz.fits"; "f160w_0.8_drz.fits"; "f160w_0.9_drz.fits"].
Proof.
  unfold cell29. intros Hrun%drizzle_steps_run Hnone.
  pose proof (sweep_product_names flt_files selected_params) as Hnames.
  apply (sweep_selected_names (component_matches sweep_pattern)) in Hrun
    as (es' & -> & Hsel).
  - unfold glob. change (split_on "/" sweep_pattern) with [sweep_pattern].
    rewrite glob_names by reflexivity.
    rewrite Hsel, Hnames, (filter_none _ _ Hnone). reflexivity.
  - rewrite Hnames. apply (@bool_decide_unpack _ (NoDup_dec _)). vm_compute. exact I.
  - intros call Hcall HP Hin. apply Hnone in Hin. congruence.
Qed.

Lemma sweep_then_whtlist_witness :
  exists root',
    @cell29 example_drizzlepac ["ib1f19l6q_flt.fits"; "ib1f19l7q_flt.fits"]
      example_mdriz_dict moved_tree = Ok root' /\
    join_path <$> glob sweep_pattern root' ≡ₚ
      ["f160w_0.1_drz.fits"; "f160w_0.2_drz.fits"; "f160w_0.3_drz.fits";
       "f160w_0.4_drz.fits"; "f160w_0.5_drz.fits"; "f160w_0.6_drz.fits";
       "f160w_0.7_drz.fits"; "f160w_0.8_drz.fits"; "f160w_0.9_drz.fits"].
Proof.
  destruct (@cell29 example_drizzlepac ["ib1f19l6q_flt.fits"; "ib1f19l7q_flt.fits"]
              example_mdriz_dict moved_tree) as [root'|e] eqn:E;
    [|exfalso; vm_compute in E; exact (ok_not_raise _ _ E)].
  exists root'. split; [reflexivity|].
  apply (@sweep_then_whtlist example_drizzlepac
           ["ib1f19l6q_flt.fits"; "ib1f19l7q_flt.fits"] example_mdriz_dict
           moved_entries root' E).
  intros n Hn%list_elem_of_In. simpl in Hn.
  destruct Hn as [<-|[<-|[<-|[]]]]; reflexivity.
Defined.

(** ** Cell 34: what the evaluation plots *)

Lemma weight_step_first `{Numeric} root ylims xlims st im st' :
  weight_step root ylims xlims st (0%nat, im) = Ok st' ->
  exists hdus hdu0 target scale nimg,
    fits_open im root = Ok hdus /\ hdus !! 0%nat = Some hdu0 /\
    header_get "TARGNAME" (hdu_header hdu0) = Ok target /\
    header_get "D001SCAL" (hdu_header hdu0) = Ok scale /\
    header_get "NDRIZIM" (hdu_header hdu0) = Ok nimg /\
    ev_info st' = Some (target, scale, nimg).
Proof.
  unfold weight_step.
  intros (hdus & Hopen & H1)%bind_ok_inv.
  apply bind_ok_inv in H1 as (hdu0 & Hhdu0%of_option_inv & H1).
  apply bind_ok_inv in H1 as (hdu2 & _ & H1).
  apply bind_ok_inv in H1 as (info & Hinfo & H1).
  apply bind_ok_inv in H1 as (wht & _ & H1).
  apply bind_ok_inv in H1 as (std_med & _ & H1).
  apply bind_ok_inv in H1 as (pixf & _ & H1).
  apply bind_ok_inv in H1 as (frac & _ & H1).
  apply bind_ok_inv in H1 as (fraclist & _ & [= <-]).
  cbn in Hinfo.
  apply bind_ok_inv in Hinfo as (target & Ht & Hinfo).
  apply bind_ok_inv in Hinfo as (scale & Hs & Hinfo).
  apply bind_ok_inv in Hinfo as (nimg & Hn & [= <-]).
  by exists hdus, hdu0, target, scale, nimg.
Qed.

Lemma weight_loop_info `{Numeric} root ylims xlims files : forall k st d,
  for_each (weight_step root ylims xlims) (enumerate_from (S k) files) st = Ok d ->
  ev_info d = ev_info st.
Proof.
  induction files as [|im files IH]; intros k st d Hrun.
  - by injection Hrun as <-.
  - cbn [enumerate_from for_each] in Hrun.
    apply bind_ok_inv in Hrun as (st1 & Hstep & Hrun).
    apply weight_step_inv in Hstep as (_ & _ & _ & _ & _ & _ & _ & _ & Hkeep).
    rewrite (IH _ _ _ Hrun). by apply Hkeep.
Qed.

(** X17: the labels of the evaluation plot.  With no file matching the
    pattern, cell 34 stops with [NameError]: [target] was never bound.
    When the cell completes, the list is not empty and the three labels
    are the TARGNAME, D001SCAL and NDRIZIM cards of the primary header of
    the first file of the list. *)
Theorem evaluation_labels_from_first_file `{Numeric} junk ylims xlims root :
  (glob sweep_pattern root = [] ->
   cell34 junk ylims xlims root = Raise (NameError "target")) /\
  (forall whtlist ev,
     cell34 junk ylims xlims root = Ok (whtlist, ev) ->
     exists first hdus hdu0 target scale nimg,
       whtlist !! 0%nat = Some first /\
       fits_open first root = Ok hdus /\ hdus !! 0%nat = Some hdu0 /\
       header_get "TARGNAME" (hdu_header hdu0) = Ok target /\
       header_get "D001SCAL" (hdu_header hdu0) = Ok scale /\
       header_get "NDRIZIM" (hdu_header hdu0) = Ok nimg /\
       ev_info ev = Some (target, scale, nimg)).
Proof.
  split.
  - intros Hnone. unfold cell34. rewrite Hnone. reflexivity.
  - intros whtlist ev. unfold cell34.
    intros (ev' & Hloop & E)%bind_ok_inv.
    apply bind_ok_inv in E as (info & Hinfo%of_option_inv & [= <- <-]).
    destruct (join_path <$> glob sweep_pattern root) as [|first rest].
    { injection Hloop as <-. discriminate Hinfo. }
    unfold enumerate in Hloop. cbn [enumerate_from for_each] in Hloop.
    apply bind_ok_inv in Hloop as (st1 & Hstep & Hloop).
    apply weight_loop_info in Hloop.
    apply weight_step_first in Hstep
      as (hdus & hdu0 & target & scale & nimg & ? & ? & ? & ? & ? & Hi).
    exists first, hdus, hdu0, target, scale, nimg.
    repeat (split; [done|]). congruence.
Qed.

(** X18: the points of the evaluation plot.  When cell 34 completes,
    the [i]-th element of [fraclist] is the D001PIXF card of the primary
    header of the [i]-th file of the list, as a float, and the [i]-th
    element of [std_med] is the statistic of the weight image of that same
    file. *)
Theorem evaluation_points_pair_up `{Numeric} junk ylims xlims root whtlist ev :
  cell34 junk ylims xlims root = Ok (whtlist, ev) ->
  length (ev_fraclist ev) = length whtlist /\
  forall i im, whtlist !! i = Some im ->
    exists hdus hdu0 hdu2 wht pixf frac,
      fits_open im root = Ok hdus /\
      hdus !! 0%nat = Some hdu0 /\
      header_get "D001PIXF" (hdu_header hdu0) = Ok pixf /\
      double_of_value pixf = Ok frac /\
      ev_fraclist ev !! i = Some frac /\
      hdus !! 2%nat = Some hdu2 /\ hdu_data hdu2 = Some wht /\
      ev_std_med ev !! i = Some (rms_over_median wht ylims xlims).
Proof.
  intros (_ & _ & L2 & Hall)%cell34_inv. split; [done|].
  intros i im Him.
  destruct (Hall i im Him)
    as (ratio & frac & (hdus & hdu0 & hdu2 & wht & pixf & ? & ? & ? & ? & -> & ? & ?) & ? & ?).
  by exists hdus, hdu0, hdu2, wht, pixf, frac.
Qed.

Lemma evaluation_labels_from_first_file_witness :
  @cell34 plain_numeric zero_junk (930, 980) (825, 875) moved_tree
    = Raise (NameError "target") /\
  exists root whtlist ev first hdus hdu0 target scale nimg,
    swept_tree = Ok root /\
    @cell34 plain_numeric zero_junk (930, 980) (825, 875) root = Ok (whtlist, ev) /\
    whtlist !! 0%nat = Some first /\
    fits_open first root = Ok hdus /\ hdus !! 0%nat = Some hdu0 /\
    header_get "TARGNAME" (hdu_header hdu0) = Ok target /\
    header_get "D001SCAL" (hdu_header hdu0) = Ok scale /\
    header_get "NDRIZIM" (hdu_header hdu0) = Ok nimg /\
    ev_info ev = Some (target, scale, nimg).
Proof.
  split.
  - apply (proj1 (@evaluation_labels_from_first_file plain_numeric zero_junk
                    (930, 980) (825, 875) moved_tree)).
    reflexivity.
  - destruct swept_tree as [root|e] eqn:E;
      [|exfalso; vm_compute in E; exact (ok_not_raise _ _ E)].
    destruct (@cell34 plain_numeric zero_junk (930, 980) (825, 875) root)
      as [[whtlist ev]|e] eqn:E34.
    + destruct (proj2 (@evaluation_labels_from_first_file plain_numeric zero_junk
                         (930, 980) (825, 875) root) whtlist ev E34)
        as (first & hdus & hdu0 & target & scale & nimg & Hrest).
      exists root, whtlist, ev, first, hdus, hdu0, target, scale, nimg.
      split; [reflexivity|]. split; [exact E34|]. exact Hrest.
    + exfalso. vm_compute in E. injection E as <-.
      vm_compute in E34. exact (ok_not_raise _ _ E34).
Defined.

Lemma evaluation_points_pair_up_witness :
  exists root whtlist ev,
    swept_tree = Ok root /\
    @cell34 plain_numeric zero_junk (930, 980) (825, 875) root = Ok (whtlist, ev) /\
    length (ev_fraclist ev) = length whtlist /\
    forall i im, whtlist !! i = Some im ->
      exists hdus hdu0 hdu2 wht pixf frac,
        fits_open im root = Ok hdus /\
        hdus !! 0%nat = Some hdu0 /\
        header_get "D001PIXF" (hdu_header hdu0) = Ok pixf /\
        @double_of_value plain_numeric pixf = Ok frac /\
        ev_fraclist ev !! i = Some frac /\
        hdus !! 2%nat = Some hdu2 /\ hdu_data hdu2 = Some wht /\
        ev_std_med ev !! i
        = Some (@rms_over_median plain_numeric wht (930, 980) (825, 875)).
Proof.
  destruct swept_tree as [root|e] eqn:E;
    [|exfalso; vm_compute in E; exact (ok_not_raise _ _ E)].
  destruct (@cell34 plain_numeric zero_junk (930, 980) (825, 875) root)
    as [[whtlist ev]|e] eqn:E34.
  - exists root, whtlist, ev. split; [reflexivity|]. split; [exact E34|].
    apply (@evaluation_points_pair_up plain_numeric zero_junk
             (930, 980) (825, 875) root whtlist ev E34).
  - exfalso. vm_compute in E. injection E as <-.
    vm_compute in E34. exact (ok_not_raise _ _ E34).
Defined.

(** ** The sub-region of a weight image *)

(** X19: the slice [wht[y0:y1, x0:x1]] with bounds inside the image is
    the rectangle of [y1 - y0] rows and [x1 - x0] columns whose cell
    [(r, c)] is the cell [(y0 + r, x0 + c)] of the image. *)
Theorem sub_region_is_the_rectangle (wht : image) y0 y1 x0 x1 :
  0 <= y0 -> y0 <= y1 -> y1 <= Z.of_nat (length wht) ->
  0 <= x0 -> x0 <= x1 ->
  Forall (fun row => x1 <= Z.of_nat (length row)) wht ->
  length (sub_region wht (y0, y1) (x0, x1)) = Z.to_nat (y1 - y0) /\
  Forall (fun row => length row = Z.to_nat (x1 - x0)) (sub_region wht (y0, y1) (x0, x1)) /\
  forall r c, (r < Z.to_nat (y1 - y0))%nat -> (c < Z.to_nat (x1 - x0))%nat ->
    sub_region wht (y0, y1) (x0, x1) !! r ≫= (fun row => row !! c)
    = wht !! (Z.to_nat y0 + r)%nat ≫= (fun row => row !! (Z.to_nat x0 + c)%nat).
Proof.
  intros Hy0 Hy Hy1 Hx0 Hx Hrows.
  assert (Forall (fun row : list spec_float => x1 <= Z.of_nat (length row))
            (py_slice wht y0 y1)) as Hrows'.
  { unfold py_slice. by apply Forall_take, Forall_drop. }
  unfold sub_region, image in *. cbn [fst snd]. split; [|split].
  - rewrite length_fmap. by apply py_slice_length.
  - apply Forall_fmap. eapply Forall_impl; [exact Hrows'|].
    intros row Hrow. cbn. by apply py_slice_length.
  - intros r c Hr Hc.
    rewrite list_lookup_fmap, py_slice_lookup by done.
    destruct (wht !! (Z.to_nat y0 + r)%nat) as [row|] eqn:Erow; [|done].
    cbn. apply py_slice_lookup; try done.
    rewrite Forall_forall in Hrows. apply Hrows.
    by eapply list_elem_of_lookup_2.
Qed.

Lemma sub_region_is_the_rectangle_witness :
  let wht : image :=
    [ [b64_of_Z 1; b64_of_Z 2; b64_of_Z 3];
      [b64_of_Z 4; b64_of_Z 5; b64_of_Z 6];
      [b64_of_Z 7; b64_of_Z 8; b64_of_Z 9] ] in
  length (sub_region wht (1, 3) (0, 2)) = Z.to_nat (3 - 1) /\
  Forall (fun row => length row = Z.to_nat (2 - 0)) (sub_region wht (1, 3) (0, 2)) /\
  forall r c, (r < Z.to_nat (3 - 1))%nat -> (c < Z.to_nat (2 - 0))%nat ->
    sub_region wht (1, 3) (0, 2) !! r ≫= (fun row => row !! c)
    = wht !! (Z.to_nat 1 + r)%nat ≫= (fun row => row !! (Z.to_nat 0 + c)%nat).
Proof.
  intros wht.
  apply (sub_region_is_the_rectangle wht 1 3 0 2); try lia.
  - simpl. lia.
  - repeat constructor; simpl; lia.
Defined.

(** ** Cell 17: the name of the MDRIZTAB file *)

Lemma prefix_dollar c s :
  String.prefix "$" (String c s) = Ascii.eqb c "$".
Proof.
  change (String.prefix "$" (String c s))
    with (if Ascii.ascii_dec "$" c then String.prefix "" s else false).
  destruct (Ascii.ascii_dec "$" c) as [<-|Hne]; [by destruct s|].
  symmetry. apply Ascii.eqb_neq. congruence.
Qed.

Lemma split_on_no_dollar s : contains "$" s = false -> split_on "$" s = [s].
Proof.
  induction s as [|c s IH]; [done|].
  cbn [contains]. rewrite prefix_dollar. intros [Hc Hs]%orb_false_elim.
  cbn [split_on]. rewrite Hc, (IH Hs). done.
Qed.

Lemma split_on_dollar a b :
  contains "$" a = false ->
  split_on "$" (a +:+ String "$" b) = a :: split_on "$" b.
Proof.
  induction a as [|c a IH].
  - intros _. reflexivity.
  - cbn [contains]. rewrite prefix_dollar. intros [Hc Hs]%orb_false_elim.
    change (String c a +:+ String "$" b) with (String c (a +:+ String "$" b)).
    cbn [split_on]. rewrite Hc, (IH Hs). done.
Qed.

(** X20: what cell 17 takes from the MDRIZTAB card.  For a card value
    [dir$name] with no other dollar sign, [mdz] is [name]; for a string
    without a dollar sign the cell stops with [IndexError]; for a card
    that is not a string, with [AttributeError]. *)
Theorem cell17_takes_name_after_dollar root flt_files first v :
  flt_files !! 0%nat = Some first ->
  fits_getval first "MDRIZTAB" 0 root = Ok v ->
  (forall dir name,
     v = VStr (dir +:+ String "$" name) ->
     contains "$" dir = false -> contains "$" name = false ->
     cell17 root flt_files = Mdz name) /\
  (forall s, v = VStr s -> contains "$" s = false ->
     cell17 root flt_files = MdzRaise IndexError) /\
  ((forall s, v <> VStr s) -> cell17 root flt_files = MdzAttributeError).
Proof.
  intros Hfirst Hv. unfold cell17. rewrite Hfirst, Hv. split; [|split].
  - intros dir name -> Hdir Hname.
    by rewrite split_on_dollar, split_on_no_dollar.
  - intros s -> Hs. by rewrite split_on_no_dollar.
  - intros Hns. destruct v as [s| | |]; try reflexivity. by destruct (Hns s).
Qed.

Lemma cell17_takes_name_after_dollar_witness :
  cell17 moved_tree ["ib1f19l6q_flt.fits"; "ib1f19l7q_flt.fits"]
  = Mdz "3562021pi_mdz.fits".
Proof.
  apply (proj1 (cell17_takes_name_after_dollar moved_tree
                  ["ib1f19l6q_flt.fits"; "ib1f19l7q_flt.fits"] "ib1f19l6q_flt.fits"
                  (VStr "iref$3562021pi_mdz.fits") eq_refl eq_refl)
           "iref" "3562021pi_mdz.fits");
    reflexivity.
Defined.

(** ** Cell 10 does produce its table *)

(** X21: cell 10 does produce its table.  When at least one exposure
    matches, every exposure holds the twelve keywords in the extensions
    the cell reads, and every value can be cast to the dtype of its
    column, the cell returns the sorted file list and a table whose
    columns are named by the twelve keywords, in their order. *)
Theorem cell10_produces_its_table `{Numeric} root :
  glob_flt_files root <> [] ->
  (forall f j kw d,
     f ∈ glob_flt_files root -> keywords !! j = Some kw -> summary_dtypes !! j = Some d ->
     exists v c,
       fits_getval f kw (if (j <? 11)%nat then 0 else 1)%nat root = Ok v /\
       column_cast d v = Ok c) ->
  exists t, cell10 root = Ok (glob_flt_files root, t) /\ colnames t = keywords.
Proof.
  intros Hne Hall.
  destruct (cell10_succeeds root Hall) as [t Ht].
  exists t. split; [exact Ht|].
  unfold cell10 in Ht.
  apply bind_ok_inv in Ht as (data & _ & Ht).
  apply bind_ok_inv in Ht as (t' & Htab & [= <-]).
  by apply table_from_rows_spec in Htab as [Hn _].
Qed.

Lemma cell10_produces_its_table_witness :
  exists t, @cell10 plain_numeric moved_tree = Ok (glob_flt_files moved_tree, t) /\
    colnames t = keywords.
Proof.
  apply (@cell10_produces_its_table plain_numeric moved_tree).
  - discriminate.
  - intros f j kw d Hf Hkw Hd.
    assert (f = "ib1f19l6q_flt.fits" \/ f = "ib1f19l7q_flt.fits") as Hf'.
    { apply list_elem_of_In in Hf. vm_compute in Hf.
      destruct Hf as [<-|[<-|[]]]; [left|right]; reflexivity. }
    do 12 (destruct j as [|j];
           [injection Hkw as <-; injection Hd as <-;
            destruct Hf' as [-> | ->]; eexists _, _;
            (split; [vm_compute; reflexivity|reflexivity])|]).
    discriminate Hkw.
Defined.

(** * The claims about cell 7, the pixel phase and the weight statistic *)

(** ** Claim C2: which steps change the working directory *)

Lemma completed_inv {A} (r : result A) a : completed r = Some a -> r = Ok a.
Proof. destruct r; [by intros [= ->]|done]. Qed.

Lemma read_only_step {A} (r : result A) (root root' : node) :
  (completed r ≫= fun _ => Some root) = Some root' -> root' = root.
Proof. destruct r; [by intros [= <-]|done]. Qed.

Lemma drizzle_runs_write_products `{Drizzlepac} calls root root' :
  NoDup (product_name <$> calls) ->
  for_each AstroDrizzle calls root = Ok root' ->
  calls <> [] ->
  written_by_drizzle calls root root'.
Proof.
  intros Hnd Hrun Hne. destruct root as [c|es].
  { destruct calls as [|call calls]; [done|]. discriminate Hrun. }
  apply sweep_products in Hrun as (es' & -> & Hprod & Hframe); [|exact Hnd].
  exists es, es'. split; [reflexivity|]. split; [reflexivity|]. intros n.
  destruct (decide (n ∈ product_name <$> calls)) as [Hin|Hnin].
  - right. apply list_elem_of_fmap in Hin as (call & -> & Hcall).
    destruct (Hprod call Hcall) as (root_i & c & Hc & Hl).
    by exists call, root_i, c.
  - left. by apply Hframe.
Qed.

(** C2, amended: of the steps of the notebook only cell 7 changes the
    working directory by its own code.  When cell 7 completes, the
    directory [mastDownload] is gone, every path matched by
    ['./mastDownload/HST/*/*fl?.fits'] has an entry under its base name in
    the working directory, which is the very file that the path named
    whenever no two matched paths share a base name, and every other
    entry of the working directory is as it was before.  The drizzle cells
    21 and 29 change the directory only in the products that the drizzle
    library writes, cell 17 only in what the external [crds] tool leaves,
    and every other step gives back the directory as it found it. *)
Theorem in_repo_steps_and_the_disk `{Numeric} `{Drizzlepac} `{Crds} s root root' :
  disk_after s root = Some root' ->
  match s with
  | MoveDownloads =>
      exists es es', root = Dir es /\ root' = Dir es' /\
        dir_lookup "mastDownload" es' = None /\
        (forall p, In p (glob download_pattern root) ->
           is_Some (dir_lookup (basename p) es')) /\
        (NoDup (map basename (glob download_pattern root)) ->
         forall p, In p (glob download_pattern root) ->
           is_Some (resolve p root) /\
           dir_lookup (basename p) es' = resolve p root) /\
        (forall n, n <> "mastDownload" ->
           ~ In n (map basename (glob download_pattern root)) ->
           dir_lookup n es' = dir_lookup n es)
  | ReferenceRuns flt_files selected_params =>
      written_by_drizzle
        [noopt_call flt_files selected_params; opt_call flt_files selected_params]
        root root'
  | PixfracSweep flt_files selected_params =>
      written_by_drizzle (sweep_call flt_files selected_params <$> pixfracs) root root'
  | SyncMdriztab flt_files =>
      exists mdz, cell17 root flt_files = Mdz mdz /\ root' = crds_sync mdz iref root
  | HeaderTable | DitherPhases _ _ _ | AlignmentTable _ | SelectParams _ _
  | ReadProduct _ | Evaluate _ _ _ => root' = root
  end.
Proof.
  destruct s; cbn [disk_after]; intros Hrun;
    try (by apply read_only_step in Hrun).
  - apply completed_inv in Hrun. destruct root as [c|es]; [discriminate Hrun|].
    apply cell7_inv in Hrun as (es1 & Hloop & ->).
    assert (Forall downloaded (glob download_pattern (Dir es))) as Hd.
    { eapply Forall_impl; [apply glob_download_paths|]. apply download_path_downloaded. }
    destruct (move_all_effect _ _ _ Hd Hloop) as (es'' & [= <-] & Hin & Hfr).
    assert (forall p, In p (glob download_pattern (Dir es)) ->
              basename p <> "mastDownload") as Hbn.
    { intros p Hp. rewrite Forall_forall in Hd.
      by apply downloaded_basename_ne, Hd, list_elem_of_In. }
    exists es, (dir_remove "mastDownload" es1).
    split; [reflexivity|]. split; [reflexivity|].
    split; [apply dir_lookup_remove_eq|]. split; [|split].
    + intros p Hp. rewrite dir_lookup_remove_ne by (by apply Hbn). by apply Hin.
    + intros Hnd p Hp.
      destruct (move_all_content _ _ _ (glob_download_paths _) Hnd Hloop)
        as (es'' & [= <-] & Hc).
      assert (dir_lookup (basename p) (dir_remove "mastDownload" es1)
              = resolve p (Dir es)) as Heq.
      { rewrite dir_lookup_remove_ne by (by apply Hbn). by apply Hc. }
      split; [|exact Heq]. rewrite <- Heq.
      rewrite dir_lookup_remove_ne by (by apply Hbn). by apply Hin.
    + intros n Hn Hnin. rewrite dir_lookup_remove_ne by done. by apply Hfr.
  - destruct (cell17 root flt_files) as [mdz| |]; try discriminate Hrun.
    injection Hrun as <-. by exists mdz.
  - apply completed_inv in Hrun. unfold cell21 in Hrun.
    apply drizzle_runs_write_products.
    + apply (@bool_decide_unpack _ (NoDup_dec _)). vm_compute. exact I.
    + apply bind_ok_inv in Hrun as (r1 & Ha & Hb).
      unfold drizzle_step in Ha, Hb.
      apply bind_ok_inv in Ha as (_ & _ & Ha). apply bind_ok_inv in Hb as (_ & _ & Hb).
      cbn [for_each]. rewrite Ha. cbn [mbind result_bind]. rewrite Hb. reflexivity.
    + discriminate.
  - apply completed_inv in Hrun. unfold cell29 in Hrun.
    apply drizzle_steps_run in Hrun.
    apply drizzle_runs_write_products; [|exact Hrun|].
    + rewrite sweep_product_names.
      apply (@bool_decide_unpack _ (NoDup_dec _)). vm_compute. exact I.
    + intros Hnil. apply (f_equal length) in Hnil. rewrite length_fmap in Hnil.
      vm_compute in Hnil. discriminate Hnil.
Qed.

Lemma in_repo_steps_and_the_disk_witness :
  (exists es es', download_tree = Dir es /\ moved_tree = Dir es' /\
     dir_lookup "mastDownload" es' = None /\
     (forall p, In p (glob download_pattern download_tree) ->
        is_Some (dir_lookup (basename p) es')) /\
     (NoDup (map basename (glob download_pattern download_tree)) ->
      forall p, In p (glob download_pattern download_tree) ->
        is_Some (resolve p download_tree) /\
        dir_lookup (basename p) es' = resolve p download_tree) /\
     (forall n, n <> "mastDownload" ->
        ~ In n (map basename (glob download_pattern download_tree)) ->
        dir_lookup n es' = dir_lookup n es)) /\
  dir_lookup "ib1f19l6q_flt.fits" moved_entries
    = resolve ["."; "mastDownload"; "HST"; "ib1f19l6q"; "ib1f19l6q_flt.fits"] download_tree /\
  @disk_after plain_numeric example_drizzlepac idle_crds HeaderTable moved_tree
    = Some moved_tree.
Proof.
  split; [|split; reflexivity].
  apply (@in_repo_steps_and_the_disk plain_numeric example_drizzlepac idle_crds
           MoveDownloads download_tree moved_tree).
  reflexivity.
Defined.

(** ** Claim C3: how the pixel phase is computed *)




(** ** Claim C4: the statistic of a weight image *)

(** The slice [wht[y0:y1, x0:x1]] with bounds inside the image. *)
Lemma sub_region_rectangle (wht : image) y0 y1 x0 x1 :
  0 <= y0 -> y0 <= y1 -> y1 <= Z.of_nat (length wht) ->
  0 <= x0 -> x0 <= x1 ->
  Forall (fun row => x1 <= Z.of_nat (length row)) wht ->
  length (sub_region wht (y0, y1) (x0, x1)) = Z.to_nat (y1 - y0) /\
  Forall (fun row => length row = Z.to_nat (x1 - x0)) (sub_region wht (y0, y1) (x0, x1)) /\
  forall r c, (r < Z.to_nat (y1 - y0))%nat -> (c < Z.to_nat (x1 - x0))%nat ->
    sub_region wht (y0, y1) (x0, x1) !! r ≫= (fun row => row !! c)
    = wht !! (Z.to_nat y0 + r)%nat ≫= (fun row => row !! (Z.to_nat x0 + c)%nat).
Proof.
  intros Hy0 Hy Hy1 Hx0 Hx Hrows.
  assert (Forall (fun row : list spec_float => x1 <= Z.of_nat (length row))
            (py_slice wht y0 y1)) as Hrows'.
  { unfold py_slice. by apply Forall_take, Forall_drop. }
  unfold sub_region, image in *. cbn [fst snd]. split; [|split].
  - rewrite length_fmap. by apply py_slice_length.
  - apply Forall_fmap. eapply Forall_impl; [exact Hrows'|].
    intros row Hrow. cbn. by apply py_slice_length.
  - intros r c Hr Hc.
    rewrite list_lookup_fmap, py_slice_lookup by done.
    destruct (wht !! (Z.to_nat y0 + r)%nat) as [row|] eqn:Erow; [|done].
    cbn. apply py_slice_lookup; try done.
    rewrite Forall_forall in Hrows. apply Hrows.
    by eapply list_elem_of_lookup_2.
Qed.

(** C4: when the evaluation step completes, the entry of every weight
    image of the list is the standard deviation of a sub-region divided by
    the median of that same sub-region: the binary32 quotient of the two,
    stored as a binary64 number.  The sub-region is
    [wht[ylims[0]:ylims[1], xlims[0]:xlims[1]]] with [wht] the data of
    extension 2 of that image and the same bounds for every image; for
    bounds inside the image it is the rectangle of those rows and
    columns. *)
Theorem weight_statistic_computed `{Numeric} junk ylims xlims root whtlist ev :
  let widen64 := fun a : spec_float =>
    match a with S754_finite s m e => binary_round 53 1024 s m e | _ => a end in
  cell34 junk ylims xlims root = Ok (whtlist, ev) ->
  length (ev_std_med ev) = length whtlist /\
  forall i im, whtlist !! i = Some im ->
    exists hdus hdu2 wht region,
      fits_open im root = Ok hdus /\
      hdus !! 2%nat = Some hdu2 /\
      hdu_data hdu2 = Some wht /\
      region = sub_region wht ylims xlims /\
      ev_std_med ev !! i
      = Some (widen64 (SFdiv 24 128 (np_std region) (np_median region))) /\
      (0 <= ylims.1 -> ylims.1 <= ylims.2 -> ylims.2 <= Z.of_nat (length wht) ->
       0 <= xlims.1 -> xlims.1 <= xlims.2 ->
       Forall (fun row => xlims.2 <= Z.of_nat (length row)) wht ->
       length region = Z.to_nat (ylims.2 - ylims.1) /\
       Forall (fun row => length row = Z.to_nat (xlims.2 - xlims.1)) region /\
       forall r c,
         (r < Z.to_nat (ylims.2 - ylims.1))%nat ->
         (c < Z.to_nat (xlims.2 - xlims.1))%nat ->
         region !! r ≫= (fun row => row !! c)
         = wht !! (Z.to_nat ylims.1 + r)%nat
             ≫= (fun row => row !! (Z.to_nat xlims.1 + c)%nat)).
Proof.
  intros widen64 (_ & L1 & _ & Hall)%cell34_inv. split; [exact L1|].
  intros i im Him.
  destruct (Hall i im Him)
    as (ratio & frac & (hdus & hdu0 & hdu2 & wht & pixf & ? & ? & ? & ? & -> & ?) & ? & ?).
  exists hdus, hdu2, wht, (sub_region wht ylims xlims).
  repeat (split; [done|]).
  destruct ylims as [y0 y1], xlims as [x0 x1]. cbn [fst snd].
  intros. by apply sub_region_rectangle.
Qed.

Lemma weight_statistic_computed_witness :
  exists whtlist ev,
    @cell34 probe_numeric zero_junk (1, 3) (1, 3) weights_tree = Ok (whtlist, ev) /\
    whtlist = ["f160w_0.1_drz.fits"; "f160w_0.2_drz.fits"] /\
    sub_region [ [b64_of_Z 1; b64_of_Z 2; b64_of_Z 3; b64_of_Z 4];
                 [b64_of_Z 5; b64_of_Z 6; b64_of_Z 7; b64_of_Z 8];
                 [b64_of_Z 9; b64_of_Z 10; b64_of_Z 11; b64_of_Z 12];
                 [b64_of_Z 13; b64_of_Z 14; b64_of_Z 15; b64_of_Z 16] ] (1, 3) (1, 3)
      = [ [b64_of_Z 6; b64_of_Z 7]; [b64_of_Z 10; b64_of_Z 11] ] /\
    ev_std_med ev
      = [ b64_widen (SFdiv 24 128 (b64_of_Z 4) (b64_of_Z 6));
          b64_widen (SFdiv 24 128 (b64_of_Z 4) (b64_of_Z 12)) ] /\
    forall i im, whtlist !! i = Some im ->
      exists hdus hdu2 wht region,
        fits_open im weights_tree = Ok hdus /\
        hdus !! 2%nat = Some hdu2 /\
        hdu_data hdu2 = Some wht /\
        region = sub_region wht (1, 3) (1, 3) /\
        ev_std_med ev !! i
        = Some (b64_widen (SFdiv 24 128 (@np_std probe_numeric region)
                                        (@np_median probe_numeric region))) /\
        length region = 2%nat /\
        Forall (fun row => length row = 2%nat) region /\
        forall r c, (r < 2)%nat -> (c < 2)%nat ->
          region !! r ≫= (fun row => row !! c)
          = wht !! (1 + r)%nat ≫= (fun row => row !! (1 + c)%nat).
Proof.
  destruct (@cell34 probe_numeric zero_junk (1, 3) (1, 3) weights_tree)
    as [[whtlist ev]|err] eqn:E; [|exfalso; vm_compute in E; exact (ok_not_raise _ _ E)].
  exists whtlist, ev. split; [reflexivity|].
  pose proof (@weight_statistic_computed probe_numeric zero_junk (1, 3) (1, 3)
                weights_tree whtlist ev E) as (_ & Hall).
  vm_compute in E. injection E as <- <-.
  split; [reflexivity|]. split; [vm_compute; reflexivity|].
  split; [vm_compute; reflexivity|].
  intros i im Him.
  destruct (Hall i im Him) as (hdus & hdu2 & wht & region & Ho & H2 & Hw & Hr & Hs & Hrect).
  exists hdus, hdu2, wht, region.
  split; [exact Ho|]. split; [exact H2|]. split; [exact Hw|]. split; [exact Hr|].
  split; [exact Hs|].
  apply Hrect; cbn [fst snd]; try lia.
  - destruct i as [|[|i]]; [| |discriminate Him]; injection Him as <-;
      vm_compute in Ho; injection Ho as <-; injection H2 as <-; injection Hw as <-;
      simpl; lia.
  - destruct i as [|[|i]]; [| |discriminate Him]; injection Him as <-;
      vm_compute in Ho; injection Ho as <-; injection H2 as <-; injection Hw as <-;
      repeat constructor; simpl; lia.
Defined.
